(** * NexZen: the agent orchestration and tool-dispatch core

    A shallow embedding of [main_agent.py] (the Master agent / Router),
    [gmail_agent.py] and [todo.py] (the two MCP sub-agents), and of the two
    MCP servers they talk to, [improved_mcp_server.py] and
    [gmail_mcp_server.py], with their libraries [msgraph_todo_lib.py] and
    [gmail_lib.py].

    Conventions of the embedding.
    - A Python coroutine is a computation in the monad [M]: it threads a
      [world] (the objects the agents mutate plus the trace of external
      interactions) and either returns a value or raises.  State changes made
      before an exception is raised are kept, as in Python.
    - Everything outside the repository is an oracle of the [environment]:
      the reasoning backend (the LLM client), the MCP client, [json.loads],
      [repr] of containers.  Each oracle sees the whole trace so far, so an
      oracle may answer differently each time it is asked.  An oracle fails
      with an instance of a subclass of [Exception]; [KeyboardInterrupt]
      arrives only at the prompt of the interactive loop.
    - [print] is not modelled.
    - A [string] holds the UTF-8 bytes of a Python [str]; lengths, slices and
      [strip] go by code point, as in Python. *)

From stdpp Require Import gmap strings list pretty.
From Stdlib Require Import ZArith Ascii.

Set Default Proof Using "Type".
#[local] Set Warnings "-register-all".

(** ** Exceptions and outcomes *)

Inductive exn :=
| Exception (cls : string) (msg : string)  (* any subclass of Exception; str(e) = msg *)
| KeyboardInterrupt.

Inductive outcome (A : Type) :=
| Ok (a : A)
| Raise (e : exn).
Arguments Ok {A} a.
Arguments Raise {A} e.

(** What an external service answers: a value, or a failure that the client
    library raises as an [Exception] of class [cls] with text [msg]. *)
Inductive fallible (A : Type) :=
| Success (a : A)
| Failure (cls : string) (msg : string).
Arguments Success {A} a.
Arguments Failure {A} cls msg.

(** ** JSON values as Python sees them after [json.loads] *)

Inductive json :=
| JNull
| JBool (b : bool)
| JInt (z : Z)
| JFloat (mantissa : Z) (exponent : Z)
| JStr (s : string)
| JList (l : list json)
| JObj (d : list (string * json)).  (* insertion-ordered dict, keys unique *)

Abbreviation dict := (list (string * json)).

Fixpoint dict_lookup (k : string) (d : dict) : option json :=
  match d with
  | [] => None
  | (k', v) :: d' => if String.eqb k k' then Some v else dict_lookup k d'
  end.

(** [d[k] = v] on a dict: replaces in place, or appends a new key. *)
Fixpoint dict_set (k : string) (v : json) (d : dict) : dict :=
  match d with
  | [] => [(k, v)]
  | (k', v') :: d' =>
      if String.eqb k k' then (k', v) :: d' else (k', v') :: dict_set k v d'
  end.

Definition type_name (v : json) : string :=
  match v with
  | JNull => "NoneType"
  | JBool _ => "bool"
  | JInt _ => "int"
  | JFloat _ _ => "float"
  | JStr _ => "str"
  | JList _ => "list"
  | JObj _ => "dict"
  end.

(** Truth value of [v] in [if v:] / [if not v:]. *)
Definition py_truthy (v : json) : bool :=
  match v with
  | JNull => false
  | JBool b => b
  | JInt z => negb (Z.eqb z 0)
  | JFloat m _ => negb (Z.eqb m 0)
  | JStr s => negb (String.eqb s EmptyString)
  | JList l => match l with [] => false | _ => true end
  | JObj d => match d with [] => false | _ => true end
  end.

Definition is_str (k : string) (v : json) : bool :=
  match v with JStr s => String.eqb k s | _ => false end.

Definition is_substring (k s : string) : bool :=
  match String.index 0 k s with Some _ => true | None => false end.

Definition TypeError (msg : string) : exn := Exception "TypeError" msg.
Definition KeyError (k : string) : exn := Exception "KeyError" ("'" +:+ k +:+ "'").
Definition AttributeError (msg : string) : exn := Exception "AttributeError" msg.
Definition RuntimeError (msg : string) : exn := Exception "RuntimeError" msg.

(** [k in v] for a string [k]. *)
Definition py_contains (k : string) (v : json) : outcome bool :=
  match v with
  | JObj d => Ok (bool_decide (is_Some (dict_lookup k d)))
  | JList l => Ok (existsb (is_str k) l)
  | JStr s => Ok (is_substring k s)
  | _ => Raise (TypeError ("argument of type '" +:+ type_name v +:+ "' is not iterable"))
  end.

(** [v[k]] for a string [k]. *)
Definition py_getitem (v : json) (k : string) : outcome json :=
  match v with
  | JObj d => match dict_lookup k d with Some x => Ok x | None => Raise (KeyError k) end
  | JList _ => Raise (TypeError "list indices must be integers or slices, not str")
  | JStr _ => Raise (TypeError "string indices must be integers, not 'str'")
  | _ => Raise (TypeError ("'" +:+ type_name v +:+ "' object is not subscriptable"))
  end.

(** [v.get(k, default)]; [v.get(k)] is [py_get v k JNull]. *)
Definition py_get (v : json) (k : string) (default : json) : outcome json :=
  match v with
  | JObj d => Ok (match dict_lookup k d with Some x => x | None => default end)
  | _ => Raise (AttributeError ("'" +:+ type_name v +:+ "' object has no attribute 'get'"))
  end.

(** *** Strings by code point

    A [string] holds the UTF-8 encoding of a Python [str].  Python counts,
    cuts, strips and iterates by code point, so these operations are defined
    on the code points of a string: a code point is a byte that is not a
    continuation byte (10xxxxxx) together with the continuation bytes that
    follow it. *)

Definition is_continuation (c : ascii) : bool :=
  let n := nat_of_ascii c in (128 <=? n) && (n <=? 191).

(** [s] goes on with the code point begun before it. *)
Definition continues (s : string) : bool :=
  match s with
  | String c _ => is_continuation c
  | EmptyString => false
  end.

(** The code points of a string, each with its bytes. *)
Fixpoint chars (s : string) : list string :=
  match s with
  | EmptyString => []
  | String c s' =>
      match chars s' with
      | ch :: rest =>
          if continues s' then String c ch :: rest
          else String c EmptyString :: ch :: rest
      | [] => [String c EmptyString]
      end
  end.

(** [len(s)] *)
Definition str_len (s : string) : nat := length (chars s).

(** [s[:n]] *)
Definition str_take (n : nat) (s : string) : string :=
  String.concat EmptyString (take n (chars s)).

(** [v[:n]]. *)
Definition py_slice_to (n : nat) (v : json) : outcome json :=
  match v with
  | JStr s => Ok (JStr (str_take n s))
  | JList l => Ok (JList (take n l))
  | JObj _ => Raise (TypeError "unhashable type: 'slice'")
  | _ => Raise (TypeError ("'" +:+ type_name v +:+ "' object is not subscriptable"))
  end.

(** [len(v)]. *)
Definition py_len (v : json) : outcome nat :=
  match v with
  | JStr s => Ok (str_len s)
  | JList l => Ok (length l)
  | JObj d => Ok (length d)
  | _ => Raise (TypeError ("object of type '" +:+ type_name v +:+ "' has no len()"))
  end.

(** The items a [for] loop sees when it iterates over [v]. *)
Definition py_iter (v : json) : outcome (list json) :=
  match v with
  | JList l => Ok l
  | JStr s => Ok (JStr <$> chars s)
  | JObj d => Ok ((fun kv => JStr kv.1) <$> d)
  | _ => Raise (TypeError ("'" +:+ type_name v +:+ "' object is not iterable"))
  end.

Fixpoint all_strs (l : list json) : option (list string) :=
  match l with
  | [] => Some []
  | JStr s :: l' => match all_strs l' with Some r => Some (s :: r) | None => None end
  | _ :: _ => None
  end.

(** [sep.join(v)]. *)
Definition py_join (sep : string) (v : json) : outcome string :=
  match py_iter v with
  | Raise _ => Raise (TypeError "can only join an iterable")
  | Ok items =>
      match all_strs items with
      | Some ss => Ok (String.concat sep ss)
      | None => Raise (TypeError "sequence item: expected str instance")
      end
  end.

(** [enumerate(l, 1)]. *)
Fixpoint enumerate_from {A} (i : nat) (l : list A) : list (nat * A) :=
  match l with
  | [] => []
  | x :: l' => (i, x) :: enumerate_from (S i) l'
  end.

Fixpoint byte_values (s : string) : list nat :=
  match s with
  | EmptyString => []
  | String c s' => nat_of_ascii c :: byte_values s'
  end.

(** [ch.isspace()] for one code point: the characters [str.strip()] removes.
    These are U+0009 to U+000D, U+001C to U+0020, U+0085, U+00A0, U+1680,
    U+2000 to U+200A, U+2028, U+2029, U+202F, U+205F and U+3000. *)
Definition py_isspace (ch : string) : bool :=
  match byte_values ch with
  | [n] => ((9 <=? n) && (n <=? 13)) || ((28 <=? n) && (n <=? 32))
  | [a; b] => (a =? 194) && ((b =? 133) || (b =? 160))
  | [a; b; c] =>
      ((a =? 225) && (b =? 154) && (c =? 128))
      || ((a =? 226) && (b =? 128) &&
          (((128 <=? c) && (c <=? 138)) || (c =? 168) || (c =? 169) || (c =? 175)))
      || ((a =? 226) && (b =? 129) && (c =? 159))
      || ((a =? 227) && (b =? 128) && (c =? 128))
  | _ => false
  end.

Fixpoint lstrip (l : list string) : list string :=
  match l with
  | ch :: l' => if py_isspace ch then lstrip l' else l
  | [] => []
  end.

Fixpoint rstrip (l : list string) : list string :=
  match l with
  | ch :: l' =>
      match rstrip l' with
      | [] => if py_isspace ch then [] else [ch]
      | r => ch :: r
      end
  | [] => []
  end.

(** [s.strip()]. *)
Definition py_strip (s : string) : string :=
  String.concat EmptyString (rstrip (lstrip (chars s))).

(** [s.isascii()] *)
Fixpoint py_isascii (s : string) : bool :=
  match s with
  | EmptyString => true
  | String c s' => (nat_of_ascii c <? 128) && py_isascii s'
  end.

Definition lower_byte (c : ascii) : ascii :=
  let n := nat_of_ascii c in
  if (65 <=? n) && (n <=? 90) then ascii_of_nat (n + 32) else c.

(** [s.lower()] for an ASCII string: the letters A to Z become a to z. *)
Fixpoint ascii_lower (s : string) : string :=
  match s with
  | EmptyString => EmptyString
  | String c s' => String (lower_byte c) (ascii_lower s')
  end.

(** ** Messages, conversation state, objects *)

Record tool_call := ToolCall {
  tc_name : string;
  tc_args : dict;
  tc_id : string }.

Inductive message :=
| SystemMessage (content : string)
| HumanMessage (content : string)
| AIMessage (content : string) (tool_calls : list tool_call)
| ToolMessage (content : string) (name : string) (tool_call_id : string).

Definition content (m : message) : string :=
  match m with
  | SystemMessage c | HumanMessage c | AIMessage c _ | ToolMessage c _ _ => c
  end.

Inductive sub_agent := Gmail | Todo.
Inductive agent := Master | Sub (s : sub_agent).

#[global] Instance sub_agent_eq_dec : EqDecision sub_agent.
Proof. solve_decision. Defined.
#[global] Instance agent_eq_dec : EqDecision agent.
Proof. solve_decision. Defined.

(** A content item of an MCP reply; only text items have a [.text]. *)
Inductive content_item :=
| TextContent (text : string)
| ImageContent (data : string).

(** What the agents do to the outside, in the order they do it. *)
Inductive event :=
| EvConnect (s : sub_agent)                               (* Client(url).__aenter__() *)
| EvDisconnect (s : sub_agent)                            (* client.__aexit__() *)
| EvCallTool (s : sub_agent) (tool_name : string) (params : dict)
| EvModel (a : agent) (full_messages : list message).     (* llm_with_tools.ainvoke *)

Abbreviation loc := positive.

(** A state dictionary ([AgentState] / [MasterAgentState]): the list object
    bound to ["messages"] lives in the heap, the other keys are plain values. *)
Record conv_state := ConvState {
  messages : loc;
  fields : dict }.

(** A [GmailMCPAgent] / [TodoMCPAgent] instance. *)
Record agent_obj := AgentObj {
  connected : bool;
  mcp_client : bool;                    (* self.mcp_client is not None *)
  graph : bool;                         (* self.graph is not None *)
  _current_state : option conv_state }. (* attribute set by the Master's wrappers *)

(** The [MasterAgent] instance. *)
Record master_obj := MasterObj {
  self_todo_agent : bool;               (* self.todo_agent is not None *)
  self_gmail_agent : bool;              (* self.gmail_agent is not None *)
  master_graph : bool }.

Record world := World {
  trace : list event;
  heap : gmap loc (list message);
  gmail_obj : agent_obj;
  todo_obj : agent_obj;
  master : master_obj }.

Definition obj (s : sub_agent) (w : world) : agent_obj :=
  match s with Gmail => gmail_obj w | Todo => todo_obj w end.

Definition set_obj (s : sub_agent) (o : agent_obj) (w : world) : world :=
  match s with
  | Gmail => World (trace w) (heap w) o (todo_obj w) (master w)
  | Todo => World (trace w) (heap w) (gmail_obj w) o (master w)
  end.

Definition log (e : event) (w : world) : world :=
  World (trace w ++ [e]) (heap w) (gmail_obj w) (todo_obj w) (master w).

Definition set_heap (h : gmap loc (list message)) (w : world) : world :=
  World (trace w) h (gmail_obj w) (todo_obj w) (master w).

Definition set_connected (b : bool) (o : agent_obj) : agent_obj :=
  AgentObj b (mcp_client o) (graph o) (_current_state o).
Definition set_mcp_client (b : bool) (o : agent_obj) : agent_obj :=
  AgentObj (connected o) b (graph o) (_current_state o).
Definition set_current_state (st : option conv_state) (o : agent_obj) : agent_obj :=
  AgentObj (connected o) (mcp_client o) (graph o) st.

(** ** The monad of coroutines *)

Definition M (A : Type) : Type := world -> outcome A * world.

#[global] Instance M_ret : MRet M := fun A a w => (Ok a, w).
#[global] Instance M_bind : MBind M := fun A B f m w =>
  match m w with
  | (Ok a, w') => f a w'
  | (Raise e, w') => (Raise e, w')
  end.

Definition raise {A} (e : exn) : M A := fun w => (Raise e, w).
Definition get_world : M world := fun w => (Ok w, w).
Definition modify (f : world -> world) : M unit := fun w => (Ok tt, f w).
Definition lift {A} (o : outcome A) : M A := fun w => (o, w).

(** [try: body except Exception as e: handler(e)]; anything that is not an
    [Exception] passes through. *)
Definition try_except {A} (body : M A) (handler : string -> string -> M A) : M A :=
  fun w =>
    match body w with
    | (Raise (Exception cls msg), w') => handler cls msg w'
    | r => r
    end.

(** Ask an oracle, failures become raised exceptions. *)
Definition await {A} (r : fallible A) : M A :=
  match r with
  | Success a => mret a
  | Failure cls msg => raise (Exception cls msg)
  end.

#[global] Instance outcome_ret : MRet outcome := fun A a => Ok a.
#[global] Instance outcome_bind : MBind outcome := fun A B f o =>
  match o with
  | Ok a => f a
  | Raise e => Raise e
  end.

(** A [for] loop whose body extends the string [output] and may raise. *)
Fixpoint for_loop {A} (body : string -> A -> outcome string)
    (output : string) (l : list A) : outcome string :=
  match l with
  | [] => Ok output
  | x :: l' =>
      match body output x with
      | Ok output' => for_loop body output' l'
      | Raise e => Raise e
      end
  end.

Definition LF : string := String (ascii_of_nat 10) EmptyString.

(** ** The environment: everything the repository calls but does not define *)

Record environment := Environment {
  (* fastmcp: [await Client(url).__aenter__()] *)
  mcp_enter : sub_agent -> list event -> fallible unit;
  (* fastmcp: [await client.call_tool(name, params)], the content items of the reply *)
  mcp_call_tool : sub_agent -> list event -> string -> dict -> fallible (list content_item);
  (* [json.loads] *)
  json_loads : string -> fallible json;
  (* the reasoning backend: [await llm_with_tools.ainvoke(full_messages)] *)
  llm_ainvoke : agent -> list event -> list message -> fallible (string * list tool_call);
  (* [str] of a float, a list or a dict *)
  py_repr : json -> string;
  (* prompts/main_prompt.py, prompts/gmail_prompt.py, prompts/todo_prompt.py *)
  system_prompt : agent -> string;
  (* LangGraph: number of node executions allowed in one [ainvoke] *)
  recursion_limit : nat;
  (* LangGraph ToolNode: text of the tool message for an unregistered tool name *)
  invalid_tool_text : string -> string;
  (* LangGraph ToolNode: text of the tool message for a tool that raised *)
  tool_error_text : string -> string -> string;
  (* [str.lower] of a string that is not all ASCII: the Unicode case mappings *)
  unicode_lower : string -> string }.

Section Agents.

Context (E : environment).

(** [str(v)], as an f-string renders [{v}]. *)
Definition py_str (v : json) : string :=
  match v with
  | JStr s => s
  | JNull => "None"
  | JBool true => "True"
  | JBool false => "False"
  | JInt z => pretty z
  | _ => py_repr E v
  end.

(** ** Tool Invoker: [connect_mcp], [disconnect_mcp], [call_mcp_tool] *)

Definition upd (s : sub_agent) (f : agent_obj -> agent_obj) : M unit :=
  modify (fun w => set_obj s (f (obj s w)) w).

(** [await self.mcp_client.__aenter__()] *)
Definition client_enter (s : sub_agent) : M unit :=
  fun w => await (mcp_enter E s (trace w)) (log (EvConnect s) w).

(** [await self.mcp_client.call_tool(tool_name, params)] *)
Definition client_call_tool (s : sub_agent) (tool_name : string) (params : dict)
    : M (list content_item) :=
  fun w =>
    if mcp_client (obj s w)
    then await (mcp_call_tool E s (trace w) tool_name params)
               (log (EvCallTool s tool_name params) w)
    else (Raise (AttributeError "'NoneType' object has no attribute 'call_tool'"), w).

Definition init_failure (s : sub_agent) : string :=
  match s with
  | Gmail => "Failed to initialize Gmail MCP server: "
  | Todo => "Failed to initialize MCP server: "
  end.

Definition connect_mcp (s : sub_agent) : M unit :=
  try_except
    (w ← get_world;
     if negb (connected (obj s w)) then
       upd s (set_mcp_client true);;
       client_enter s;;
       upd s (set_connected true)
     else mret tt)
    (fun _ msg => raise (RuntimeError (init_failure s +:+ msg))).

(** Closing a client can fail as well; what fastmcp answers to
    [await client.__aexit__(None, None, None)] is a parameter of its own. *)
Context (mcp_exit : sub_agent -> list event -> fallible unit).

(** [await self.mcp_client.__aexit__(None, None, None)] *)
Definition client_exit (s : sub_agent) : M unit :=
  fun w => await (mcp_exit s (trace w)) (log (EvDisconnect s) w).

Definition disconnect_mcp (s : sub_agent) : M unit :=
  w ← get_world;
  if connected (obj s w) && mcp_client (obj s w) then
    client_exit s;;
    upd s (set_connected false)
  else mret tt.

(** [result[0].text] *)
Definition item_text (item : content_item) : outcome string :=
  match item with
  | TextContent text => Ok text
  | ImageContent _ => Raise (AttributeError "'ImageContent' object has no attribute 'text'")
  end.

Definition error_dict (msg : string) : json := JObj [("error", JStr msg)].

(** [params or {}] *)
Definition params_or_empty (params : option dict) : dict :=
  match params with Some d => d | None => [] end.

(** The membership test ['error' not in parsed_result] is the one the
    success message evaluates; it raises on a number, a boolean or null. *)
Definition call_mcp_tool (s : sub_agent) (tool_name : string) (params : option dict)
    : M json :=
  try_except
    (w ← get_world;
     (if negb (connected (obj s w)) then connect_mcp s else mret tt);;
     result ← client_call_tool s tool_name (params_or_empty params);
     match result with
     | [] => mret (error_dict "No result received from MCP server")
     | item :: _ =>
         text_content ← lift (item_text item);
         parsed_result ← await (json_loads E text_content);
         _ ← lift (py_contains "error" parsed_result);
         mret parsed_result
     end)
    (fun _ msg => mret (error_dict ("Error calling MCP tool " +:+ tool_name +:+ ": " +:+ msg))).

(** The common head of every adapter:
    [if "error" in result: return f"<prefix>{result['error']}"]. *)
Definition on_error (prefix : string) (result : json) (otherwise : M string) : M string :=
  has_error ← lift (py_contains "error" result);
  if (has_error : bool) then
    err ← lift (py_getitem result "error");
    mret (prefix +:+ py_str err)
  else otherwise.

(** [' for query: ' + query if query else ''] *)
Definition for_query (query : string) : string :=
  if String.eqb query EmptyString then EmptyString else " for query: " +:+ query.

(** ** Gmail tool adapters ([GmailMCPAgent.setup_tools]) *)

Definition list_messages_entry (output : string) (im : nat * json) : outcome string :=
  let '(i, msg) := im in
  v ← py_get msg "from" (JStr "Unknown"); from_addr ← py_slice_to 30 v;
  v ← py_get msg "subject" (JStr "No Subject"); subject ← py_slice_to 50 v;
  v ← py_get msg "date" (JStr "Unknown"); date ← py_slice_to 20 v;
  v ← py_get msg "labelIds" (JList []); v ← py_slice_to 3 v; labels ← py_join ", " v;
  id ← py_get msg "id" (JStr "Unknown");
  mret (output
        +:+ pretty i +:+ ". From: " +:+ py_str from_addr +:+ LF
        +:+ "   Subject: " +:+ py_str subject +:+ LF
        +:+ "   Date: " +:+ py_str date +:+ LF
        +:+ "   Labels: " +:+ labels +:+ LF
        +:+ "   ID: " +:+ py_str id +:+ LF +:+ LF).

Definition list_messages (query : string) (max_results : Z) : M string :=
  result ← call_mcp_tool Gmail "list_messages"
             (Some [("query", JStr query); ("max_results", JInt max_results)]);
  on_error "Error listing messages: " result (
    messages ← lift (py_get result "messages" (JList []));
    if negb (py_truthy messages) then
      mret ("No messages found" +:+ for_query query +:+ ".")
    else
      n ← lift (py_len messages);
      items ← lift (py_iter messages);
      lift (for_loop list_messages_entry
              ("Found " +:+ pretty n +:+ " messages" +:+ for_query query +:+ ":" +:+ LF +:+ LF)
              (enumerate_from 1 items))).

Definition attachment_line (output : string) (att : json) : outcome string :=
  filename ← py_get att "filename" (JStr "Unknown");
  mime ← py_get att "mimeType" (JStr "Unknown type");
  mret (output +:+ "  • " +:+ py_str filename +:+ " (" +:+ py_str mime +:+ ")" +:+ LF).

Definition get_message_render (message : json) : outcome string :=
  let output := "📧 Message Details:" +:+ LF in
  v ← py_get message "from" (JStr "Unknown");
  let output := output +:+ "From: " +:+ py_str v +:+ LF in
  v ← py_get message "to" (JStr "Unknown");
  let output := output +:+ "To: " +:+ py_str v +:+ LF in
  v ← py_get message "subject" (JStr "No Subject");
  let output := output +:+ "Subject: " +:+ py_str v +:+ LF in
  v ← py_get message "date" (JStr "Unknown");
  let output := output +:+ "Date: " +:+ py_str v +:+ LF in
  v ← py_get message "labelIds" (JList []);
  labels ← py_join ", " v;
  let output := output +:+ "Labels: " +:+ labels +:+ LF in
  cc ← py_get message "cc" JNull;
  output ← (if py_truthy cc then
              v ← py_getitem message "cc";
              mret (output +:+ "CC: " +:+ py_str v +:+ LF)
            else mret output);
  body ← py_get message "body" (JStr EmptyString);
  output ← (if py_truthy body then
              b ← py_slice_to 1000 body;
              let output := output +:+ LF +:+ "📝 Body:" +:+ LF +:+ py_str b in
              n ← py_len body;
              mret (if 1000 <? n then output +:+ "... (truncated)" else output)
            else mret output);
  attachments ← py_get message "attachments" (JList []);
  if py_truthy attachments then
    n ← py_len attachments;
    items ← py_iter attachments;
    for_loop attachment_line
      (output +:+ LF +:+ LF +:+ "📎 Attachments (" +:+ pretty n +:+ "):" +:+ LF) items
  else mret output.

Definition get_message (message_id : string) : M string :=
  result ← call_mcp_tool Gmail "get_message" (Some [("message_id", JStr message_id)]);
  on_error "Error getting message: " result (
    message ← lift (py_get result "message" (JObj []));
    if negb (py_truthy message) then mret "Message not found."
    else lift (get_message_render message)).

Definition search_messages_entry (output : string) (im : nat * json) : outcome string :=
  let '(i, msg) := im in
  subject ← py_get msg "subject" (JStr "No Subject");
  from_addr ← py_get msg "from" (JStr "Unknown");
  date ← py_get msg "date" (JStr "Unknown");
  id ← py_get msg "id" (JStr "Unknown");
  mret (output
        +:+ pretty i +:+ ". " +:+ py_str subject +:+ LF
        +:+ "   From: " +:+ py_str from_addr +:+ LF
        +:+ "   Date: " +:+ py_str date +:+ LF
        +:+ "   ID: " +:+ py_str id +:+ LF +:+ LF).

Definition search_messages (query : string) (max_results : Z) : M string :=
  result ← call_mcp_tool Gmail "search_messages"
             (Some [("query", JStr query); ("max_results", JInt max_results)]);
  on_error "Error searching messages: " result (
    messages ← lift (py_get result "messages" (JList []));
    if negb (py_truthy messages) then
      mret ("No messages found for search query: " +:+ query)
    else
      n ← lift (py_len messages);
      items ← lift (py_iter messages);
      lift (for_loop search_messages_entry
              ("🔍 Search Results (" +:+ pretty n +:+ " messages) for: " +:+ query +:+ LF +:+ LF)
              (enumerate_from 1 items))).

(** [if result.get("success"):] *)
Definition success (result : json) : outcome bool :=
  v ← py_get result "success" JNull;
  mret (py_truthy v).

(** [if v: params[k] = v] *)
Definition set_if_nonempty (k v : string) (params : dict) : dict :=
  if String.eqb v EmptyString then params else dict_set k (JStr v) params.

Definition send_message (to subject body cc bcc : string) : M string :=
  let params := [("to", JStr to); ("subject", JStr subject); ("body", JStr body)] in
  let params := set_if_nonempty "cc" cc params in
  let params := set_if_nonempty "bcc" bcc params in
  result ← call_mcp_tool Gmail "send_message" (Some params);
  on_error "Error sending message: " result (
    ok ← lift (success result);
    if (ok : bool) then
      message_id ← lift (py_get result "messageId" (JStr "Unknown"));
      mret ("✅ Email sent successfully!" +:+ LF +:+ "To: " +:+ to +:+ LF
            +:+ "Subject: " +:+ subject +:+ LF +:+ "Message ID: " +:+ py_str message_id)
    else mret "Failed to send email.").

Definition reply_to_message (message_id reply_body : string) : M string :=
  result ← call_mcp_tool Gmail "reply_to_message"
             (Some [("message_id", JStr message_id); ("reply_body", JStr reply_body)]);
  on_error "Error sending reply: " result (
    ok ← lift (success result);
    if (ok : bool) then
      reply_id ← lift (py_get result "messageId" (JStr "Unknown"));
      mret ("✅ Reply sent successfully!" +:+ LF +:+ "Original Message ID: " +:+ message_id
            +:+ LF +:+ "Reply ID: " +:+ py_str reply_id)
    else mret "Failed to send reply.").

Definition mark_message_as_read (message_id : string) : M string :=
  result ← call_mcp_tool Gmail "mark_message_as_read" (Some [("message_id", JStr message_id)]);
  on_error "Error marking message as read: " result (
    ok ← lift (success result);
    if (ok : bool) then mret ("✅ Message marked as read (ID: " +:+ message_id +:+ ")")
    else mret "Failed to mark message as read.").

Definition mark_message_as_unread (message_id : string) : M string :=
  result ← call_mcp_tool Gmail "mark_message_as_unread" (Some [("message_id", JStr message_id)]);
  on_error "Error marking message as unread: " result (
    ok ← lift (success result);
    if (ok : bool) then mret ("✅ Message marked as unread (ID: " +:+ message_id +:+ ")")
    else mret "Failed to mark message as unread.").

(** [', '.join(result.get("labelIds", []))] *)
Definition current_labels (result : json) : outcome string :=
  v ← py_get result "labelIds" (JList []);
  py_join ", " v.

Definition add_label_to_message (message_id label_id : string) : M string :=
  result ← call_mcp_tool Gmail "add_label_to_message"
             (Some [("message_id", JStr message_id); ("label_id", JStr label_id)]);
  on_error "Error adding label: " result (
    ok ← lift (success result);
    if (ok : bool) then
      labels ← lift (current_labels result);
      mret ("✅ Label '" +:+ label_id +:+ "' added to message (ID: " +:+ message_id +:+ ")"
            +:+ LF +:+ "Current labels: " +:+ labels)
    else mret "Failed to add label.").

Definition remove_label_from_message (message_id label_id : string) : M string :=
  result ← call_mcp_tool Gmail "remove_label_from_message"
             (Some [("message_id", JStr message_id); ("label_id", JStr label_id)]);
  on_error "Error removing label: " result (
    ok ← lift (success result);
    if (ok : bool) then
      labels ← lift (current_labels result);
      mret ("✅ Label '" +:+ label_id +:+ "' removed from message (ID: " +:+ message_id +:+ ")"
            +:+ LF +:+ "Current labels: " +:+ labels)
    else mret "Failed to remove label.").

Definition list_labels_entry (output : string) (label : json) : outcome string :=
  name ← py_get label "name" (JStr "Unknown");
  label_id ← py_get label "id" (JStr "Unknown");
  label_type ← py_get label "type" (JStr "Unknown");
  total ← py_get label "messagesTotal" (JInt 0);
  unread ← py_get label "messagesUnread" (JInt 0);
  mret (output
        +:+ "• " +:+ py_str name +:+ " (ID: " +:+ py_str label_id +:+ ")" +:+ LF
        +:+ "  Type: " +:+ py_str label_type +:+ " | Total: " +:+ py_str total
        +:+ " | Unread: " +:+ py_str unread +:+ LF +:+ LF).

Definition list_labels : M string :=
  result ← call_mcp_tool Gmail "list_labels" None;
  on_error "Error listing labels: " result (
    labels ← lift (py_get result "labels" (JList []));
    if negb (py_truthy labels) then mret "No labels found."
    else
      n ← lift (py_len labels);
      items ← lift (py_iter labels);
      lift (for_loop list_labels_entry
              ("📂 Available Gmail Labels (" +:+ pretty n +:+ "):" +:+ LF +:+ LF) items)).

(** ** To-Do tool adapters ([TodoMCPAgent.setup_tools]) *)

Definition list_task_lists_entry (output : string) (it : nat * json) : outcome string :=
  let '(i, task_list) := it in
  shared ← py_get task_list "isShared" (JBool false);
  let shared_info := if py_truthy shared then " (Shared)" else EmptyString in
  name ← py_getitem task_list "name";
  id ← py_getitem task_list "id";
  mret (output +:+ pretty i +:+ ". " +:+ py_str name +:+ " (ID: " +:+ py_str id +:+ ")"
        +:+ shared_info +:+ LF).

Definition list_task_lists : M string :=
  result ← call_mcp_tool Todo "list_task_lists" None;
  on_error "Error: " result (
    task_lists ← lift (py_get result "taskLists" (JList []));
    if negb (py_truthy task_lists) then mret "No task lists found."
    else
      n ← lift (py_len task_lists);
      items ← lift (py_iter task_lists);
      lift (for_loop list_task_lists_entry
              ("Found " +:+ pretty n +:+ " task lists:" +:+ LF)
              (enumerate_from 1 items))).

Definition create_task_list (name : string) : M string :=
  result ← call_mcp_tool Todo "create_task_list" (Some [("name", JStr name)]);
  on_error "Error creating task list: " result (
    ok ← lift (success result);
    if (ok : bool) then
      task_list ← lift (py_getitem result "taskList");
      name' ← lift (py_getitem task_list "name");
      id ← lift (py_getitem task_list "id");
      mret ("✅ Successfully created task list '" +:+ py_str name' +:+ "' (ID: "
            +:+ py_str id +:+ ")")
    else mret "Failed to create task list").

Definition delete_task_list (list_id : string) : M string :=
  result ← call_mcp_tool Todo "delete_task_list" (Some [("list_id", JStr list_id)]);
  on_error "Error deleting task list: " result (
    ok ← lift (success result);
    if (ok : bool) then mret ("✅ Successfully deleted task list (ID: " +:+ list_id +:+ ")")
    else mret "Failed to delete task list").

(** [due_info]: the text [ (Due: <dueDate>)] when [task.get("dueDate")] is
    truthy, the empty string otherwise. *)
Definition due_info (task : json) : outcome string :=
  due ← py_get task "dueDate" JNull;
  if py_truthy due then
    v ← py_getitem task "dueDate";
    mret (" (Due: " +:+ py_str v +:+ ")")
  else mret EmptyString.

Definition list_tasks_entry (output : string) (it : nat * json) : outcome string :=
  let '(i, task) := it in
  status ← py_getitem task "status";
  let status_icon := if is_str "completed" status then "✅" else "⏳" in
  due ← due_info task;
  desc ← py_get task "description" JNull;
  description_info ← (if py_truthy desc then
                        v ← py_getitem task "description";
                        v ← py_slice_to 50 v;
                        mret (" - " +:+ py_str v +:+ "...")
                      else mret EmptyString);
  title ← py_getitem task "title";
  id ← py_getitem task "id";
  mret (output +:+ pretty i +:+ ". " +:+ status_icon +:+ " " +:+ py_str title +:+ due
        +:+ description_info +:+ " (ID: " +:+ py_str id +:+ ")" +:+ LF).

Definition list_tasks (list_id : string) : M string :=
  result ← call_mcp_tool Todo "list_tasks" (Some [("list_id", JStr list_id)]);
  on_error "Error listing tasks: " result (
    tasks ← lift (py_get result "tasks" (JList []));
    if negb (py_truthy tasks) then
      mret ("No tasks found in this list (ID: " +:+ list_id +:+ ")")
    else
      n ← lift (py_len tasks);
      items ← lift (py_iter tasks);
      lift (for_loop list_tasks_entry
              ("Found " +:+ pretty n +:+ " tasks:" +:+ LF)
              (enumerate_from 1 items))).

(** [f"'{task['title']}' (ID: {task['id']})"] with [middle] between the two *)
Definition title_and_id (task : json) (middle : string) : outcome string :=
  title ← py_getitem task "title";
  id ← py_getitem task "id";
  mret ("'" +:+ py_str title +:+ "'" +:+ middle +:+ " (ID: " +:+ py_str id +:+ ")").

Definition create_task (list_id title description due_date : string) : M string :=
  let params := [("list_id", JStr list_id); ("title", JStr title);
                 ("description", JStr description); ("due_date", JStr due_date)] in
  result ← call_mcp_tool Todo "create_task" (Some params);
  on_error "Error creating task: " result (
    ok ← lift (success result);
    if (ok : bool) then
      task ← lift (py_getitem result "task");
      due ← lift (due_info task);
      shown ← lift (title_and_id task due);
      mret ("✅ Successfully created task " +:+ shown)
    else mret "Failed to create task").

(** [if v is not None: params[k] = v] *)
Definition set_if_given (k : string) (v : option string) (params : dict) : dict :=
  match v with Some s => dict_set k (JStr s) params | None => params end.

Definition update_task (list_id task_id : string)
    (title description due_date status : option string) : M string :=
  let params := [("list_id", JStr list_id); ("task_id", JStr task_id)] in
  let params := set_if_given "title" title params in
  let params := set_if_given "description" description params in
  let params := set_if_given "due_date" due_date params in
  let params := set_if_given "status" status params in
  result ← call_mcp_tool Todo "update_task" (Some params);
  on_error "Error updating task: " result (
    ok ← lift (success result);
    if (ok : bool) then
      task ← lift (py_getitem result "task");
      shown ← lift (title_and_id task EmptyString);
      mret ("✅ Successfully updated task " +:+ shown)
    else mret "Failed to update task").

Definition complete_task (list_id task_id : string) : M string :=
  result ← call_mcp_tool Todo "complete_task"
             (Some [("list_id", JStr list_id); ("task_id", JStr task_id)]);
  on_error "Error completing task: " result (
    ok ← lift (success result);
    if (ok : bool) then
      task ← lift (py_getitem result "task");
      shown ← lift (title_and_id task EmptyString);
      mret ("✅ Successfully completed task " +:+ shown)
    else mret "Failed to complete task").

Definition uncomplete_task (list_id task_id : string) : M string :=
  result ← call_mcp_tool Todo "uncomplete_task"
             (Some [("list_id", JStr list_id); ("task_id", JStr task_id)]);
  on_error "Error marking task as not started: " result (
    ok ← lift (success result);
    if (ok : bool) then
      task ← lift (py_getitem result "task");
      shown ← lift (title_and_id task " as not started");
      mret ("✅ Successfully marked task " +:+ shown)
    else mret "Failed to mark task as not started").

Definition delete_task (list_id task_id : string) : M string :=
  result ← call_mcp_tool Todo "delete_task"
             (Some [("list_id", JStr list_id); ("task_id", JStr task_id)]);
  on_error "Error deleting task: " result (
    ok ← lift (success result);
    if (ok : bool) then mret ("✅ Successfully deleted task (ID: " +:+ task_id +:+ ")")
    else mret "Failed to delete task").

(** ** Binding a tool call to an adapter's signature

    The [@tool] decorator derives a schema from the signature; the arguments
    of a tool call are checked against it before the adapter runs.  A missing
    required argument or a value of the wrong type is a validation error
    (coercions between types are not modelled). *)

Definition ValidationError (msg : string) : exn := Exception "ValidationError" msg.

Definition arg_str (args : dict) (k : string) : outcome string :=
  match dict_lookup k args with
  | Some (JStr s) => Ok s
  | Some _ => Raise (ValidationError (k +:+ ": Input should be a valid string"))
  | None => Raise (ValidationError (k +:+ ": Field required"))
  end.

Definition arg_str_default (args : dict) (k : string) (default : string) : outcome string :=
  match dict_lookup k args with
  | Some (JStr s) => Ok s
  | Some _ => Raise (ValidationError (k +:+ ": Input should be a valid string"))
  | None => Ok default
  end.

Definition arg_int_default (args : dict) (k : string) (default : Z) : outcome Z :=
  match dict_lookup k args with
  | Some (JInt z) => Ok z
  | Some _ => Raise (ValidationError (k +:+ ": Input should be a valid integer"))
  | None => Ok default
  end.

(** a parameter declared [name: str = None] *)
Definition arg_str_optional (args : dict) (k : string) : outcome (option string) :=
  match dict_lookup k args with
  | Some (JStr s) => Ok (Some s)
  | None => Ok None
  | Some _ => Raise (ValidationError (k +:+ ": Input should be a valid string"))
  end.

Inductive gmail_call :=
| ListMessages (query : string) (max_results : Z)
| GetMessage (message_id : string)
| SearchMessages (query : string) (max_results : Z)
| SendMessage (to subject body cc bcc : string)
| ReplyToMessage (message_id reply_body : string)
| MarkMessageAsRead (message_id : string)
| MarkMessageAsUnread (message_id : string)
| AddLabelToMessage (message_id label_id : string)
| RemoveLabelFromMessage (message_id label_id : string)
| ListLabels.

Inductive todo_call :=
| ListTaskLists
| CreateTaskList (name : string)
| DeleteTaskList (list_id : string)
| ListTasks (list_id : string)
| CreateTask (list_id title description due_date : string)
| UpdateTask (list_id task_id : string) (title description due_date status : option string)
| CompleteTask (list_id task_id : string)
| UncompleteTask (list_id task_id : string)
| DeleteTask (list_id task_id : string).

Inductive master_call :=
| TodoAgent (user_request : string)
| GmailAgent (user_request : string).

Definition run_gmail_call (c : gmail_call) : M string :=
  match c with
  | ListMessages query max_results => list_messages query max_results
  | GetMessage message_id => get_message message_id
  | SearchMessages query max_results => search_messages query max_results
  | SendMessage to subject body cc bcc => send_message to subject body cc bcc
  | ReplyToMessage message_id reply_body => reply_to_message message_id reply_body
  | MarkMessageAsRead message_id => mark_message_as_read message_id
  | MarkMessageAsUnread message_id => mark_message_as_unread message_id
  | AddLabelToMessage message_id label_id => add_label_to_message message_id label_id
  | RemoveLabelFromMessage message_id label_id => remove_label_from_message message_id label_id
  | ListLabels => list_labels
  end.

Definition run_todo_call (c : todo_call) : M string :=
  match c with
  | ListTaskLists => list_task_lists
  | CreateTaskList name => create_task_list name
  | DeleteTaskList list_id => delete_task_list list_id
  | ListTasks list_id => list_tasks list_id
  | CreateTask list_id title description due_date =>
      create_task list_id title description due_date
  | UpdateTask list_id task_id title description due_date status =>
      update_task list_id task_id title description due_date status
  | CompleteTask list_id task_id => complete_task list_id task_id
  | UncompleteTask list_id task_id => uncomplete_task list_id task_id
  | DeleteTask list_id task_id => delete_task list_id task_id
  end.

(** [self.tools = [list_messages, get_message, ...]] with the schema of each *)
Definition gmail_tools : list (string * (dict -> outcome gmail_call)) :=
  [ ("list_messages", fun args =>
       query ← arg_str_default args "query" EmptyString;
       max_results ← arg_int_default args "max_results" 10;
       mret (ListMessages query max_results));
    ("get_message", fun args =>
       message_id ← arg_str args "message_id"; mret (GetMessage message_id));
    ("search_messages", fun args =>
       query ← arg_str args "query";
       max_results ← arg_int_default args "max_results" 10;
       mret (SearchMessages query max_results));
    ("send_message", fun args =>
       to ← arg_str args "to"; subject ← arg_str args "subject"; body ← arg_str args "body";
       cc ← arg_str_default args "cc" EmptyString;
       bcc ← arg_str_default args "bcc" EmptyString;
       mret (SendMessage to subject body cc bcc));
    ("reply_to_message", fun args =>
       message_id ← arg_str args "message_id"; reply_body ← arg_str args "reply_body";
       mret (ReplyToMessage message_id reply_body));
    ("mark_message_as_read", fun args =>
       message_id ← arg_str args "message_id"; mret (MarkMessageAsRead message_id));
    ("mark_message_as_unread", fun args =>
       message_id ← arg_str args "message_id"; mret (MarkMessageAsUnread message_id));
    ("add_label_to_message", fun args =>
       message_id ← arg_str args "message_id"; label_id ← arg_str args "label_id";
       mret (AddLabelToMessage message_id label_id));
    ("remove_label_from_message", fun args =>
       message_id ← arg_str args "message_id"; label_id ← arg_str args "label_id";
       mret (RemoveLabelFromMessage message_id label_id));
    ("list_labels", fun _ => mret ListLabels) ].

Definition todo_tools : list (string * (dict -> outcome todo_call)) :=
  [ ("list_task_lists", fun _ => mret ListTaskLists);
    ("create_task_list", fun args => name ← arg_str args "name"; mret (CreateTaskList name));
    ("delete_task_list", fun args =>
       list_id ← arg_str args "list_id"; mret (DeleteTaskList list_id));
    ("list_tasks", fun args => list_id ← arg_str args "list_id"; mret (ListTasks list_id));
    ("create_task", fun args =>
       list_id ← arg_str args "list_id"; title ← arg_str args "title";
       description ← arg_str_default args "description" EmptyString;
       due_date ← arg_str_default args "due_date" EmptyString;
       mret (CreateTask list_id title description due_date));
    ("update_task", fun args =>
       list_id ← arg_str args "list_id"; task_id ← arg_str args "task_id";
       title ← arg_str_optional args "title";
       description ← arg_str_optional args "description";
       due_date ← arg_str_optional args "due_date";
       status ← arg_str_optional args "status";
       mret (UpdateTask list_id task_id title description due_date status));
    ("complete_task", fun args =>
       list_id ← arg_str args "list_id"; task_id ← arg_str args "task_id";
       mret (CompleteTask list_id task_id));
    ("uncomplete_task", fun args =>
       list_id ← arg_str args "list_id"; task_id ← arg_str args "task_id";
       mret (UncompleteTask list_id task_id));
    ("delete_task", fun args =>
       list_id ← arg_str args "list_id"; task_id ← arg_str args "task_id";
       mret (DeleteTask list_id task_id)) ].

Definition master_tools : list (string * (dict -> outcome master_call)) :=
  [ ("todo_agent", fun args =>
       user_request ← arg_str args "user_request"; mret (TodoAgent user_request));
    ("gmail_agent", fun args =>
       user_request ← arg_str args "user_request"; mret (GmailAgent user_request)) ].

(** ** The LangGraph workflow

    [StateGraph] with the two nodes ["agent"] and ["tools"], the edge
    [START -> "agent"], the conditional edge out of ["agent"] and one plain
    edge out of ["tools"].  A node returns a partial update: messages are
    appended to the history ([add_messages]), other keys are overwritten. *)

Record gstate := GState {
  g_messages : list message;
  g_fields : dict }.

Record update := Update {
  u_messages : list message;
  u_fields : dict }.

Definition apply_update (st : gstate) (u : update) : gstate :=
  GState (g_messages st ++ u_messages u)
         (foldl (fun d kv => dict_set kv.1 kv.2 d) (g_fields st) (u_fields u)).

Inductive node := agent_node | tools_node | END.

Record workflow := Workflow {
  wf_agent : gstate -> M update;             (* add_node("agent", call_model) *)
  wf_tools : gstate -> M update;             (* add_node("tools", tool_node) *)
  wf_conditional : gstate -> outcome node;   (* add_conditional_edges("agent", should_continue) *)
  wf_tools_edge : node }.                    (* add_edge("tools", _) *)

Definition GraphRecursionError : exn :=
  Exception "GraphRecursionError" "Recursion limit reached without hitting a stop condition".

(** One node execution per unit of [fuel]. *)
Fixpoint run_graph (wf : workflow) (fuel : nat) (n : node) (st : gstate) : M gstate :=
  match n with
  | END => mret st
  | agent_node =>
      match fuel with
      | 0 => raise GraphRecursionError
      | S fuel' =>
          u ← wf_agent wf st;
          let st' := apply_update st u in
          next ← lift (wf_conditional wf st');
          run_graph wf fuel' next st'
      end
  | tools_node =>
      match fuel with
      | 0 => raise GraphRecursionError
      | S fuel' =>
          u ← wf_tools wf st;
          run_graph wf fuel' (wf_tools_edge wf) (apply_update st u)
      end
  end.

(** [await self.graph.ainvoke(state)] *)
Definition ainvoke (wf : workflow) (st : gstate) : M gstate :=
  run_graph wf (recursion_limit E) agent_node st.

(** [messages[-1]] *)
Definition py_last (msgs : list message) : outcome message :=
  match last msgs with
  | Some m => Ok m
  | None => Raise (Exception "IndexError" "list index out of range")
  end.

(** [last_message.tool_calls] *)
Definition get_tool_calls (m : message) : outcome (list tool_call) :=
  match m with
  | AIMessage _ calls => Ok calls
  | _ => Raise (AttributeError "object has no attribute 'tool_calls'")
  end.

(** The same function is nested in all three [setup_graph]s. *)
Definition should_continue (state : gstate) : outcome node :=
  last_message ← py_last (g_messages state);
  calls ← get_tool_calls last_message;
  match calls with
  | _ :: _ => mret tools_node
  | [] => mret END
  end.

(** [await llm_with_tools.ainvoke(full_messages)] *)
Definition llm_with_tools_ainvoke (a : agent) (full_messages : list message) : M message :=
  fun w =>
    (r ← await (llm_ainvoke E a (trace w) full_messages);
     mret (AIMessage r.1 r.2)) (log (EvModel a full_messages) w).

(** [state.get(k)] *)
Definition state_get (state : gstate) (k : string) : json :=
  match dict_lookup k (g_fields state) with Some v => v | None => JNull end.

Fixpoint lookup_tool {C} (name : string) (tools : list (string * (dict -> outcome C)))
    : option (dict -> outcome C) :=
  match tools with
  | [] => None
  | (n, bind) :: tools' => if String.eqb name n then Some bind else lookup_tool name tools'
  end.

(** [ToolNode]: one tool message per requested call, in the order requested.
    An exception of a tool or of the argument check becomes the text of the
    tool message; an unregistered name is answered with an error text. *)
Definition run_one {C} (tools : list (string * (dict -> outcome C))) (run : C -> M string)
    (tc : tool_call) : M message :=
  match lookup_tool (tc_name tc) tools with
  | None => mret (ToolMessage (invalid_tool_text E (tc_name tc)) (tc_name tc) (tc_id tc))
  | Some bind =>
      text ← try_except (c ← lift (bind (tc_args tc)); run c)
                        (fun cls msg => mret (tool_error_text E cls msg));
      mret (ToolMessage text (tc_name tc) (tc_id tc))
  end.

Fixpoint run_calls {C} (tools : list (string * (dict -> outcome C))) (run : C -> M string)
    (calls : list tool_call) : M (list message) :=
  match calls with
  | [] => mret []
  | tc :: calls' =>
      m ← run_one tools run tc;
      ms ← run_calls tools run calls';
      mret (m :: ms)
  end.

Definition tool_node {C} (tools : list (string * (dict -> outcome C))) (run : C -> M string)
    (state : gstate) : M update :=
  match last (g_messages state) with
  | Some (AIMessage _ calls) =>
      ms ← run_calls tools run calls;
      mret (Update ms [])
  | _ => raise (Exception "ValueError" "Last message is not an AIMessage")
  end.

(** *** Sub-agents: [call_model], [setup_graph], [chat] *)

(** [context_info += f"<label>{state[k]}\n"] when [state.get(k)] is truthy *)
Definition context_line (state : gstate) (k label : string) : string :=
  let v := state_get state k in
  if py_truthy v then label +:+ py_str v +:+ LF else EmptyString.

(** The system message of the Gmail agent, extended with the context fields. *)
Definition gmail_system_message (state : gstate) : message :=
  let context_info :=
    context_line state "current_message_id" "Currently focused on message ID: "
    +:+ context_line state "search_context" "Recent search context: "
    +:+ context_line state "last_operation" "Last operation: " in
  if String.eqb context_info EmptyString
  then SystemMessage (system_prompt E (Sub Gmail))
  else SystemMessage (system_prompt E (Sub Gmail) +:+ LF +:+ LF +:+ "Current Context:"
                      +:+ LF +:+ context_info).

Definition gmail_call_model (state : gstate) : M update :=
  let system_message := gmail_system_message state in
  response ← llm_with_tools_ainvoke (Sub Gmail) (system_message :: g_messages state);
  mret (Update [response] []).

Definition todo_system_message (state : gstate) : message :=
  SystemMessage (system_prompt E (Sub Todo)).

Definition todo_call_model (state : gstate) : M update :=
  let system_message := todo_system_message state in
  response ← llm_with_tools_ainvoke (Sub Todo) (system_message :: g_messages state);
  mret (Update [response] []).

(** [GmailMCPAgent.setup_graph]: the ["tools"] node leads back to ["agent"]. *)
Definition gmail_graph : workflow :=
  Workflow gmail_call_model (tool_node gmail_tools run_gmail_call) should_continue agent_node.

(** [TodoMCPAgent.setup_graph]: the ["tools"] node leads back to ["agent"]. *)
Definition todo_graph : workflow :=
  Workflow todo_call_model (tool_node todo_tools run_todo_call) should_continue agent_node.

(** The list object bound to ["messages"]. *)
Definition alloc (l : list message) : M loc :=
  fun w => let p := fresh (dom (heap w)) in (Ok p, set_heap (<[p := l]> (heap w)) w).

(** [state["messages"].append(m)]: the list object is changed in place. *)
Definition list_append (p : loc) (m : message) : M unit :=
  fun w =>
    match heap w !! p with
    | Some l => (Ok tt, set_heap (<[p := l ++ [m]]> (heap w)) w)
    | None => (Raise (RuntimeError "dangling reference"), w)
    end.

Definition read_list (p : loc) : M (list message) :=
  fun w =>
    match heap w !! p with
    | Some l => (Ok l, w)
    | None => (Raise (RuntimeError "dangling reference"), w)
    end.

(** The part of [chat] after the check of [self.graph], shared by the three
    classes: the state is created if absent, the user message is appended to
    its list, the graph runs, and the answer is the content of the last
    message of the result.  The result is a new dictionary with a new list. *)
Definition chat_body (wf : workflow) (initial_fields : dict)
    (message : string) (state : option conv_state) : M (string * conv_state) :=
  state ← match state with
          | None => p ← alloc []; mret (ConvState p initial_fields)
          | Some st => mret st
          end;
  list_append (messages state) (HumanMessage message);;
  msgs ← read_list (messages state);
  result ← ainvoke wf (GState msgs (fields state));
  p ← alloc (g_messages result);
  last_message ← lift (py_last (g_messages result));
  mret (content last_message, ConvState p (g_fields result)).

Definition sub_graph (s : sub_agent) : workflow :=
  match s with Gmail => gmail_graph | Todo => todo_graph end.

Definition sub_initial_fields (s : sub_agent) : dict :=
  match s with
  | Gmail => [("current_message_id", JNull); ("current_thread_id", JNull);
              ("last_operation", JNull); ("search_context", JNull)]
  | Todo => [("current_list_id", JNull); ("current_list_name", JNull);
             ("last_operation", JNull)]
  end.

(** [GmailMCPAgent.chat] and [TodoMCPAgent.chat] *)
Definition sub_chat (s : sub_agent) (message : string) (state : option conv_state)
    : M (string * conv_state) :=
  w ← get_world;
  if negb (graph (obj s w)) then
    raise (RuntimeError "Agent not properly initialized. Use async context manager.")
  else chat_body (sub_graph s) (sub_initial_fields s) message state.

(** *** The Master agent: sub-agents as tools, [call_model], [setup_graph], [chat] *)

Definition agent_label (s : sub_agent) : string :=
  match s with Gmail => "Gmail Agent" | Todo => "Todo Agent" end.

Definition has_sub_agent (s : sub_agent) (w : world) : bool :=
  match s with
  | Gmail => self_gmail_agent (master w)
  | Todo => self_todo_agent (master w)
  end.

(** The two wrappers [todo_agent] and [gmail_agent] of [MasterAgent.setup_tools]. *)
Definition delegate (s : sub_agent) (user_request : string) : M string :=
  try_except
    (w ← get_world;
     if negb (has_sub_agent s w) then
       mret ("❌ " +:+ agent_label s +:+ " is not available. Please try again later.")
     else
       let current_state := _current_state (obj s w) in
       r ← sub_chat s user_request current_state;
       upd s (set_current_state (Some r.2));;
       mret r.1)
    (fun _ msg => mret ("❌ Error with " +:+ agent_label s +:+ ": " +:+ msg)).

Definition todo_agent (user_request : string) : M string := delegate Todo user_request.
Definition gmail_agent (user_request : string) : M string := delegate Gmail user_request.

Definition run_master_call (c : master_call) : M string :=
  match c with
  | TodoAgent user_request => todo_agent user_request
  | GmailAgent user_request => gmail_agent user_request
  end.

(** [for tool_call in response.tool_calls: ...] of the Master's [call_model] *)
Definition updated_context (current : json) (calls : list tool_call) : json :=
  foldl (fun ctx tc =>
           if String.eqb (tc_name tc) "todo_agent" then JStr "Todo Agent"
           else if String.eqb (tc_name tc) "gmail_agent" then JStr "Gmail Agent"
           else ctx)
        current calls.

(** The system message of the Master agent, extended with the context fields. *)
Definition master_system_message (state : gstate) : message :=
  let current := state_get state "current_context" in
  let context_info :=
    if py_truthy current
    then LF +:+ "Current context: Working with " +:+ py_str current
    else EmptyString in
  let summary := state_get state "conversation_summary" in
  let context_info :=
    if py_truthy summary
    then context_info +:+ LF +:+ "Conversation summary: " +:+ py_str summary
    else context_info in
  if String.eqb context_info EmptyString
  then SystemMessage (system_prompt E Master)
  else SystemMessage (system_prompt E Master +:+ context_info).

Definition master_call_model (state : gstate) : M update :=
  let system_message := master_system_message state in
  response ← llm_with_tools_ainvoke Master (system_message :: g_messages state);
  calls ← lift (get_tool_calls response);
  mret (Update [response]
          [("current_context", updated_context (state_get state "current_context") calls)]).

(** [MasterAgent.setup_graph]: the ["tools"] node leads to [END]. *)
Definition master_graph_wf : workflow :=
  Workflow master_call_model (tool_node master_tools run_master_call) should_continue END.

Definition master_initial_fields : dict :=
  [("current_context", JNull); ("sub_agent_states", JObj []); ("conversation_summary", JNull)].

(** [MasterAgent.chat] *)
Definition master_chat (message : string) (state : option conv_state)
    : M (string * conv_state) :=
  w ← get_world;
  if negb (master_graph (master w)) then
    raise (RuntimeError "Master Agent not properly initialized")
  else chat_body master_graph_wf master_initial_fields message state.

Definition chat (a : agent) : string -> option conv_state -> M (string * conv_state) :=
  match a with
  | Master => master_chat
  | Sub s => sub_chat s
  end.

Definition agent_graph (a : agent) : workflow :=
  match a with
  | Master => master_graph_wf
  | Sub s => sub_graph s
  end.

Definition system_message (a : agent) (state : gstate) : message :=
  match a with
  | Master => master_system_message state
  | Sub Gmail => gmail_system_message state
  | Sub Todo => todo_system_message state
  end.

Definition initial_fields (a : agent) : dict :=
  match a with
  | Master => master_initial_fields
  | Sub s => sub_initial_fields s
  end.

Definition graph_ready (a : agent) (w : world) : bool :=
  match a with
  | Master => master_graph (master w)
  | Sub s => graph (obj s w)
  end.

(** ** The interactive loop ([run_interactive] of the three classes)

    The loop reads from the console; what the console delivers at the prompt
    is given as a list.  The three loops differ only in what they print. *)

Inductive console :=
| Line (raw : string)                  (* input() returns a line *)
| CtrlC                                (* input() raises KeyboardInterrupt *)
| InputError (cls : string) (msg : string).  (* input() raises an Exception, e.g. EOFError *)

Definition exit_tokens : list string := ["quit"; "exit"; "bye"; "q"].

(** [s.lower()].  Outside ASCII the lower case of a string comes from the
    Unicode case mappings, which are the interpreter's. *)
Definition py_lower (s : string) : string :=
  if py_isascii s then ascii_lower s else unicode_lower E s.

(** [user_input.lower() in ['quit', 'exit', 'bye', 'q']] *)
Definition is_exit (user_input : string) : bool :=
  existsb (String.eqb (py_lower user_input)) exit_tokens.

Inductive loop_end :=
| Terminated (unread : list console)          (* the loop was left by [break] *)
| AwaitingInput (state : option conv_state).  (* blocked at the prompt *)

Fixpoint run_interactive (a : agent) (inputs : list console) (state : option conv_state)
    : M loop_end :=
  match inputs with
  | [] => mret (AwaitingInput state)
  | CtrlC :: rest => mret (Terminated rest)
  | InputError _ _ :: rest => run_interactive a rest state
  | Line raw :: rest =>
      let user_input := py_strip raw in
      if is_exit user_input then mret (Terminated rest)
      else if String.eqb user_input EmptyString then run_interactive a rest state
      else fun w =>
        match chat a user_input state w with
        | (Ok (_, state'), w') => run_interactive a rest (Some state') w'
        | (Raise (Exception _ _), w') => run_interactive a rest state w'
        | (Raise KeyboardInterrupt, w') => (Ok (Terminated rest), w')
        end
  end.

(** ** Requests in batch ([MasterAgent.handle_batch_requests])

    The requests are answered one after the other by [chat]; the state
    returned for one request is passed on with the next. *)

Fixpoint batch_loop (requests : list string) (state : option conv_state)
    (responses : list string) : M (list string) :=
  match requests with
  | [] => mret responses
  | request :: rest =>
      r ← master_chat request state;
      batch_loop rest (Some r.2) (responses ++ [r.1])
  end.

Definition handle_batch_requests (requests : list string) : M (list string) :=
  batch_loop requests None [].

(** ** Start and end of an agent ([__aenter__], [__aexit__])

    The constructors of the clients of the reasoning backend are taken to
    succeed.  [setup_tools] fills [self.tools] with the adapters above and
    [setup_graph] stores the compiled workflow in [self.graph]. *)

Definition set_graph (b : bool) (o : agent_obj) : agent_obj :=
  AgentObj (connected o) (mcp_client o) b (_current_state o).

(** [GmailMCPAgent.__aenter__] and [TodoMCPAgent.__aenter__] *)
Definition sub_aenter (s : sub_agent) : M unit :=
  connect_mcp s;;
  upd s (set_graph true).

(** [GmailMCPAgent.__aexit__] and [TodoMCPAgent.__aexit__] *)
Definition sub_aexit (s : sub_agent) : M unit := disconnect_mcp s.

(** A sub-agent object as [__init__] leaves it. *)
Definition new_agent : agent_obj := AgentObj false false false None.

Definition set_master (f : master_obj -> master_obj) : M unit :=
  modify (fun w => World (trace w) (heap w) (gmail_obj w) (todo_obj w) (f (master w))).

(** [self.todo_agent = TodoMCPAgent(...)] and
    [self.gmail_agent = GmailMCPAgent(...)] *)
Definition construct (s : sub_agent) : M unit :=
  modify (set_obj s new_agent);;
  set_master (fun m =>
    match s with
    | Todo => MasterObj true (self_gmail_agent m) (master_graph m)
    | Gmail => MasterObj (self_todo_agent m) true (master_graph m)
    end).

(** [MasterAgent.initialize_sub_agents]; the handler prints and re-raises.
    The flag [sub_agents_initialized] is written here and read nowhere. *)
Definition initialize_sub_agents : M unit :=
  try_except
    (construct Todo;;
     sub_aenter Todo;;
     construct Gmail;;
     sub_aenter Gmail)
    (fun cls msg => raise (Exception cls msg)).

(** [MasterAgent.__aenter__] *)
Definition master_aenter : M unit :=
  initialize_sub_agents;;
  set_master (fun m => MasterObj (self_todo_agent m) (self_gmail_agent m) true).

(** [MasterAgent.cleanup_sub_agents]; the handler only prints. *)
Definition cleanup_sub_agents : M unit :=
  try_except
    (w ← get_world;
     (if self_todo_agent (master w) then sub_aexit Todo else mret tt);;
     (if self_gmail_agent (master w) then sub_aexit Gmail else mret tt))
    (fun _ _ => mret tt).

(** [MasterAgent.__aexit__] *)
Definition master_aexit : M unit := cleanup_sub_agents.

(** ** The program ([main] of main_agent.py)

    [os.getenv("GOOGLE_API_KEY")] is a parameter, [None] when the variable is
    not set.  The body of [async with MasterAgent(...)] is the interactive
    loop; [__aexit__] runs when the body is left, and as it returns [None] an
    exception of the body is raised again after it.  A loop that waits at the
    prompt has not left the body. *)

Inductive main_end :=
| NoApiKey                              (* returned before anything was created *)
| Finished (unread : list console)      (* the loop was left and [__aexit__] has run *)
| AtPrompt (state : option conv_state)  (* blocked at the prompt, inside the body *)
| Failed (msg : string).                (* the handler of [main] printed [msg] *)

(** [await master_agent.run_interactive()] and the way out of the block *)
Definition main_body (inputs : list console) : M main_end :=
  fun w =>
    match run_interactive Master inputs None w with
    | (Ok (Terminated rest), w') => (master_aexit;; mret (Finished rest)) w'
    | (Ok (AwaitingInput state), w') => (Ok (AtPrompt state), w')
    | (Raise e, w') => (master_aexit;; raise e) w'
    end.

Definition main (google_api_key : option string) (inputs : list console) : M main_end :=
  let present :=
    match google_api_key with
    | Some key => negb (String.eqb key EmptyString)
    | None => false
    end in
  if negb present then mret NoApiKey
  else
    try_except
      (master_aenter;; main_body inputs)
      (fun _ msg => mret (Failed msg)).

End Agents.

(** * The servers

    The two MCP servers of the repository and the libraries they are built
    on.  A server runs in a process of its own; its state is the module's
    globals and the record of what it has asked of the network.  Everything
    outside the repository is an oracle again.  [ctx.info], [ctx.error] and
    [print] are not modelled. *)

Definition St (S A : Type) : Type := S -> outcome A * S.

#[global] Instance St_ret {S} : MRet (St S) | 100 := fun A a s => (Ok a, s).
#[global] Instance St_bind {S} : MBind (St S) | 100 := fun A B f m s =>
  match m s with
  | (Ok a, s') => f a s'
  | (Raise e, s') => (Raise e, s')
  end.

Definition st_get {S} : St S S := fun s => (Ok s, s).
Definition st_lift {S A} (o : outcome A) : St S A := fun s => (o, s).

Definition st_await {S A} (r : fallible A) : St S A :=
  match r with
  | Success a => mret a
  | Failure cls msg => fun s => (Raise (Exception cls msg), s)
  end.

(** [try: body except Exception as e: handler(e)] *)
Definition st_try {S A} (body : St S A) (handler : string -> string -> St S A) : St S A :=
  fun s =>
    match body s with
    | (Raise (Exception cls msg), s') => handler cls msg s'
    | r => r
    end.

(** [[f(x) for x in l]] and the loops that only append to a list *)
Fixpoint collect {A B} (f : A -> outcome B) (l : list A) : outcome (list B) :=
  match l with
  | [] => Ok []
  | x :: l' =>
      match f x with
      | Ok y => match collect f l' with Ok ys => Ok (y :: ys) | Raise e => Raise e end
      | Raise e => Raise e
      end
  end.

(** ** The Microsoft To Do server ([msgraph_todo_lib.py], [improved_mcp_server.py]) *)

Inductive http_method := GET | POST | PATCH | DELETE.

(** A request of [httpx].  The headers are the bearer token and a constant
    content type. *)
Record http_request := HttpRequest {
  rq_method : http_method;
  rq_url : string;
  rq_bearer : string;          (* headers["Authorization"] = f"Bearer {access_token}" *)
  rq_json : option json }.     (* json=data *)

Record http_response := HttpResponse {
  status_code : Z;
  response_json : fallible json }.   (* response.json() *)

Inductive net_event :=
| EvHttp (r : http_request)
| EvAuth.                      (* get_access_token(app, SCOPES) was run *)

Record todo_state := TodoState {
  net : list net_event;
  access_token : option string }.    (* the global [access_token] of the library *)

(** What the process reaches outside: the Graph endpoint through [httpx], and
    the sign-in of [get_access_token] (token cache file, browser, local
    callback server, MSAL), which returns a token or [None]. *)
Record network := Network {
  httpx : list net_event -> http_request -> fallible http_response;
  get_access_token : list net_event -> fallible (option string) }.

Module msgraph_todo_lib.
Section Lib.

Context (N : network).

Definition lists_url : string := "https://graph.microsoft.com/v1.0/me/todo/lists".

(** [httpx.get], [httpx.post], [httpx.patch], [httpx.delete] *)
Definition send (method : http_method) (url token : string) (data : option json)
    : St todo_state http_response :=
  fun s =>
    let r := HttpRequest method url token data in
    st_await (httpx N (net s) r) (TodoState (net s ++ [EvHttp r]) (access_token s)).

Definition get_todo_lists (access_token : string) : St todo_state json :=
  response ← send GET lists_url access_token None;
  if (status_code response =? 200)%Z then
    todo_lists ← st_await (response_json response);
    st_lift (py_getitem todo_lists "value")
  else mret (JList []).

Definition create_todo_list (access_token list_name : string) : St todo_state json :=
  let data := JObj [("displayName", JStr list_name)] in
  response ← send POST lists_url access_token (Some data);
  if (status_code response =? 201)%Z then st_await (response_json response)
  else mret JNull.

Definition timed_out : string :=
  "Request to Microsoft Graph API timed out. Please try again later.".
Definition unreachable : string :=
  "Could not connect to Microsoft Graph API. Please check your network.".

Definition get_tasks (access_token list_id : string) : St todo_state json :=
  let url := lists_url +:+ "/" +:+ list_id +:+ "/tasks" in
  st_try
    (response ← send GET url access_token None;
     if (status_code response =? 200)%Z then
       tasks ← st_await (response_json response);
       st_lift (py_get tasks "value" (JList []))
     else mret (JList []))
    (fun cls msg =>
       if String.eqb cls "ReadTimeout" then mret (JObj [("error", JStr timed_out)])
       else if String.eqb cls "ConnectError" then mret (JObj [("error", JStr unreachable)])
       else mret (JObj [("error", JStr ("Error fetching tasks: " +:+ msg))])).

(** [{"dateTime": f"{due_date}T00:00:00.0000000", "timeZone": "UTC"}] *)
Definition due_date_time (due_date : string) : json :=
  JObj [("dateTime", JStr (due_date +:+ "T00:00:00.0000000")); ("timeZone", JStr "UTC")].

(** [{"content": body_content, "contentType": "text"}] *)
Definition text_body (body_content : string) : json :=
  JObj [("content", JStr body_content); ("contentType", JStr "text")].

(** The task [create_task] sends. *)
Definition create_data (title body_content due_date : string) : dict :=
  let data := [("title", JStr title); ("status", JStr "notStarted")] in
  let data :=
    if negb (String.eqb body_content EmptyString)
    then dict_set "body" (text_body body_content) data else data in
  if negb (String.eqb due_date EmptyString)
  then dict_set "dueDateTime" (due_date_time due_date) data else data.

Definition create_task (access_token list_id title body_content due_date : string)
    : St todo_state json :=
  let url := lists_url +:+ "/" +:+ list_id +:+ "/tasks" in
  let data := create_data title body_content due_date in
  response ← send POST url access_token (Some (JObj data));
  if (status_code response =? 201)%Z then st_await (response_json response)
  else mret JNull.

Definition complete_task (access_token list_id task_id : string) : St todo_state json :=
  let url := lists_url +:+ "/" +:+ list_id +:+ "/tasks/" +:+ task_id in
  let data := JObj [("status", JStr "completed")] in
  response ← send PATCH url access_token (Some data);
  if (status_code response =? 200)%Z then st_await (response_json response)
  else mret JNull.

(** The fields of [update_task] that are being updated. *)
Definition update_data (title body_content due_date status : option string) : dict :=
  let data := [] in
  let data := match title with Some t => dict_set "title" (JStr t) data | None => data end in
  let data :=
    match body_content with
    | Some b => dict_set "body" (text_body b) data
    | None => data
    end in
  let data :=
    match due_date with
    | Some d =>
        if String.eqb d EmptyString then dict_set "dueDateTime" JNull data
        else dict_set "dueDateTime" (due_date_time d) data
    | None => data
    end in
  match status with Some st => dict_set "status" (JStr st) data | None => data end.

Definition update_task (access_token list_id task_id : string)
    (title body_content due_date status : option string) : St todo_state json :=
  let url := lists_url +:+ "/" +:+ list_id +:+ "/tasks/" +:+ task_id in
  let data := update_data title body_content due_date status in
  if negb (py_truthy (JObj data)) then mret JNull
  else
    response ← send PATCH url access_token (Some (JObj data));
    if (status_code response =? 200)%Z then st_await (response_json response)
    else mret JNull.

Definition uncomplete_task (access_token list_id task_id : string) : St todo_state json :=
  update_task access_token list_id task_id None None None (Some "notStarted").

Definition delete_task (access_token list_id task_id : string) : St todo_state bool :=
  let url := lists_url +:+ "/" +:+ list_id +:+ "/tasks/" +:+ task_id in
  response ← send DELETE url access_token None;
  mret (status_code response =? 204)%Z.

Definition delete_task_list (access_token list_id : string) : St todo_state bool :=
  let url := lists_url +:+ "/" +:+ list_id in
  response ← send DELETE url access_token None;
  mret (status_code response =? 204)%Z.

(** [if not access_token] on [None] or a string *)
Definition no_token (t : option string) : bool :=
  match t with
  | Some t => String.eqb t EmptyString
  | None => true
  end.

Definition ensure_access_token : St todo_state (option string) :=
  fun s =>
    if no_token (access_token s) then
      match get_access_token N (net s) with
      | Success t => (Ok t, TodoState (net s ++ [EvAuth]) t)
      | Failure cls msg =>
          (Raise (Exception cls msg), TodoState (net s ++ [EvAuth]) (access_token s))
      end
    else (Ok (access_token s), s).

End Lib.
End msgraph_todo_lib.

Module improved_mcp_server.
Section Server.

Context (N : network).

Definition authentication_failed : json := JObj [("error", JStr "Authentication failed")].

(** The head of every tool: [access_token = todo_lib.ensure_access_token()] and
    [if not access_token: return {"error": "Authentication failed"}]. *)
Definition with_token (tool : string -> St todo_state json) : St todo_state json :=
  t ← msgraph_todo_lib.ensure_access_token N;
  match t with
  | Some token =>
      if String.eqb token EmptyString then mret authentication_failed else tool token
  | None => mret authentication_failed
  end.

Definition format_list (task_list : json) : outcome json :=
  id ← py_getitem task_list "id";
  name ← py_getitem task_list "displayName";
  is_shared ← py_getitem task_list "isShared";
  is_owner ← py_getitem task_list "isOwner";
  known ← py_contains "wellknownListName" task_list;
  well_known ← (if (known : bool) then py_getitem task_list "wellknownListName"
                else mret (JStr EmptyString));
  mret (JObj [("id", id); ("name", name); ("isShared", is_shared); ("isOwner", is_owner);
              ("wellKnownListName", well_known)]).

Definition list_task_lists : St todo_state json :=
  with_token (fun access_token =>
    task_lists ← msgraph_todo_lib.get_todo_lists N access_token;
    items ← st_lift (py_iter task_lists);
    formatted_lists ← st_lift (collect format_list items);
    mret (JObj [("taskLists", JList formatted_lists)])).

Definition create_task_list (name : string) : St todo_state json :=
  with_token (fun access_token =>
    new_list ← msgraph_todo_lib.create_todo_list N access_token name;
    if negb (py_truthy new_list) then mret (JObj [("error", JStr "Failed to create task list")])
    else
      id ← st_lift (py_getitem new_list "id");
      display_name ← st_lift (py_getitem new_list "displayName");
      mret (JObj [("success", JBool true);
                  ("taskList", JObj [("id", id); ("name", display_name)])])).

(** The three fixed fields of a task and the two optional ones; the same
    statements stand in [list_tasks], [create_task] and [update_task]. *)
Definition task_data (task : json) : outcome json :=
  id ← py_getitem task "id";
  title ← py_getitem task "title";
  status ← py_getitem task "status";
  let data := [("id", id); ("title", title); ("status", status)] in
  has_due ← py_contains "dueDateTime" task;
  data ← (if (has_due : bool) then
            due ← py_getitem task "dueDateTime";
            date_time ← py_getitem due "dateTime";
            day ← py_slice_to 10 date_time;
            mret (dict_set "dueDate" day data)
          else mret data);
  has_body ← py_contains "body" task;
  if (has_body : bool) then
    body ← py_getitem task "body";
    content ← py_getitem body "content";
    if py_truthy content then mret (JObj (dict_set "description" content data))
    else mret (JObj data)
  else mret (JObj data).

(** [{"id": ..., "title": ..., "status": ...}] of [complete_task] and
    [uncomplete_task] *)
Definition short_task (task : json) : outcome json :=
  id ← py_getitem task "id";
  title ← py_getitem task "title";
  status ← py_getitem task "status";
  mret (JObj [("id", id); ("title", title); ("status", status)]).

Definition list_tasks (list_id : string) : St todo_state json :=
  with_token (fun access_token =>
    tasks ← msgraph_todo_lib.get_tasks N access_token list_id;
    items ← st_lift (py_iter tasks);
    formatted_tasks ← st_lift (collect task_data items);
    mret (JObj [("tasks", JList formatted_tasks)])).

Definition succeeded (task : json) : json :=
  JObj [("success", JBool true); ("task", task)].

Definition create_task (list_id title description due_date : string) : St todo_state json :=
  with_token (fun access_token =>
    new_task ← msgraph_todo_lib.create_task N access_token list_id title description due_date;
    if negb (py_truthy new_task) then mret (JObj [("error", JStr "Failed to create task")])
    else
      data ← st_lift (task_data new_task);
      mret (succeeded data)).

Definition complete_task (list_id task_id : string) : St todo_state json :=
  with_token (fun access_token =>
    updated_task ← msgraph_todo_lib.complete_task N access_token list_id task_id;
    if negb (py_truthy updated_task) then mret (JObj [("error", JStr "Failed to complete task")])
    else
      data ← st_lift (short_task updated_task);
      mret (succeeded data)).

Definition delete_task (list_id task_id : string) : St todo_state json :=
  with_token (fun access_token =>
    success ← msgraph_todo_lib.delete_task N access_token list_id task_id;
    if negb success then mret (JObj [("error", JStr "Failed to delete task")])
    else mret (JObj [("success", JBool true)])).

Definition update_task (list_id task_id : string)
    (title description due_date status : option string) : St todo_state json :=
  with_token (fun access_token =>
    updated_task ← msgraph_todo_lib.update_task N access_token list_id task_id
                     title description due_date status;
    if negb (py_truthy updated_task) then mret (JObj [("error", JStr "Failed to update task")])
    else
      data ← st_lift (task_data updated_task);
      mret (succeeded data)).

Definition uncomplete_task (list_id task_id : string) : St todo_state json :=
  with_token (fun access_token =>
    updated_task ← msgraph_todo_lib.uncomplete_task N access_token list_id task_id;
    if negb (py_truthy updated_task)
    then mret (JObj [("error", JStr "Failed to mark task as not started")])
    else
      data ← st_lift (short_task updated_task);
      mret (succeeded data)).

Definition delete_task_list (list_id : string) : St todo_state json :=
  with_token (fun access_token =>
    success ← msgraph_todo_lib.delete_task_list N access_token list_id;
    if negb success then mret (JObj [("error", JStr "Failed to delete task list")])
    else mret (JObj [("success", JBool true)])).

(** [@mcp.tool()]: the tools by name, with the parameters each declares. *)
Definition tools : list (string * (dict -> outcome (St todo_state json))) :=
  [ ("list_task_lists", fun _ => mret list_task_lists);
    ("create_task_list", fun args => name ← arg_str args "name"; mret (create_task_list name));
    ("list_tasks", fun args => list_id ← arg_str args "list_id"; mret (list_tasks list_id));
    ("create_task", fun args =>
       list_id ← arg_str args "list_id"; title ← arg_str args "title";
       description ← arg_str_default args "description" EmptyString;
       due_date ← arg_str_default args "due_date" EmptyString;
       mret (create_task list_id title description due_date));
    ("complete_task", fun args =>
       list_id ← arg_str args "list_id"; task_id ← arg_str args "task_id";
       mret (complete_task list_id task_id));
    ("delete_task", fun args =>
       list_id ← arg_str args "list_id"; task_id ← arg_str args "task_id";
       mret (delete_task list_id task_id));
    ("update_task", fun args =>
       list_id ← arg_str args "list_id"; task_id ← arg_str args "task_id";
       title ← arg_str_optional args "title";
       description ← arg_str_optional args "description";
       due_date ← arg_str_optional args "due_date";
       status ← arg_str_optional args "status";
       mret (update_task list_id task_id title description due_date status));
    ("uncomplete_task", fun args =>
       list_id ← arg_str args "list_id"; task_id ← arg_str args "task_id";
       mret (uncomplete_task list_id task_id));
    ("delete_task_list", fun args =>
       list_id ← arg_str args "list_id"; mret (delete_task_list list_id)) ].

End Server.
End improved_mcp_server.

(** ** The Gmail server ([gmail_lib.py], [gmail_mcp_server.py]) *)

(** A request to the Gmail API,
    [service.users().<collection>().<method>(...).execute()]; every request
    is made with [userId='me']. *)
Inductive api_request :=
| MessagesList (kwargs : dict)                    (* messages().list(...) *)     
| MessagesGet (id : json) (format : string) (metadata_headers : list string)
| MessagesSend (body : dict)                      (* messages().send(body=...) *)
| MessagesModify (id : string) (body : dict)      (* messages().modify(id=..., body=...) *)
| LabelsList.                                     (* labels().list() *)

Inductive gmail_event :=
| EvApi (r : api_request)
| EvService.                   (* gmail_lib.get_gmail_service() was run *)

Record gmail_state := GmailState {
  api_log : list gmail_event;
  gmail_service : bool }.      (* the global [gmail_service] is not [None] *)

(** What the process reaches outside: the sign-in and the construction of
    the service object ([get_gmail_service]: token file, browser, local
    callback server, [build]), which returns the service object ([true]) or
    [None]; the Gmail API; [base64]; and the interpreter's bound on nested
    calls. *)
Record google := Google {
  get_gmail_service : list gmail_event -> fallible bool;
  execute : list gmail_event -> api_request -> fallible json;
  (* base64.urlsafe_b64decode(data).decode('utf-8') *)
  urlsafe_b64decode : json -> fallible string;
  (* base64.b64decode(data.replace('-', '+').replace('_', '/') + '===').decode('utf-8') *)
  b64decode_padded : json -> fallible string;
  (* base64.urlsafe_b64encode(text.encode()).decode() *)
  urlsafe_b64encode : string -> string;
  (* how deep [_extract_body_from_payload] may call itself before the
     interpreter raises a RecursionError *)
  recursion_depth : nat }.

Definition raised {A} (r : fallible A) : outcome A :=
  match r with
  | Success a => Ok a
  | Failure cls msg => Raise (Exception cls msg)
  end.

(** [[f(x) for x in l]] where [f] asks the outside *)
Fixpoint st_collect {S A B} (f : A -> St S B) (l : list A) : St S (list B) :=
  match l with
  | [] => mret []
  | x :: l' => y ← f x; ys ← st_collect f l'; mret (y :: ys)
  end.

(** [v.startswith(p)] *)
Definition py_startswith (v : json) (p : string) : outcome bool :=
  match v with
  | JStr s => Ok (String.prefix p s)
  | _ => Raise (AttributeError ("'" +:+ type_name v +:+ "' object has no attribute 'startswith'"))
  end.

(** [s.replace(old, new)] for a non-empty [old]: the occurrences are
    replaced from the left, without overlap; [skip] counts the characters of
    an occurrence still to pass. *)
Fixpoint replace_from (skip : nat) (old new s : string) : string :=
  match s with
  | EmptyString => EmptyString
  | String c s' =>
      match skip with
      | S k => replace_from k old new s'
      | 0 =>
          if String.prefix old s then new +:+ replace_from (String.length old - 1) old new s'
          else String c (replace_from 0 old new s')
      end
  end.

(** [v.replace(old, new)] *)
Definition py_replace (v : json) (old new : string) : outcome string :=
  match v with
  | JStr s => Ok (replace_from 0 old new s)
  | _ => Raise (AttributeError ("'" +:+ type_name v +:+ "' object has no attribute 'replace'"))
  end.

(** [{h['name']: h['value'] for h in items}].  The dictionary is only asked
    for names that are strings; a name that is a number, a boolean or null is
    a key no such question finds, and is left out here. *)
Fixpoint header_dict (items : list json) (headers : dict) : outcome dict :=
  match items with
  | [] => Ok headers
  | h :: rest =>
      name ← py_getitem h "name";
      value ← py_getitem h "value";
      match name with
      | JStr k => header_dict rest (dict_set k value headers)
      | JList _ | JObj _ =>
          Raise (TypeError ("unhashable type: '" +:+ type_name name +:+ "'"))
      | _ => header_dict rest headers
      end
  end.

(** [headers.get(name, '')] *)
Definition header (headers : dict) (name : string) : json :=
  match dict_lookup name headers with Some v => v | None => JStr EmptyString end.

(** a parameter declared [name: Optional[str] = None] *)
Definition arg_str_nullable (args : dict) (k : string) : outcome (option string) :=
  match dict_lookup k args with
  | Some (JStr s) => Ok (Some s)
  | Some JNull | None => Ok None
  | Some _ => Raise (ValidationError (k +:+ ": Input should be a valid string"))
  end.

(** a parameter declared [name: Optional[List[str]] = None] *)
Definition arg_strs_nullable (args : dict) (k : string) : outcome (option (list string)) :=
  match dict_lookup k args with
  | Some (JList l) =>
      match all_strs l with
      | Some ss => Ok (Some ss)
      | None => Raise (ValidationError (k +:+ ": Input should be a valid string"))
      end
  | Some JNull | None => Ok None
  | Some _ => Raise (ValidationError (k +:+ ": Input should be a valid list"))
  end.

(** the parameter [request: SearchMessagesRequest], a model with a required
    [query: str] and [max_results: int = 10] *)
Definition arg_search_request (args : dict) : outcome (string * Z) :=
  match dict_lookup "request" args with
  | Some (JObj d) =>
      query ← arg_str d "query";
      max_results ← arg_int_default d "max_results" 10;
      mret (query, max_results)
  | Some _ => Raise (ValidationError "request: Input should be a valid dictionary or object")
  | None => Raise (ValidationError "request: Field required")
  end.

Module gmail_lib.
Section Lib.

Context (E : environment) (G : google).

Definition api (r : api_request) : St gmail_state json :=
  fun s =>
    st_await (execute G (api_log s) r) (GmailState (api_log s ++ [EvApi r]) (gmail_service s)).

(** [{h['name']: h['value'] for h in message['payload']['headers']}] *)
Definition headers_of (message : json) : outcome dict :=
  payload ← py_getitem message "payload";
  headers ← py_getitem payload "headers";
  items ← py_iter headers;
  header_dict items [].

(** The body of the loop of [list_messages]. *)
Definition message_summary (message : json) : St gmail_state json :=
  id ← st_lift (py_getitem message "id");
  msg_detail ← api (MessagesGet id "metadata" ["Subject"; "From"; "To"; "Date"]);
  headers ← st_lift (headers_of msg_detail);
  id ← st_lift (py_getitem message "id");
  thread_id ← st_lift (py_getitem message "threadId");
  snippet ← st_lift (py_get msg_detail "snippet" (JStr EmptyString));
  label_ids ← st_lift (py_get msg_detail "labelIds" (JList []));
  mret (JObj [("id", id); ("threadId", thread_id);
              ("subject", header headers "Subject"); ("from", header headers "From");
              ("to", header headers "To"); ("date", header headers "Date");
              ("snippet", snippet); ("labelIds", label_ids)]).

Definition list_messages (query : string) (max_results : Z) (label_ids : option (list string))
    : St gmail_state json :=
  st_try
    (let kwargs := [("userId", JStr "me"); ("q", JStr query); ("maxResults", JInt max_results)] in
     let kwargs :=
       match label_ids with
       | Some (id :: ids) => dict_set "labelIds" (JList (JStr <$> id :: ids)) kwargs
       | _ => kwargs
       end in
     result ← api (MessagesList kwargs);
     messages ← st_lift (py_get result "messages" (JList []));
     items ← st_lift (py_iter messages);
     detailed_messages ← st_collect message_summary items;
     mret (JList detailed_messages))
    (fun _ _ => mret (JList [])).

(** The loop of [get_message]: the text of the first part of type
    [text/plain] that has data. *)
Fixpoint first_plain_text (parts : list json) : outcome string :=
  match parts with
  | [] => Ok EmptyString
  | part :: rest =>
      mime ← py_getitem part "mimeType";
      if is_str "text/plain" mime then
        body ← py_getitem part "body";
        has_data ← py_contains "data" body;
        if (has_data : bool) then
          body ← py_getitem part "body";
          data ← py_getitem body "data";
          raised (urlsafe_b64decode G data)
        else first_plain_text rest
      else first_plain_text rest
  end.

Definition plain_body (payload : json) : outcome string :=
  has_parts ← py_contains "parts" payload;
  if (has_parts : bool) then
    parts ← py_getitem payload "parts";
    items ← py_iter parts;
    first_plain_text items
  else
    mime ← py_getitem payload "mimeType";
    if is_str "text/plain" mime then
      body ← py_getitem payload "body";
      has_data ← py_contains "data" body;
      if (has_data : bool) then
        body ← py_getitem payload "body";
        data ← py_getitem body "data";
        raised (urlsafe_b64decode G data)
      else mret EmptyString
    else mret EmptyString.

Definition get_message (message_id : string) : St gmail_state json :=
  st_try
    (message ← api (MessagesGet (JStr message_id) "full" []);
     payload ← st_lift (py_getitem message "payload");
     headers ← st_lift (headers_of message);
     body ← st_lift (plain_body payload);
     id ← st_lift (py_getitem message "id");
     thread_id ← st_lift (py_getitem message "threadId");
     snippet ← st_lift (py_get message "snippet" (JStr EmptyString));
     label_ids ← st_lift (py_get message "labelIds" (JList []));
     mret (JObj [("id", id); ("threadId", thread_id);
                 ("subject", header headers "Subject"); ("from", header headers "From");
                 ("to", header headers "To"); ("date", header headers "Date");
                 ("body", JStr body); ("snippet", snippet); ("labelIds", label_ids)]))
    (fun _ _ => mret JNull).

(** [if v: text += f"{name}: {v}\n"] for [v] a string or [None] *)
Definition line_if_given (name : string) (v : option string) (text : string) : string :=
  match v with
  | Some s => if String.eqb s EmptyString then text else text +:+ name +:+ ": " +:+ s +:+ LF
  | None => text
  end.

Definition message_text (to subject body : string) (cc bcc : option string) : string :=
  let text := "To: " +:+ to +:+ LF +:+ "Subject: " +:+ subject +:+ LF in
  let text := line_if_given "Cc" cc text in
  let text := line_if_given "Bcc" bcc text in
  text +:+ LF +:+ body.

Definition send_message (to subject body : string) (cc bcc : option string)
    : St gmail_state json :=
  st_try
    (let raw_message := urlsafe_b64encode G (message_text to subject body cc bcc) in
     api (MessagesSend [("raw", JStr raw_message)]))
    (fun _ _ => mret JNull).

Definition reply_text (headers : dict) (reply_body : string) : outcome string :=
  subject ← py_replace (header headers "Subject") "Re: " EmptyString;
  mret ("To: " +:+ py_str E (header headers "From") +:+ LF
        +:+ "Subject: Re: " +:+ subject +:+ LF
        +:+ "In-Reply-To: " +:+ py_str E (header headers "Message-ID") +:+ LF
        +:+ "References: " +:+ py_str E (header headers "Message-ID") +:+ LF
        +:+ LF +:+ reply_body).

Definition reply_to_message (message_id reply_body : string) : St gmail_state json :=
  st_try
    (original_message ←
       api (MessagesGet (JStr message_id) "metadata" ["Subject"; "From"; "To"; "Message-ID"]);
     headers ← st_lift (headers_of original_message);
     text ← st_lift (reply_text headers reply_body);
     let raw_message := urlsafe_b64encode G text in
     thread_id ← st_lift (py_getitem original_message "threadId");
     api (MessagesSend [("raw", JStr raw_message); ("threadId", thread_id)]))
    (fun _ _ => mret JNull).

(** [{'id': label['id'], 'name': label['name'], 'type': label['type']}] *)
Definition label_entry (label : json) : outcome json :=
  id ← py_getitem label "id";
  name ← py_getitem label "name";
  type ← py_getitem label "type";
  mret (JObj [("id", id); ("name", name); ("type", type)]).

Definition get_labels : St gmail_state json :=
  st_try
    (result ← api LabelsList;
     labels ← st_lift (py_get result "labels" (JList []));
     items ← st_lift (py_iter labels);
     entries ← st_lift (collect label_entry items);
     mret (JList entries))
    (fun _ _ => mret (JList [])).

Definition add_label_to_message (message_id label_id : string) : St gmail_state json :=
  st_try (api (MessagesModify message_id [("addLabelIds", JList [JStr label_id])]))
    (fun _ _ => mret JNull).

Definition remove_label_from_message (message_id label_id : string) : St gmail_state json :=
  st_try (api (MessagesModify message_id [("removeLabelIds", JList [JStr label_id])]))
    (fun _ _ => mret JNull).

Definition mark_as_read (message_id : string) : St gmail_state json :=
  remove_label_from_message message_id "UNREAD".

Definition mark_as_unread (message_id : string) : St gmail_state json :=
  add_label_to_message message_id "UNREAD".

Definition search_messages (query : string) (max_results : Z) : St gmail_state json :=
  list_messages query max_results None.

End Lib.
End gmail_lib.

Module gmail_mcp_server.
Section Server.

Context (E : environment) (G : google).

(** [_ensure_service]: the service is built when the global is [None]; an
    exception of the construction is answered with [False]. *)
Definition _ensure_service : St gmail_state bool :=
  fun s =>
    if gmail_service s then (Ok true, s)
    else
      match get_gmail_service G (api_log s) with
      | Success service => (Ok service, GmailState (api_log s ++ [EvService]) service)
      | Failure _ _ => (Ok false, GmailState (api_log s ++ [EvService]) false)
      end.

Definition service_unavailable : json := JObj [("error", JStr "Gmail service not available.")].

(** The head of every tool: [if not await _ensure_service(ctx): return
    {"error": "Gmail service not available."}]. *)
Definition with_service (tool : St gmail_state json) : St gmail_state json :=
  available ← _ensure_service;
  if (available : bool) then tool else mret service_unavailable.

Definition RecursionError : exn :=
  Exception "RecursionError" "maximum recursion depth exceeded".

Definition could_not_decode : string := "[Could not decode body content]".

Definition _decode_body_data (data : json) : string :=
  if negb (py_truthy data) then EmptyString
  else
    match urlsafe_b64decode G data with
    | Success text => text
    | Failure _ _ =>
        match b64decode_padded G data with
        | Success text => text
        | Failure _ _ => could_not_decode
        end
    end.

(** [part.get('body', {}).get('data')] *)
Definition body_data (part : json) : outcome json :=
  body ← py_get part "body" (JObj []);
  py_get body "data" JNull.

(** [_decode_body_data(part['body']['data'])] *)
Definition decoded_body (part : json) : outcome string :=
  body ← py_getitem part "body";
  data ← py_getitem body "data";
  mret (_decode_body_data data).

(** [<test on part['mimeType']> and part.get('body', {}).get('data')] *)
Definition has_wanted_data (wanted : json -> outcome bool) (part : json) : outcome bool :=
  mime ← py_getitem part "mimeType";
  hit ← wanted mime;
  if (hit : bool) then
    data ← body_data part;
    mret (py_truthy data)
  else mret false.

(** [part['mimeType'].startswith('multipart/') and 'parts' in part] *)
Definition is_multipart (part : json) : outcome bool :=
  mime ← py_getitem part "mimeType";
  multipart ← py_startswith mime "multipart/";
  if (multipart : bool) then py_contains "parts" part else mret false.

(** One of the three passes over the parts: [Some] is the text the pass
    returns, [None] means that the pass came to its end. *)
Fixpoint pass (wanted : json -> outcome bool) (nested : json -> outcome string)
    (parts : list json) : outcome (option string) :=
  match parts with
  | [] => Ok None
  | part :: rest =>
      found ← has_wanted_data wanted part;
      if (found : bool) then
        text ← decoded_body part;
        mret (Some text)
      else
        multipart ← is_multipart part;
        if (multipart : bool) then
          nested_body ← nested part;
          if negb (String.eqb nested_body EmptyString) then mret (Some nested_body)
          else pass wanted nested rest
        else pass wanted nested rest
  end.

(** [_extract_body_from_payload(part, part['mimeType'])] of the third pass *)
Definition with_own_type (extract : json -> string -> outcome string) (part : json)
    : outcome string :=
  mime ← py_getitem part "mimeType";
  match mime with
  | JStr preferred_mime_type => extract part preferred_mime_type
  | _ => Raise (AttributeError ("'" +:+ type_name mime
                                +:+ "' object has no attribute 'startswith'"))
  end.

Fixpoint _extract_body_from_payload (depth : nat) (payload : json)
    (preferred_mime_type : string) : outcome string :=
  match depth with
  | 0 => Raise RecursionError
  | S depth =>
      has_parts ← py_contains "parts" payload;
      if (has_parts : bool) then
        parts ← py_getitem payload "parts";
        parts_to_check ← py_iter parts;
        first ← pass (fun mime => mret (is_str preferred_mime_type mime))
                  (fun part => _extract_body_from_payload depth part preferred_mime_type)
                  parts_to_check;
        match first with
        | Some text => mret text
        | None =>
            second ← (if negb (String.eqb preferred_mime_type "text/plain") then
                        pass (fun mime => mret (is_str "text/plain" mime))
                          (fun part => _extract_body_from_payload depth part "text/plain")
                          parts_to_check
                      else mret None);
            match second with
            | Some text => mret text
            | None =>
                third ← pass (fun mime => py_startswith mime "text/")
                          (with_own_type (_extract_body_from_payload depth))
                          parts_to_check;
                match third with
                | Some text => mret text
                | None => mret EmptyString
                end
            end
        end
      else
        mime ← py_get payload "mimeType" (JStr EmptyString);
        text ← py_startswith mime "text/";
        if (text : bool) then
          data ← body_data payload;
          if py_truthy data then decoded_body payload else mret EmptyString
        else mret EmptyString
  end.

Definition _format_message_summary (message_data : json) : outcome json :=
  id ← py_get message_data "id" JNull;
  thread_id ← py_get message_data "threadId" JNull;
  subject ← py_get message_data "subject" (JStr EmptyString);
  from_addr ← py_get message_data "from" (JStr EmptyString);
  to ← py_get message_data "to" (JStr EmptyString);
  date ← py_get message_data "date" (JStr EmptyString);
  snippet ← py_get message_data "snippet" (JStr EmptyString);
  label_ids ← py_get message_data "labelIds" (JList []);
  mret (JObj [("id", id); ("threadId", thread_id); ("subject", subject); ("from", from_addr);
              ("to", to); ("date", date); ("snippet", snippet); ("labelIds", label_ids)]).

(** The body of the loop over the parts in [_format_message_detail]. *)
Definition attachment (part : json) : outcome (option json) :=
  filename ← py_get part "filename" JNull;
  if py_truthy filename then
    body ← py_get part "body" (JObj []);
    attachment_id ← py_get body "attachmentId" JNull;
    if py_truthy attachment_id then
      filename ← py_getitem part "filename";
      mime ← py_get part "mimeType" JNull;
      body ← py_get part "body" (JObj []);
      size ← py_get body "size" JNull;
      body ← py_getitem part "body";
      attachment_id ← py_getitem body "attachmentId";
      mret (Some (JObj [("filename", filename); ("mimeType", mime); ("size", size);
                        ("attachmentId", attachment_id)]))
    else mret None
  else mret None.

Definition _format_message_detail (message_data : json) : outcome json :=
  payload ← py_get message_data "payload" (JObj []);
  headers_list ← py_get payload "headers" (JList []);
  items ← py_iter headers_list;
  headers_dict ← header_dict items [];
  body_html ← _extract_body_from_payload (recursion_depth G) payload "text/html";
  body_plain ← _extract_body_from_payload (recursion_depth G) payload "text/plain";
  let body := if negb (String.eqb body_html EmptyString) then body_html else body_plain in
  has_parts ← py_contains "parts" payload;
  attachments ← (if (has_parts : bool) then
                   parts ← py_getitem payload "parts";
                   items ← py_iter parts;
                   found ← collect attachment items;
                   mret (omap id found)
                 else mret []);
  id ← py_get message_data "id" JNull;
  thread_id ← py_get message_data "threadId" JNull;
  snippet ← py_get message_data "snippet" (JStr EmptyString);
  label_ids ← py_get message_data "labelIds" (JList []);
  mret (JObj [("id", id); ("threadId", thread_id);
              ("subject", header headers_dict "Subject"); ("from", header headers_dict "From");
              ("to", header headers_dict "To"); ("cc", header headers_dict "Cc");
              ("date", header headers_dict "Date"); ("snippet", snippet);
              ("labelIds", label_ids); ("body", JStr body); ("bodyHtml", JStr body_html);
              ("headers", JObj headers_dict); ("attachments", JList attachments)]).

Definition is_none (v : json) : bool := match v with JNull => true | _ => false end.

(** [{"messages": [_format_message_summary(msg) for msg in messages_raw]}],
    after the test [messages_raw is None] *)
Definition message_list (messages_raw : json) (library_error : string) : outcome json :=
  if is_none messages_raw then mret (JObj [("error", JStr library_error)])
  else
    items ← py_iter messages_raw;
    formatted_messages ← collect _format_message_summary items;
    mret (JObj [("messages", JList formatted_messages)]).

Definition list_messages (query : string) (max_results : Z) (label_ids : option (list string))
    : St gmail_state json :=
  with_service
    (st_try
       (messages_raw ← gmail_lib.list_messages G query max_results label_ids;
        st_lift (message_list messages_raw "Failed to retrieve messages. Library error."))
       (fun _ msg =>
          mret (JObj [("error", JStr ("An unexpected error occurred: " +:+ msg))]))).

Definition get_message (message_id : string) : St gmail_state json :=
  with_service
    (st_try
       (message_raw ← gmail_lib.get_message G message_id;
        if negb (py_truthy message_raw) then
          mret (JObj [("error", JStr ("Message '" +:+ message_id
                                      +:+ "' not found or error in retrieval."))])
        else
          formatted_message ← st_lift (_format_message_detail message_raw);
          mret (JObj [("message", formatted_message)]))
       (fun _ msg =>
          mret (JObj [("error", JStr ("An unexpected error occurred while fetching message '"
                                      +:+ message_id +:+ "': " +:+ msg))]))).

Definition search_messages (query : string) (max_results : Z) : St gmail_state json :=
  with_service
    (st_try
       (messages_raw ← gmail_lib.search_messages G query max_results;
        st_lift (message_list messages_raw "Failed to search messages. Library error."))
       (fun _ msg =>
          mret (JObj [("error", JStr ("An unexpected error occurred during search: "
                                      +:+ msg))]))).

Definition failed (msg : string) : json :=
  JObj [("success", JBool false); ("error", JStr msg)].

(** [if result and 'id' in result: return <reply> else: return <failure>] *)
Definition if_done (result : json) (reply : json -> outcome json) (failure : string)
    : outcome json :=
  has_id ← (if py_truthy result then py_contains "id" result else mret false);
  if (has_id : bool) then reply result else mret (failed failure).

(** [{"success": True, "messageId": result['id'], <key>: result.get(<key>)}] *)
Definition done_reply (key : string) (result : json) : outcome json :=
  id ← py_getitem result "id";
  v ← py_get result key JNull;
  mret (JObj [("success", JBool true); ("messageId", id); (key, v)]).

(** The tools that act on the mailbox share one body: the call of the
    library, the test of its result, and the handler of exceptions. *)
Definition acting (lib : St gmail_state json) (key failure : string) : St gmail_state json :=
  with_service
    (st_try
       (result ← lib;
        st_lift (if_done result (done_reply key) failure))
       (fun _ msg => mret (failed ("An unexpected error occurred: " +:+ msg)))).

Definition send_message (to subject body : string) (cc bcc : option string)
    : St gmail_state json :=
  acting (gmail_lib.send_message G to subject body cc bcc) "threadId" "Failed to send email.".

Definition reply_to_message (message_id reply_body : string) : St gmail_state json :=
  acting (gmail_lib.reply_to_message E G message_id reply_body) "threadId"
    "Failed to send reply.".

Definition mark_message_as_read (message_id : string) : St gmail_state json :=
  acting (gmail_lib.mark_as_read G message_id) "labelIds" "Failed to mark as read.".

Definition mark_message_as_unread (message_id : string) : St gmail_state json :=
  acting (gmail_lib.mark_as_unread G message_id) "labelIds" "Failed to mark as unread.".

Definition add_label_to_message (message_id label_id : string) : St gmail_state json :=
  acting (gmail_lib.add_label_to_message G message_id label_id) "labelIds"
    ("Failed to add label '" +:+ label_id +:+ "'.").

Definition remove_label_from_message (message_id label_id : string) : St gmail_state json :=
  acting (gmail_lib.remove_label_from_message G message_id label_id) "labelIds"
    ("Failed to remove label '" +:+ label_id +:+ "'.").

Definition list_labels : St gmail_state json :=
  with_service
    (st_try
       (labels ← gmail_lib.get_labels G;
        if is_none labels then
          mret (JObj [("error", JStr "Failed to retrieve labels. Library error.")])
        else mret (JObj [("labels", labels)]))
       (fun _ msg =>
          mret (JObj [("error", JStr ("An unexpected error occurred: " +:+ msg))]))).

(** [@mcp.tool()]: the tools by name, with the parameters each declares. *)
Definition tools : list (string * (dict -> outcome (St gmail_state json))) :=
  [ ("list_messages", fun args =>
       query ← arg_str_default args "query" EmptyString;
       max_results ← arg_int_default args "max_results" 10;
       label_ids ← arg_strs_nullable args "label_ids";
       mret (list_messages query max_results label_ids));
    ("get_message", fun args =>
       message_id ← arg_str args "message_id"; mret (get_message message_id));
    ("search_messages", fun args =>
       request ← arg_search_request args;
       mret (search_messages request.1 request.2));
    ("send_message", fun args =>
       to ← arg_str args "to"; subject ← arg_str args "subject"; body ← arg_str args "body";
       cc ← arg_str_nullable args "cc"; bcc ← arg_str_nullable args "bcc";
       mret (send_message to subject body cc bcc));
    ("reply_to_message", fun args =>
       message_id ← arg_str args "message_id"; reply_body ← arg_str args "reply_body";
       mret (reply_to_message message_id reply_body));
    ("mark_message_as_read", fun args =>
       message_id ← arg_str args "message_id"; mret (mark_message_as_read message_id));
    ("mark_message_as_unread", fun args =>
       message_id ← arg_str args "message_id"; mret (mark_message_as_unread message_id));
    ("add_label_to_message", fun args =>
       message_id ← arg_str args "message_id"; label_id ← arg_str args "label_id";
       mret (add_label_to_message message_id label_id));
    ("remove_label_from_message", fun args =>
       message_id ← arg_str args "message_id"; label_id ← arg_str args "label_id";
       mret (remove_label_from_message message_id label_id));
    ("list_labels", fun _ => mret list_labels) ].

End Server.
End gmail_mcp_server.

(** The message the server's [get_message] sends for an extract of the
    library: of the extract only these four fields are left. *)
Definition without_content (id thread_id snippet label_ids : json) : json :=
  JObj [("id", id); ("threadId", thread_id); ("subject", JStr EmptyString);
        ("from", JStr EmptyString); ("to", JStr EmptyString); ("cc", JStr EmptyString);
        ("date", JStr EmptyString); ("snippet", snippet); ("labelIds", label_ids);
        ("body", JStr EmptyString); ("bodyHtml", JStr EmptyString); ("headers", JObj []);
        ("attachments", JList [])].

(** ** A concrete session

    A scripted environment on which the definitions are run: a reasoning
    backend that delegates every request but a greeting, and two MCP servers
    with canned replies. *)

Module Scenario.

Definition msg1 : json :=
  JObj [("id", JStr "m1"); ("threadId", JStr "t1"); ("subject", JStr "Hello");
        ("from", JStr "alice@example.com"); ("to", JStr "me@example.com");
        ("date", JStr "Mon, 1 Jan 2024"); ("snippet", JStr "Hi");
        ("labelIds", JList [JStr "INBOX"; JStr "UNREAD"])].

Definition msg2 : json :=
  JObj [("id", JStr "m2"); ("threadId", JStr "t2"); ("subject", JStr "Invoice");
        ("from", JStr "billing@example.com"); ("to", JStr "me@example.com");
        ("date", JStr "Tue, 2 Jan 2024"); ("snippet", JStr "Due");
        ("labelIds", JList [JStr "INBOX"])].

(** The decoder of the session: the reply texts the servers use. *)
Definition decode (text : string) : fallible json :=
  if String.eqb text "two-messages" then Success (JObj [("messages", JList [msg1; msg2])])
  else if String.eqb text "task-created" then
    Success (JObj [("success", JBool true);
                   ("task", JObj [("id", JStr "T1"); ("title", JStr "call mom")])])
  else if String.eqb text "quota" then Success (JObj [("error", JStr "quota exceeded")])
  else if String.eqb text "five" then Success (JInt 5)
  else Failure "JSONDecodeError" "Expecting value: line 1 column 1 (char 0)".

Definition server (s : sub_agent) (tr : list event) (tool_name : string) (params : dict)
    : fallible (list content_item) :=
  if String.eqb tool_name "list_messages" then
    Success [TextContent "two-messages"; TextContent "quota"]
  else if String.eqb tool_name "create_task" then Success [TextContent "task-created"]
  else if String.eqb tool_name "list_labels" then Success []
  else if String.eqb tool_name "send_message" then Failure "ConnectionError" "connection refused"
  else if String.eqb tool_name "get_message" then Success [TextContent "<html>"]
  else if String.eqb tool_name "list_tasks" then Success [TextContent "five"]
  else Success [ImageContent "png"].

Definition model (a : agent) (tr : list event) (full_messages : list message)
    : fallible (string * list tool_call) :=
  match a, last full_messages with
  | Master, Some (HumanMessage c) =>
      if String.eqb c "hello" then Success ("Hi there!", [])
      else Success (EmptyString, [ToolCall "todo_agent" [("user_request", JStr c)] "call_m1"])
  | Master, _ => Success ("The task has been created.", [])
  | Sub Todo, Some (HumanMessage c) =>
      Success (EmptyString,
               [ToolCall "create_task" [("list_id", JStr "L1"); ("title", JStr "call mom")]
                         "call_t1"])
  | Sub Todo, Some (ToolMessage c _ _) => Success ("Done. " +:+ c, [])
  | Sub Gmail, Some (HumanMessage c) =>
      Success (EmptyString, [ToolCall "list_messages" [("query", JStr "is:unread")] "call_g1"])
  | Sub Gmail, Some (ToolMessage c _ _) => Success (c, [])
  | _, _ => Success ("?", [])
  end.

Definition env : environment :=
  {| mcp_enter := fun _ _ => Success tt;
     mcp_call_tool := server;
     json_loads := decode;
     llm_ainvoke := model;
     py_repr := fun _ => "<repr>";
     system_prompt := fun _ => "You are an assistant.";
     recursion_limit := 25;
     invalid_tool_text := fun name => "Error: " +:+ name +:+ " is not a valid tool.";
     tool_error_text := fun cls msg => "Error: " +:+ cls +:+ "('" +:+ msg +:+ "')";
     unicode_lower := fun s => s |}.

(** The same session with an endpoint that refuses connections. *)
Definition env_offline : environment :=
  {| mcp_enter := fun _ _ => Failure "ConnectionError" "connection refused";
     mcp_call_tool := server;
     json_loads := decode;
     llm_ainvoke := model;
     py_repr := fun _ => "<repr>";
     system_prompt := fun _ => "You are an assistant.";
     recursion_limit := 25;
     invalid_tool_text := fun name => "Error: " +:+ name +:+ " is not a valid tool.";
     tool_error_text := fun cls msg => "Error: " +:+ cls +:+ "('" +:+ msg +:+ "')";
     unicode_lower := fun s => s |}.

(** Agents after [__aenter__] of the Master, before any connection is used
    ([offline]) and after the connections are up ([online]). *)
Definition offline : agent_obj := AgentObj false false true None.
Definition online : agent_obj := AgentObj true true true None.

Definition world0 : world := World [] ∅ online online (MasterObj true true true).
Definition world_offline : world := World [] ∅ offline offline (MasterObj true true true).

(** A caller that already holds a state dictionary with one earlier exchange. *)
Definition earlier : list message := [HumanMessage "hello"; AIMessage "Hi there!" []].
Definition held : conv_state := ConvState 1%positive [("current_context", JNull)].
Definition world1 : world :=
  World [] {[ 1%positive := earlier ]} online online (MasterObj true true true).

(** The Master's graph standing at the tools node: the backend has just
    requested the To-Do agent. *)
Definition request_text : string := "remind me to call mom tomorrow".
Definition delegating : gstate :=
  GState [HumanMessage request_text;
          AIMessage EmptyString
            [ToolCall "todo_agent" [("user_request", JStr request_text)] "call_m1"]]
         master_initial_fields.

(** The Gmail agent's graph standing at the tools node: the backend has just
    requested [list_messages]. *)
Definition listing : gstate :=
  GState [HumanMessage "show my unread emails";
          AIMessage EmptyString
            [ToolCall "list_messages" [("query", JStr "is:unread")] "call_g1"]]
         (sub_initial_fields Gmail).

(** Two ways a client can answer when it is closed. *)
Definition closing : sub_agent -> list event -> fallible unit := fun _ _ => Success tt.
Definition stuck : sub_agent -> list event -> fallible unit :=
  fun s _ =>
    match s with
    | Todo => Failure "RuntimeError" "session is closed"
    | Gmail => Success tt
    end.

(** The objects before [__aenter__] of the Master. *)
Definition world_new : world := World [] ∅ new_agent new_agent (MasterObj false false false).

(** U+00A0 NO-BREAK SPACE and U+2003 EM SPACE, as UTF-8. *)
Definition nbsp : string :=
  String (ascii_of_nat 194) (String (ascii_of_nat 160) EmptyString).
Definition em_space : string :=
  String (ascii_of_nat 226) (String (ascii_of_nat 128) (String (ascii_of_nat 131) EmptyString)).

(** The To Do server's side of the session: a Graph endpoint that holds one
    task, and the same endpoint out of reach. *)
Definition task1 : json :=
  JObj [("id", JStr "T1"); ("title", JStr "call mom"); ("status", JStr "notStarted");
        ("dueDateTime", msgraph_todo_lib.due_date_time "2025-01-31");
        ("body", msgraph_todo_lib.text_body "at noon")].

Definition graph_api : network :=
  {| httpx := fun _ r =>
       match rq_method r with
       | GET => Success (HttpResponse 200 (Success (JObj [("value", JList [task1])])))
       | POST => Success (HttpResponse 201 (Success task1))
       | PATCH => Success (HttpResponse 200 (Success task1))
       | DELETE => Success (HttpResponse 204 (Failure "JSONDecodeError" "Expecting value"))
       end;
     get_access_token := fun _ => Success (Some "token-1") |}.

Definition graph_down : network :=
  {| httpx := fun _ _ => Failure "ConnectError" "All connection attempts failed";
     get_access_token := fun _ => Success (Some "token-1") |}.

Definition todo_new : todo_state := TodoState [] None.
Definition todo_signed_in : todo_state := TodoState [] (Some "token-1").

(** What the server answers about that task, and a session whose To Do
    endpoint sends these answers. *)
Definition shown1 : json :=
  JObj [("id", JStr "T1"); ("title", JStr "call mom"); ("status", JStr "notStarted");
        ("dueDate", JStr "2025-01-31"); ("description", JStr "at noon")].

Definition decode_todo (text : string) : fallible json :=
  if String.eqb text "tasks" then Success (JObj [("tasks", JList [shown1])])
  else if String.eqb text "created" then Success (improved_mcp_server.succeeded shown1)
  else Failure "JSONDecodeError" "Expecting value: line 1 column 1 (char 0)".

Definition server_todo (s : sub_agent) (tr : list event) (tool_name : string) (params : dict)
    : fallible (list content_item) :=
  if String.eqb tool_name "list_tasks" then Success [TextContent "tasks"]
  else Success [TextContent "created"].

Definition env_todo : environment :=
  {| mcp_enter := fun _ _ => Success tt;
     mcp_call_tool := server_todo;
     json_loads := decode_todo;
     llm_ainvoke := model;
     py_repr := fun _ => "<repr>";
     system_prompt := fun _ => "You are an assistant.";
     recursion_limit := 25;
     invalid_tool_text := fun name => "Error: " +:+ name +:+ " is not a valid tool.";
     tool_error_text := fun cls msg => "Error: " +:+ cls +:+ "('" +:+ msg +:+ "')";
     unicode_lower := fun s => s |}.

(** The Gmail server's side of the session: a mailbox with one message. *)
Definition full_message : json :=
  JObj [("id", JStr "m1"); ("threadId", JStr "t1"); ("snippet", JStr "See you");
        ("labelIds", JList [JStr "INBOX"; JStr "UNREAD"]);
        ("payload",
         JObj [("mimeType", JStr "text/plain");
               ("headers",
                JList [JObj [("name", JStr "Subject"); ("value", JStr "Re: Lunch")];
                       JObj [("name", JStr "From"); ("value", JStr "alice@example.com")];
                       JObj [("name", JStr "To"); ("value", JStr "me@example.com")];
                       JObj [("name", JStr "Date"); ("value", JStr "Mon, 1 Jan 2024")];
                       JObj [("name", JStr "Message-ID"); ("value", JStr "<1@example.com>")]]);
               ("body", JObj [("size", JInt 16); ("data", JStr "U2VlIHlvdSBhdCBub29u")])])].

Definition mailbox_api (log : list gmail_event) (r : api_request) : fallible json :=
  match r with
  | MessagesList _ => Success (JObj [("messages", JList [JObj [("id", JStr "m1");
                                                               ("threadId", JStr "t1")]])])
  | MessagesGet _ _ _ => Success full_message
  | MessagesSend _ => Success (JObj [("id", JStr "m2"); ("threadId", JStr "t1");
                                     ("labelIds", JList [JStr "SENT"])])
  | MessagesModify id _ => Success (JObj [("id", JStr id); ("threadId", JStr "t1");
                                          ("labelIds", JList [JStr "INBOX"])])
  | LabelsList => Success (JObj [("labels",
                     JList [JObj [("id", JStr "INBOX"); ("name", JStr "INBOX");
                                  ("type", JStr "system"); ("messagesTotal", JInt 12);
                                  ("messagesUnread", JInt 3)]])])
  end.

Definition mailbox : google :=
  {| get_gmail_service := fun _ => Success true;
     execute := mailbox_api;
     urlsafe_b64decode := fun data =>
       if is_str "U2VlIHlvdSBhdCBub29u" data then Success "See you at noon"
       else Failure "Error" "Incorrect padding";
     b64decode_padded := fun _ => Failure "Error" "Incorrect padding";
     urlsafe_b64encode := fun text => "base64:" +:+ text;
     recursion_depth := 1000 |}.

(** The same mailbox when the API cannot be reached, and when the
    credentials file is missing. *)
Definition mailbox_down : google :=
  {| get_gmail_service := fun _ => Success true;
     execute := fun _ _ => Failure "HttpError" "HttpError 503";
     urlsafe_b64decode := urlsafe_b64decode mailbox;
     b64decode_padded := b64decode_padded mailbox;
     urlsafe_b64encode := urlsafe_b64encode mailbox;
     recursion_depth := 1000 |}.

Definition mailbox_locked : google :=
  {| get_gmail_service := fun _ =>
       Failure "FileNotFoundError" "Gmail credentials file 'gmail_credentials.json' not found.";
     execute := mailbox_api;
     urlsafe_b64decode := urlsafe_b64decode mailbox;
     b64decode_padded := b64decode_padded mailbox;
     urlsafe_b64encode := urlsafe_b64encode mailbox;
     recursion_depth := 1000 |}.

Definition gmail_new : gmail_state := GmailState [] false.
Definition gmail_ready : gmail_state := GmailState [] true.

(** A session whose Gmail endpoint sends what the server answers about that
    mailbox. *)
Definition decode_gmail (text : string) : fallible json :=
  if String.eqb text "message" then
    Success (JObj [("message",
                    without_content (JStr "m1") (JStr "t1") (JStr "See you")
                      (JList [JStr "INBOX"; JStr "UNREAD"]))])
  else if String.eqb text "sent" then
    Success (JObj [("success", JBool true); ("messageId", JStr "m2");
                   ("threadId", JStr "t1")])
  else Failure "JSONDecodeError" "Expecting value: line 1 column 1 (char 0)".

Definition server_gmail (s : sub_agent) (tr : list event) (tool_name : string) (params : dict)
    : fallible (list content_item) :=
  if String.eqb tool_name "get_message" then Success [TextContent "message"]
  else if String.eqb tool_name "search_messages" then
    Failure "ToolError" "1 validation error for call[search_messages]"
  else Success [TextContent "sent"].

Definition env_gmail : environment :=
  {| mcp_enter := fun _ _ => Success tt;
     mcp_call_tool := server_gmail;
     json_loads := decode_gmail;
     llm_ainvoke := model;
     py_repr := fun _ => "<repr>";
     system_prompt := fun _ => "You are an assistant.";
     recursion_limit := 25;
     invalid_tool_text := fun name => "Error: " +:+ name +:+ " is not a valid tool.";
     tool_error_text := fun cls msg => "Error: " +:+ cls +:+ "('" +:+ msg +:+ "')";
     unicode_lower := fun s => s |}.

End Scenario.

(** * Specification vocabulary *)

(** A result that is not an interrupt. *)
Definition calm {A} (o : outcome A) : Prop := o <> Raise KeyboardInterrupt.

(** The world only grows: events are appended to the trace and every list
    object of the heap keeps what it held, possibly with more at its end. *)
Definition grows (w w' : world) : Prop :=
  trace w `prefix_of` trace w' /\
  forall p l, heap w !! p = Some l -> exists l', heap w' !! p = Some l' /\ l `prefix_of` l'.

(** A computation that never raises an interrupt and only lets the world grow. *)
Definition tame {A} (m : M A) : Prop :=
  forall w, calm (m w).1 /\ grows w (m w).2.

(** The first statements of [chat_body]: create the state if absent, append
    the user message to its list, read the list for the graph. *)
Definition enter_chat (initial : dict) (text : string) (state : option conv_state)
    : M (conv_state * list message) :=
  state ← match state with
          | None => p ← alloc []; mret (ConvState p initial)
          | Some st => mret st
          end;
  list_append (messages state) (HumanMessage text);;
  msgs ← read_list (messages state);
  mret (state, msgs).

(** What [call_mcp_tool] makes of the first content item of a reply. *)
Definition unwrap_first (E : environment) (tool_name : string) (item : content_item) : json :=
  let failed msg := error_dict ("Error calling MCP tool " +:+ tool_name +:+ ": " +:+ msg) in
  match item with
  | ImageContent _ => failed "'ImageContent' object has no attribute 'text'"
  | TextContent text =>
      match json_loads E text with
      | Failure _ msg => failed msg
      | Success parsed =>
          match py_contains "error" parsed with
          | Ok _ => parsed
          | Raise _ =>
              failed ("argument of type '" +:+ type_name parsed +:+ "' is not iterable")
          end
      end
  end.

(** The ensure-connected step at the head of [call_mcp_tool]. *)
Definition ensure_connected (E : environment) (s : sub_agent) : M unit :=
  w ← get_world;
  if negb (connected (obj s w)) then connect_mcp E s else mret tt.

(** The world after a connection attempt of [s], and after a successful one. *)
Definition after_attempt (s : sub_agent) (w : world) : world :=
  log (EvConnect s) (set_obj s (set_mcp_client true (obj s w)) w).

Definition after_connect (s : sub_agent) (w : world) : world :=
  set_obj s (set_connected true (obj s (after_attempt s w))) (after_attempt s w).

Definition is_connect (s : sub_agent) (e : event) : bool :=
  match e with
  | EvConnect s' => bool_decide (s = s')
  | _ => false
  end.

(** Number of connection attempts of agent [s] recorded in a trace. *)
Definition connects (s : sub_agent) (tr : list event) : nat :=
  length (filter (fun e => is_connect s e = true) tr).

(** Number of calls of agent [a]'s backend recorded in a trace. *)
Definition model_calls (a : agent) (tr : list event) : nat :=
  length (filter (fun e => match e with
                           | EvModel a' _ => bool_decide (a = a')
                           | _ => false
                           end = true) tr).

(** The request an adapter sends and the prefix of its error text. *)
Definition gmail_request (c : gmail_call) : string * option dict :=
  match c with
  | ListMessages query max_results =>
      ("list_messages", Some [("query", JStr query); ("max_results", JInt max_results)])
  | GetMessage message_id => ("get_message", Some [("message_id", JStr message_id)])
  | SearchMessages query max_results =>
      ("search_messages", Some [("query", JStr query); ("max_results", JInt max_results)])
  | SendMessage to subject body cc bcc =>
      ("send_message",
       Some (set_if_nonempty "bcc" bcc (set_if_nonempty "cc" cc
               [("to", JStr to); ("subject", JStr subject); ("body", JStr body)])))
  | ReplyToMessage message_id reply_body =>
      ("reply_to_message",
       Some [("message_id", JStr message_id); ("reply_body", JStr reply_body)])
  | MarkMessageAsRead message_id =>
      ("mark_message_as_read", Some [("message_id", JStr message_id)])
  | MarkMessageAsUnread message_id =>
      ("mark_message_as_unread", Some [("message_id", JStr message_id)])
  | AddLabelToMessage message_id label_id =>
      ("add_label_to_message",
       Some [("message_id", JStr message_id); ("label_id", JStr label_id)])
  | RemoveLabelFromMessage message_id label_id =>
      ("remove_label_from_message",
       Some [("message_id", JStr message_id); ("label_id", JStr label_id)])
  | ListLabels => ("list_labels", None)
  end.

Definition gmail_error_prefix (c : gmail_call) : string :=
  match c with
  | ListMessages _ _ => "Error listing messages: "
  | GetMessage _ => "Error getting message: "
  | SearchMessages _ _ => "Error searching messages: "
  | SendMessage _ _ _ _ _ => "Error sending message: "
  | ReplyToMessage _ _ => "Error sending reply: "
  | MarkMessageAsRead _ => "Error marking message as read: "
  | MarkMessageAsUnread _ => "Error marking message as unread: "
  | AddLabelToMessage _ _ => "Error adding label: "
  | RemoveLabelFromMessage _ _ => "Error removing label: "
  | ListLabels => "Error listing labels: "
  end.

Definition todo_request (c : todo_call) : string * option dict :=
  match c with
  | ListTaskLists => ("list_task_lists", None)
  | CreateTaskList name => ("create_task_list", Some [("name", JStr name)])
  | DeleteTaskList list_id => ("delete_task_list", Some [("list_id", JStr list_id)])
  | ListTasks list_id => ("list_tasks", Some [("list_id", JStr list_id)])
  | CreateTask list_id title description due_date =>
      ("create_task",
       Some [("list_id", JStr list_id); ("title", JStr title);
             ("description", JStr description); ("due_date", JStr due_date)])
  | UpdateTask list_id task_id title description due_date status =>
      ("update_task",
       Some (set_if_given "status" status (set_if_given "due_date" due_date
              (set_if_given "description" description (set_if_given "title" title
                [("list_id", JStr list_id); ("task_id", JStr task_id)])))))
  | CompleteTask list_id task_id =>
      ("complete_task", Some [("list_id", JStr list_id); ("task_id", JStr task_id)])
  | UncompleteTask list_id task_id =>
      ("uncomplete_task", Some [("list_id", JStr list_id); ("task_id", JStr task_id)])
  | DeleteTask list_id task_id =>
      ("delete_task", Some [("list_id", JStr list_id); ("task_id", JStr task_id)])
  end.

Definition todo_error_prefix (c : todo_call) : string :=
  match c with
  | ListTaskLists => "Error: "
  | CreateTaskList _ => "Error creating task list: "
  | DeleteTaskList _ => "Error deleting task list: "
  | ListTasks _ => "Error listing tasks: "
  | CreateTask _ _ _ _ => "Error creating task: "
  | UpdateTask _ _ _ _ _ _ => "Error updating task: "
  | CompleteTask _ _ => "Error completing task: "
  | UncompleteTask _ _ => "Error marking task as not started: "
  | DeleteTask _ _ => "Error deleting task: "
  end.

(** The keys an agent's [call_model] overwrites besides appending its reply. *)
Definition agent_update (a : agent) (st : gstate) (calls : list tool_call) : dict :=
  match a with
  | Master => [("current_context", updated_context (state_get st "current_context") calls)]
  | Sub _ => []
  end.

(** The state and the world after the backend of [a] has replied. *)
Definition after_reply (a : agent) (st : gstate) (text : string) (calls : list tool_call)
    : gstate :=
  apply_update st (Update [AIMessage text calls] (agent_update a st calls)).

(** What [chat_body] does once the graph has returned [result]. *)
Definition leave_chat (result : gstate) : M (string * conv_state) :=
  p ← alloc (g_messages result);
  last_message ← lift (py_last (g_messages result));
  mret (content last_message, ConvState p (g_fields result)).

(** The wrapper of the Master that stands for sub-agent [s]. *)
Definition wrapper (E : environment) (s : sub_agent) : string -> M string :=
  match s with
  | Todo => todo_agent E
  | Gmail => gmail_agent E
  end.

(** The tool of the Master that stands for sub-agent [s]. *)
Definition sub_tool_name (s : sub_agent) : string :=
  match s with Gmail => "gmail_agent" | Todo => "todo_agent" end.

(** "After all tool calls of a round are resolved the backend is invoked
    again on the extended history before the round's answer is produced":
    whenever a run of agent [a]'s graph that stands at the tools node
    comes to an answer, the trace shows, right after the events of the tools,
    a call of [a]'s backend on the history extended by the tool results. *)
Definition reasons_again (E : environment) (a : agent) : Prop :=
  forall fuel st w st' w',
    run_graph (agent_graph E a) fuel tools_node st w = (Ok st', w') ->
    exists u w1,
      wf_tools (agent_graph E a) st w = (Ok u, w1) /\
      (trace w1 ++ [EvModel a (system_message E a (apply_update st u)
                                :: g_messages st ++ u_messages u)])
        `prefix_of` trace w'.

(** A message summary as the Gmail server sends it: a dict whose
    [from], [subject] and [date], when present, are strings and whose
    [labelIds], when present, is a list of strings. *)
Definition str_or_absent (d : dict) (k : string) : bool :=
  match dict_lookup k d with
  | Some (JStr _) | None => true
  | Some _ => false
  end.

Definition labels_of (d : dict) : option (list string) :=
  match dict_lookup "labelIds" d with
  | Some (JList l) => all_strs l
  | Some _ => None
  | None => Some []
  end.

Definition summary_ok (msg : json) : bool :=
  match msg with
  | JObj d =>
      str_or_absent d "from" && str_or_absent d "subject" && str_or_absent d "date"
      && bool_decide (is_Some (labels_of d))
  | _ => false
  end.

Definition str_field (d : dict) (k default : string) : string :=
  match dict_lookup k d with
  | Some (JStr s) => s
  | _ => default
  end.

Definition fields_of (msg : json) : dict :=
  match msg with JObj d => d | _ => [] end.

(** The numbered entry [list_messages] renders for the [i]-th summary. *)
Definition entry_text (E : environment) (i : nat) (msg : json) : string :=
  let d := fields_of msg in
  pretty i +:+ ". From: " +:+ str_take 30 (str_field d "from" "Unknown") +:+ LF
  +:+ "   Subject: " +:+ str_take 50 (str_field d "subject" "No Subject") +:+ LF
  +:+ "   Date: " +:+ str_take 20 (str_field d "date" "Unknown") +:+ LF
  +:+ "   Labels: "
  +:+ String.concat ", " (take 3 (match labels_of d with Some ls => ls | None => [] end))
  +:+ LF
  +:+ "   ID: "
  +:+ py_str E (match dict_lookup "id" d with Some v => v | None => JStr "Unknown" end)
  +:+ LF +:+ LF.

(** The entries [list_messages] renders for a list of summaries, numbered from 1. *)
Definition entry_list (E : environment) (msgs : list json) : list string :=
  (fun im => entry_text E im.1 im.2) <$> enumerate_from 1 msgs.

(** The messages of the state a caller passes to [chat]; none without a state. *)
Definition history (w : world) (state : option conv_state) : list message :=
  match state with
  | Some st => match heap w !! messages st with Some l => l | None => [] end
  | None => []
  end.

(** The fields of the state a caller passes to [chat], or those [chat]
    creates. *)
Definition fields_in (a : agent) (state : option conv_state) : dict :=
  match state with
  | Some st => fields st
  | None => initial_fields a
  end.

(** The function of the To Do server a call of the agent is meant for, with
    the same arguments. *)
Definition served (N : network) (c : todo_call) : St todo_state json :=
  match c with
  | ListTaskLists => improved_mcp_server.list_task_lists N
  | CreateTaskList name => improved_mcp_server.create_task_list N name
  | DeleteTaskList list_id => improved_mcp_server.delete_task_list N list_id
  | ListTasks list_id => improved_mcp_server.list_tasks N list_id
  | CreateTask list_id title description due_date =>
      improved_mcp_server.create_task N list_id title description due_date
  | UpdateTask list_id task_id title description due_date status =>
      improved_mcp_server.update_task N list_id task_id title description due_date status
  | CompleteTask list_id task_id => improved_mcp_server.complete_task N list_id task_id
  | UncompleteTask list_id task_id => improved_mcp_server.uncomplete_task N list_id task_id
  | DeleteTask list_id task_id => improved_mcp_server.delete_task N list_id task_id
  end.

(** Every description in a list of tasks is a string. *)
Definition descriptions_are_text (reply : json) : Prop :=
  forall tasks fields d,
    reply = JObj [("tasks", JList tasks)] ->
    In (JObj fields) tasks ->
    dict_lookup "description" fields = Some d ->
    exists text, d = JStr text.

(** A computation of a server that leaves its state as it found it. *)
Definition quiet {S A} (m : St S A) : Prop := forall s, (m s).2 = s.

(** A computation of the To Do server that asks the network at most once,
    with the token [t], and leaves the library's global alone. *)
Definition one_request {A} (t : string) (m : St todo_state A) : Prop :=
  forall s,
    (m s).2 = s \/
    exists r, rq_bearer r = t /\ (m s).2 = TodoState (net s ++ [EvHttp r]) (access_token s).

(** The agents keep what they have: a connection, a client or a graph that
    is there before is there after, and the Master object is as it was. *)
Definition stays_up (w w' : world) : Prop :=
  (forall s, connected (obj s w) = true -> connected (obj s w') = true) /\
  (forall s, mcp_client (obj s w) = true -> mcp_client (obj s w') = true) /\
  (forall s, graph (obj s w) = true -> graph (obj s w') = true) /\
  master w' = master w.

Definition steady {A} (m : M A) : Prop := forall w, stays_up w (m w).2.

(** A computation that leaves the world as it found it. *)
Definition still {A} (m : M A) : Prop := forall w, (m w).2 = w.

(** The user messages of a history, in order. *)
Definition user_text (m : message) : option string :=
  match m with
  | HumanMessage text => Some text
  | _ => None
  end.

Definition requests_in (h : list message) : list string := omap user_text h.

(** [s] begins with [p]. *)
Definition begins_with (p s : string) : Prop := exists rest, s = p +:+ rest.

(** [v if v else None]: an adapter leaves out an argument that is empty. *)
Definition given (v : string) : option string :=
  if String.eqb v EmptyString then None else Some v.

(** The function of the Gmail server that has the name an adapter calls,
    with the adapter's arguments. *)
Definition gmail_served (E : environment) (G : google) (c : gmail_call)
    : St gmail_state json :=
  match c with
  | ListMessages query max_results => gmail_mcp_server.list_messages G query max_results None
  | GetMessage message_id => gmail_mcp_server.get_message G message_id
  | SearchMessages query max_results => gmail_mcp_server.search_messages G query max_results
  | SendMessage to subject body cc bcc =>
      gmail_mcp_server.send_message G to subject body (given cc) (given bcc)
  | ReplyToMessage message_id reply_body =>
      gmail_mcp_server.reply_to_message E G message_id reply_body
  | MarkMessageAsRead message_id => gmail_mcp_server.mark_message_as_read G message_id
  | MarkMessageAsUnread message_id => gmail_mcp_server.mark_message_as_unread G message_id
  | AddLabelToMessage message_id label_id =>
      gmail_mcp_server.add_label_to_message G message_id label_id
  | RemoveLabelFromMessage message_id label_id =>
      gmail_mcp_server.remove_label_from_message G message_id label_id
  | ListLabels => gmail_mcp_server.list_labels G
  end.

(** The calls that act on the mailbox, and the text their adapter has for a
    reply that tells neither an error nor a success. *)
Definition gmail_fallback (c : gmail_call) : option string :=
  match c with
  | SendMessage _ _ _ _ _ => Some "Failed to send email."
  | ReplyToMessage _ _ => Some "Failed to send reply."
  | MarkMessageAsRead _ => Some "Failed to mark message as read."
  | MarkMessageAsUnread _ => Some "Failed to mark message as unread."
  | AddLabelToMessage _ _ => Some "Failed to add label."
  | RemoveLabelFromMessage _ _ => Some "Failed to remove label."
  | _ => None
  end.

(** The state of the Gmail server after some requests to the API: the
    requests are added to the log and the service object stays. *)
Definition asked (rs : list api_request) (s : gmail_state) : gmail_state :=
  GmailState (api_log s ++ (EvApi <$> rs)) (gmail_service s).

(** A computation of the Gmail server that only asks the API, raises no
    interrupt, and whose results satisfy [P]. *)
Definition tries {A} (P : A -> Prop) (m : St gmail_state A) : Prop :=
  forall s,
    (exists rs, (m s).2 = asked rs s) /\
    match (m s).1 with
    | Ok x => P x
    | Raise (Exception _ _) => True
    | Raise KeyboardInterrupt => False
    end.

(** Such a computation that always returns. *)
Definition always {A} (P : A -> Prop) (m : St gmail_state A) : Prop :=
  forall s, exists x rs, m s = (Ok x, asked rs s) /\ P x.

Definition is_dict (v : json) : Prop := exists d, v = JObj d.

(** What the library makes of a message: a summary (in [list_messages]) and
    an extract with the text of the body (in [get_message]); and of a label. *)
Definition is_summary (v : json) : Prop :=
  exists id thread_id subject from_addr to date snippet label_ids,
    v = JObj [("id", id); ("threadId", thread_id); ("subject", subject); ("from", from_addr);
              ("to", to); ("date", date); ("snippet", snippet); ("labelIds", label_ids)].

Definition is_extract (v : json) : Prop :=
  exists id thread_id subject from_addr to date body snippet label_ids,
    v = JObj [("id", id); ("threadId", thread_id); ("subject", subject); ("from", from_addr);
              ("to", to); ("date", date); ("body", JStr body); ("snippet", snippet);
              ("labelIds", label_ids)].

Definition is_label (v : json) : Prop :=
  exists id name type, v = JObj [("id", id); ("name", name); ("type", type)].

(** * Properties *)

Section Properties.

Context (E : environment).
Implicit Types (w : world) (s : sub_agent) (a : agent).

(** ** Pure computations raise no interrupt *)

Lemma calm_ok {A} (x : A) : calm (Ok x).
Proof. discriminate. Qed.

Lemma calm_exception {A} cls msg : calm (@Raise A (Exception cls msg)).
Proof. discriminate. Qed.

Lemma calm_bind {A B} (o : outcome A) (f : A -> outcome B) :
  calm o -> (forall x, calm (f x)) -> calm (o ≫= f).
Proof.
  intros Ho Hf. destruct o as [x|e]; unfold mbind, outcome_bind; [apply Hf|].
  intros [= ->]. by apply Ho.
Qed.

Lemma calm_for_loop {A} (body : string -> A -> outcome string) l :
  (forall out x, calm (body out x)) -> forall out, calm (for_loop body out l).
Proof.
  intros Hbody. induction l as [|x l IH]; intros out; simpl.
  - apply calm_ok.
  - specialize (Hbody out x). destruct (body out x) as [out'|e]; [apply IH|].
    intros [= ->]. by apply Hbody.
Qed.

Create HintDb py.

#[local] Hint Unfold TypeError KeyError AttributeError RuntimeError ValidationError
  GraphRecursionError
  py_contains py_getitem py_get py_slice_to py_len py_iter py_join item_text py_last
  get_tool_calls arg_str arg_str_default arg_int_default arg_str_optional
  success current_labels due_info title_and_id should_continue
  list_messages_entry search_messages_entry list_labels_entry attachment_line
  list_task_lists_entry list_tasks_entry get_message_render : py.

Ltac calm_step :=
  match goal with
  | |- calm (Ok _) => apply calm_ok
  | |- calm (mret _) => apply calm_ok
  | |- calm (Raise (Exception _ _)) => apply calm_exception
  | |- calm (mbind _ _) => apply calm_bind; [|intros]
  | |- calm (for_loop _ _ _) => apply calm_for_loop; intros
  | |- calm (if ?b then _ else _) => destruct b
  | |- calm (match ?x with _ => _ end) => destruct x
  end.

Ltac calm_tac := intros; repeat first [calm_step | progress autounfold with py].

Lemma calm_should_continue st : calm (should_continue st).
Proof. calm_tac. Qed.

(** ** The world only grows *)

Lemma grows_refl w : grows w w.
Proof. split; [reflexivity | intros p l Hp; by exists l]. Qed.

Lemma grows_trans w1 w2 w3 : grows w1 w2 -> grows w2 w3 -> grows w1 w3.
Proof.
  intros [Ht1 Hh1] [Ht2 Hh2]. split; [by etrans|].
  intros p l Hp. destruct (Hh1 p l Hp) as (l1 & Hp1 & Hl1).
  destruct (Hh2 p l1 Hp1) as (l2 & Hp2 & Hl2). exists l2. split; [done | by etrans].
Qed.

Lemma grows_log e w : grows w (log e w).
Proof. split; [by apply prefix_app_r | intros p l Hp; by exists l]. Qed.

Lemma grows_set_obj s o w : grows w (set_obj s o w).
Proof. destruct s; (split; [reflexivity | intros p l Hp; by exists l]). Qed.

Lemma tame_ret {A} (x : A) : tame (mret x).
Proof. intros w. split; [apply calm_ok | apply grows_refl]. Qed.

Lemma tame_bind {A B} (m : M A) (f : A -> M B) :
  tame m -> (forall x, tame (f x)) -> tame (m ≫= f).
Proof.
  intros Hm Hf w. specialize (Hm w). unfold mbind, M_bind.
  destruct (m w) as [[x|e] w1]; simpl in *.
  - destruct Hm as [_ Hg]. destruct (Hf x w1) as [Hc Hg1].
    split; [done | by eapply grows_trans].
  - destruct Hm as [Hc Hg]. split; [|done]. intros [= ->]. by apply Hc.
Qed.

Lemma tame_lift {A} (o : outcome A) : calm o -> tame (lift o).
Proof. intros Ho w. split; [done | apply grows_refl]. Qed.

Lemma tame_raise {A} cls msg : tame (@raise A (Exception cls msg)).
Proof. intros w. split; [apply calm_exception | apply grows_refl]. Qed.

Lemma tame_get_world : tame get_world.
Proof. intros w. split; [apply calm_ok | apply grows_refl]. Qed.

Lemma tame_modify (f : world -> world) : (forall w, grows w (f w)) -> tame (modify f).
Proof. intros Hf w. split; [apply calm_ok | apply Hf]. Qed.

Lemma tame_upd s f : tame (upd s f).
Proof. apply tame_modify. intros w. apply grows_set_obj. Qed.

Lemma tame_await {A} (r : fallible A) : tame (await r).
Proof. destruct r; [apply tame_ret | apply tame_raise]. Qed.

Lemma tame_try_except {A} (body : M A) handler :
  tame body -> (forall cls msg, tame (handler cls msg)) -> tame (try_except body handler).
Proof.
  intros Hb Hh w. specialize (Hb w). unfold try_except.
  destruct (body w) as [[x|[cls msg|]] w1]; simpl in *; try done.
  destruct Hb as [_ Hg]. destruct (Hh cls msg w1) as [Hc Hg1].
  split; [done | by eapply grows_trans].
Qed.

Lemma tame_logged {A} (m : M A) e : tame m -> tame (fun w => m (log e w)).
Proof.
  intros Hm w. destruct (Hm (log e w)) as [Hc Hg].
  split; [done | eapply grows_trans; [apply grows_log | done]].
Qed.

Lemma tame_client_enter s : tame (client_enter E s).
Proof.
  intros w. unfold client_enter.
  destruct (tame_await (mcp_enter E s (trace w)) (log (EvConnect s) w)) as [Hc Hg].
  split; [done | eapply grows_trans; [apply grows_log | done]].
Qed.

Lemma tame_client_call_tool s tool_name params : tame (client_call_tool E s tool_name params).
Proof.
  intros w. unfold client_call_tool. destruct (mcp_client (obj s w)).
  - destruct (tame_await (mcp_call_tool E s (trace w) tool_name params)
                (log (EvCallTool s tool_name params) w)) as [Hc Hg].
    split; [done | eapply grows_trans; [apply grows_log | done]].
  - split; [apply calm_exception | apply grows_refl].
Qed.

Lemma tame_llm a full_messages : tame (llm_with_tools_ainvoke E a full_messages).
Proof.
  intros w. unfold llm_with_tools_ainvoke.
  refine (tame_logged _ (EvModel a full_messages) _ w).
  apply tame_bind; [apply tame_await | intros; apply tame_ret].
Qed.

Ltac tame_step :=
  match goal with
  | |- tame (mret _) => apply tame_ret
  | |- tame (mbind _ _) => apply tame_bind; [|intros]
  | |- tame (lift _) => apply tame_lift; calm_tac
  | |- tame (raise (Exception _ _)) => apply tame_raise
  | |- tame (try_except _ _) => apply tame_try_except; [|intros]
  | |- tame get_world => apply tame_get_world
  | |- tame (upd _ _) => apply tame_upd
  | |- tame (modify (log _)) => apply tame_modify; intros; apply grows_log
  | |- tame (await _) => apply tame_await
  | |- tame (client_enter _ _) => apply tame_client_enter
  | |- tame (client_call_tool _ _ _ _) => apply tame_client_call_tool
  | |- tame (llm_with_tools_ainvoke _ _ _) => apply tame_llm
  | |- tame (if ?b then _ else _) => destruct b
  | |- tame (match ?x with _ => _ end) => destruct x
  end.

Ltac tame_tac := intros; repeat first [tame_step | progress autounfold with py].

Lemma tame_connect_mcp s : tame (connect_mcp E s).
Proof. unfold connect_mcp. tame_tac. Qed.


Lemma tame_call_mcp_tool s tool_name params : tame (call_mcp_tool E s tool_name params).
Proof. unfold call_mcp_tool, error_dict. tame_tac; apply tame_connect_mcp. Qed.

Lemma tame_on_error prefix result otherwise :
  tame otherwise -> tame (on_error E prefix result otherwise).
Proof. intros H. unfold on_error. tame_tac; done. Qed.

Ltac adapter_tac :=
  intros;
  repeat first
    [ apply tame_call_mcp_tool
    | apply tame_on_error
    | tame_step
    | progress autounfold with py ].

Lemma tame_run_gmail_call c : tame (run_gmail_call E c).
Proof.
  destruct c; simpl;
    unfold list_messages, get_message, search_messages, send_message, reply_to_message,
      mark_message_as_read, mark_message_as_unread, add_label_to_message,
      remove_label_from_message, list_labels;
    adapter_tac.
Qed.

Lemma tame_run_todo_call c : tame (run_todo_call E c).
Proof.
  destruct c; simpl;
    unfold list_task_lists, create_task_list, delete_task_list, list_tasks, create_task,
      update_task, complete_task, uncomplete_task, delete_task;
    adapter_tac.
Qed.


Lemma grows_set_heap_fresh w l :
  grows w (set_heap (<[fresh (dom (heap w)) := l]> (heap w)) w).
Proof.
  split; [reflexivity|]. intros p l0 Hp. exists l0. split; [|reflexivity].
  simpl. rewrite lookup_insert_ne; [done|]. intros <-.
  apply (is_fresh (dom (heap w))). apply elem_of_dom. by rewrite Hp.
Qed.

Lemma tame_alloc l : tame (alloc l).
Proof. intros w. split; [apply calm_ok | apply grows_set_heap_fresh]. Qed.

Lemma tame_list_append p m : tame (list_append p m).
Proof.
  intros w. unfold list_append. destruct (heap w !! p) as [l|] eqn:Hp; simpl.
  - split; [apply calm_ok|]. split; [reflexivity|]. intros q l0 Hq. simpl.
    destruct (decide (p = q)) as [<-|Hne].
    + rewrite lookup_insert_eq. exists (l ++ [m]). split; [done|].
      rewrite Hp in Hq. injection Hq as <-. by apply prefix_app_r.
    + rewrite lookup_insert_ne; [|done]. by exists l0.
  - split; [apply calm_exception | apply grows_refl].
Qed.

Lemma tame_read_list p : tame (read_list p).
Proof.
  intros w. unfold read_list. destruct (heap w !! p); simpl;
    (split; [first [apply calm_ok | apply calm_exception] | apply grows_refl]).
Qed.

Lemma calm_lookup_tool {C} name (tools : list (string * (dict -> outcome C))) bind :
  Forall (fun nb => forall args, calm (nb.2 args)) tools ->
  lookup_tool name tools = Some bind -> forall args, calm (bind args).
Proof.
  induction 1 as [|[n b] tools Hb _ IH]; simpl; [done|].
  destruct (String.eqb name n); [|done]. by intros [= <-].
Qed.

Lemma calm_gmail_tools : Forall (fun nb => forall args, calm (nb.2 args)) gmail_tools.
Proof. unfold gmail_tools. repeat constructor; simpl; calm_tac. Qed.

Lemma calm_todo_tools : Forall (fun nb => forall args, calm (nb.2 args)) todo_tools.
Proof. unfold todo_tools. repeat constructor; simpl; calm_tac. Qed.

Lemma calm_master_tools : Forall (fun nb => forall args, calm (nb.2 args)) master_tools.
Proof. unfold master_tools. repeat constructor; simpl; calm_tac. Qed.

Lemma tame_run_one {C} tools (run : C -> M string) tc :
  Forall (fun nb => forall args, calm (nb.2 args)) tools ->
  (forall c, tame (run c)) -> tame (run_one E tools run tc).
Proof.
  intros Htools Hrun. unfold run_one.
  destruct (lookup_tool (tc_name tc) tools) as [bind|] eqn:Hbind; [|apply tame_ret].
  apply tame_bind; [|intros; apply tame_ret].
  apply tame_try_except; [|intros; apply tame_ret].
  apply tame_bind; [|apply Hrun].
  apply tame_lift. by eapply calm_lookup_tool.
Qed.

Lemma tame_run_calls {C} tools (run : C -> M string) calls :
  Forall (fun nb => forall args, calm (nb.2 args)) tools ->
  (forall c, tame (run c)) -> tame (run_calls E tools run calls).
Proof.
  intros Htools Hrun. induction calls as [|tc calls IH]; simpl; [apply tame_ret|].
  tame_tac; [by apply tame_run_one | done].
Qed.

Lemma tame_tool_node {C} tools (run : C -> M string) st :
  Forall (fun nb => forall args, calm (nb.2 args)) tools ->
  (forall c, tame (run c)) -> tame (tool_node E tools run st).
Proof.
  intros Htools Hrun. unfold tool_node.
  destruct (last (g_messages st)) as [[| | |]|]; tame_tac. by apply tame_run_calls.
Qed.

Lemma tame_run_graph wf fuel n st :
  (forall st, tame (wf_agent wf st)) -> (forall st, tame (wf_tools wf st)) ->
  (forall st, calm (wf_conditional wf st)) ->
  tame (run_graph wf fuel n st).
Proof.
  intros Hagent Htools Hcond. revert n st.
  induction fuel as [|fuel IH]; intros [| |] st; simpl; tame_tac; auto.
Qed.

Lemma tame_chat_body wf initial message state :
  (forall st, tame (wf_agent wf st)) -> (forall st, tame (wf_tools wf st)) ->
  (forall st, calm (wf_conditional wf st)) ->
  tame (chat_body E wf initial message state).
Proof.
  intros Hagent Htools Hcond. unfold chat_body, ainvoke.
  tame_tac; first [apply tame_alloc | apply tame_list_append | apply tame_read_list
                  | by apply tame_run_graph ].
Qed.

Lemma tame_sub_chat s message state : tame (sub_chat E s message state).
Proof.
  unfold sub_chat. tame_tac. apply tame_chat_body; intros st.
  - destruct s; simpl; unfold gmail_call_model, todo_call_model; tame_tac.
  - destruct s; simpl; apply tame_tool_node;
      [apply calm_gmail_tools | apply tame_run_gmail_call
      | apply calm_todo_tools | apply tame_run_todo_call].
  - destruct s; apply calm_should_continue.
Qed.

Lemma tame_delegate s user_request : tame (delegate E s user_request).
Proof. unfold delegate. tame_tac. apply tame_sub_chat. Qed.

Lemma tame_run_master_call c : tame (run_master_call E c).
Proof. destruct c; apply tame_delegate. Qed.

Lemma tame_master_chat message state : tame (master_chat E message state).
Proof.
  unfold master_chat. tame_tac. apply tame_chat_body; intros st; simpl.
  - unfold master_call_model. tame_tac.
  - apply tame_tool_node; [apply calm_master_tools | apply tame_run_master_call].
  - apply calm_should_continue.
Qed.

Lemma tame_chat a message state : tame (chat E a message state).
Proof. destruct a; [apply tame_master_chat | apply tame_sub_chat]. Qed.


(** ** The Tool Invoker *)

Lemma obj_set_obj s o w : obj s (set_obj s o w) = o.
Proof. by destruct s. Qed.

Lemma trace_set_obj s o w : trace (set_obj s o w) = trace w.
Proof. by destruct s. Qed.

Lemma call_mcp_tool_unfold s tool_name params w :
  call_mcp_tool E s tool_name params w =
  let failed msg := error_dict ("Error calling MCP tool " +:+ tool_name +:+ ": " +:+ msg) in
  match ensure_connected E s w with
  | (Ok _, w1) =>
      match client_call_tool E s tool_name (params_or_empty params) w1 with
      | (Ok [], w2) => (Ok (error_dict "No result received from MCP server"), w2)
      | (Ok (item :: _), w2) => (Ok (unwrap_first E tool_name item), w2)
      | (Raise (Exception _ msg), w2) => (Ok (failed msg), w2)
      | (Raise KeyboardInterrupt, w2) => (Raise KeyboardInterrupt, w2)
      end
  | (Raise (Exception _ msg), w1) => (Ok (failed msg), w1)
  | (Raise KeyboardInterrupt, w1) => (Raise KeyboardInterrupt, w1)
  end.
Proof.
  cbv [call_mcp_tool ensure_connected try_except mbind M_bind mret M_ret get_world
       lift await raise].
  destruct (negb (connected (obj s w))).
  - destruct (connect_mcp E s w) as [[[]|[cls msg|]] w1]; try reflexivity.
    destruct (client_call_tool E s tool_name (params_or_empty params) w1)
      as [[[|item rest]|[cls msg|]] w2]; try reflexivity.
    destruct item as [text|data]; simpl; [|reflexivity].
    destruct (json_loads E text) as [parsed|cls msg]; simpl; [|reflexivity].
    destruct parsed; reflexivity.
  - destruct (client_call_tool E s tool_name (params_or_empty params) w)
      as [[[|item rest]|[cls msg|]] w2]; try reflexivity.
    destruct item as [text|data]; simpl; [|reflexivity].
    destruct (json_loads E text) as [parsed|cls msg]; simpl; [|reflexivity].
    destruct parsed; reflexivity.
Qed.


Lemma connect_mcp_connected s w :
  connected (obj s w) = true -> connect_mcp E s w = (Ok tt, w).
Proof.
  intros H. cbv [connect_mcp try_except mbind M_bind mret M_ret get_world].
  by rewrite H.
Qed.

Lemma connect_mcp_disconnected s w :
  connected (obj s w) = false ->
  connect_mcp E s w =
    match mcp_enter E s (trace w) with
    | Success _ => (Ok tt, after_connect s w)
    | Failure _ msg => (Raise (RuntimeError (init_failure s +:+ msg)), after_attempt s w)
    end.
Proof.
  intros H.
  cbv [connect_mcp try_except mbind M_bind mret M_ret get_world upd modify client_enter
       raise await].
  rewrite H. simpl. rewrite trace_set_obj.
  destruct (mcp_enter E s (trace w)) as [[]|cls msg]; reflexivity.
Qed.

Lemma client_call_tool_run s tool_name params w :
  mcp_client (obj s w) = true ->
  client_call_tool E s tool_name params w =
    (match mcp_call_tool E s (trace w) tool_name params with
     | Success reply => Ok reply
     | Failure cls msg => Raise (Exception cls msg)
     end, log (EvCallTool s tool_name params) w).
Proof.
  intros H. unfold client_call_tool. rewrite H.
  by destruct (mcp_call_tool E s (trace w) tool_name params).
Qed.

Lemma mcp_client_after_connect s w : mcp_client (obj s (after_connect s w)) = true.
Proof. unfold after_connect. by rewrite obj_set_obj; destruct s. Qed.

Lemma trace_after_attempt s w : trace (after_attempt s w) = trace w ++ [EvConnect s].
Proof. unfold after_attempt. simpl. by rewrite trace_set_obj. Qed.

Lemma trace_after_connect s w : trace (after_connect s w) = trace w ++ [EvConnect s].
Proof. unfold after_connect. by rewrite trace_set_obj, trace_after_attempt. Qed.

Lemma connects_app s tr tr' : connects s (tr ++ tr') = connects s tr + connects s tr'.
Proof. unfold connects. by rewrite filter_app, length_app. Qed.

Lemma connects_connect s : connects s [EvConnect s] = 1.
Proof. by destruct s. Qed.

(** The events of one [call_mcp_tool]: when connected, at most the tool call;
    when disconnected, one connection attempt, followed by the tool call if
    the attempt succeeded. *)
Lemma call_mcp_tool_trace s tool_name params w :
  let call := EvCallTool s tool_name (params_or_empty params) in
  trace (call_mcp_tool E s tool_name params w).2 =
    trace w ++
    (if connected (obj s w) then (if mcp_client (obj s w) then [call] else [])
     else match mcp_enter E s (trace w) with
          | Success _ => [EvConnect s; call]
          | Failure _ _ => [EvConnect s]
          end).
Proof.
  intros call. rewrite call_mcp_tool_unfold. unfold ensure_connected.
  cbv [mbind M_bind get_world mret M_ret].
  destruct (connected (obj s w)) eqn:Hc; simpl.
  - destruct (mcp_client (obj s w)) eqn:Hm.
    + rewrite client_call_tool_run by done.
      by destruct (mcp_call_tool E s (trace w) tool_name _) as [[|item rest]|cls msg].
    + unfold client_call_tool. rewrite Hm. simpl. by rewrite app_nil_r.
  - rewrite connect_mcp_disconnected by done.
    destruct (mcp_enter E s (trace w)) as [[]|cls msg].
    + rewrite client_call_tool_run by apply mcp_client_after_connect.
      rewrite trace_after_connect.
      destruct (mcp_call_tool E s _ tool_name _) as [[|item rest]|cls' msg'];
        simpl; rewrite trace_after_connect; by rewrite <- app_assoc.
    + unfold RuntimeError. simpl. apply trace_after_attempt.
Qed.

(** The world after one [call_mcp_tool]: the agent object changes only by a
    connection attempt, and stands connected after an attempt that succeeded. *)
Lemma call_mcp_tool_world s tool_name params w :
  let call := EvCallTool s tool_name (params_or_empty params) in
  (call_mcp_tool E s tool_name params w).2 =
    if connected (obj s w) then (if mcp_client (obj s w) then log call w else w)
    else match mcp_enter E s (trace w) with
         | Success _ => log call (after_connect s w)
         | Failure _ _ => after_attempt s w
         end.
Proof.
  intros call. rewrite call_mcp_tool_unfold. unfold ensure_connected.
  cbv [mbind M_bind get_world mret M_ret].
  destruct (connected (obj s w)) eqn:Hc; simpl.
  - destruct (mcp_client (obj s w)) eqn:Hm.
    + rewrite client_call_tool_run by done.
      by destruct (mcp_call_tool E s (trace w) tool_name _) as [[|item rest]|cls msg].
    + unfold client_call_tool. by rewrite Hm.
  - rewrite connect_mcp_disconnected by done.
    destruct (mcp_enter E s (trace w)) as [[]|cls msg]; [|done].
    rewrite client_call_tool_run by apply mcp_client_after_connect.
    by destruct (mcp_call_tool E s _ tool_name _) as [[|item rest]|cls' msg'].
Qed.

Lemma connected_after_connect s w : connected (obj s (after_connect s w)) = true.
Proof. unfold after_connect. by rewrite obj_set_obj. Qed.

Lemma connected_after_attempt s w :
  connected (obj s (after_attempt s w)) = connected (obj s w).
Proof. by destruct s. Qed.

(** C6.  Establishing the connection is idempotent.  While the agent is
    connected, [connect_mcp] does nothing and [call_mcp_tool] makes no
    connection attempt: its only event is the tool call, and the agent object
    is as it was.  While the agent is disconnected, [connect_mcp] and
    [call_mcp_tool] each make exactly one attempt, first.  If the attempt
    succeeds, the agent stands connected with its client, the tool call
    follows the attempt at once, and a further [connect_mcp] does nothing and
    a further [call_mcp_tool] makes its tool call without any attempt.  If
    the attempt fails, the agent stays disconnected, [connect_mcp] raises and
    [call_mcp_tool] makes no tool call. *)
Theorem connection_is_idempotent s tool_name params w :
  let call := EvCallTool s tool_name (params_or_empty params) in
  let after := (call_mcp_tool E s tool_name params w).2 in
  (connected (obj s w) = true ->
     connect_mcp E s w = (Ok tt, w) /\
     trace after = trace w ++ (if mcp_client (obj s w) then [call] else []) /\
     connects s (trace after) = connects s (trace w) /\
     obj s after = obj s w) /\
  (connected (obj s w) = false ->
     connects s (trace (connect_mcp E s w).2) = S (connects s (trace w)) /\
     connects s (trace after) = S (connects s (trace w)) /\
     match mcp_enter E s (trace w) with
     | Success _ =>
         exists w1,
           connect_mcp E s w = (Ok tt, w1) /\
           trace w1 = trace w ++ [EvConnect s] /\
           connected (obj s w1) = true /\ mcp_client (obj s w1) = true /\
           connect_mcp E s w1 = (Ok tt, w1) /\
           trace after = trace w ++ [EvConnect s; call] /\
           connected (obj s after) = true /\ mcp_client (obj s after) = true /\
           forall tool_name' params',
             trace (call_mcp_tool E s tool_name' params' after).2
               = trace after ++ [EvCallTool s tool_name' (params_or_empty params')]
     | Failure _ msg =>
         exists w1,
           connect_mcp E s w = (Raise (RuntimeError (init_failure s +:+ msg)), w1) /\
           trace w1 = trace w ++ [EvConnect s] /\
           connected (obj s w1) = false /\
           trace after = trace w ++ [EvConnect s] /\
           connected (obj s after) = false
     end).
Proof.
  intros call after. subst after. split; intros Hc.
  - split; [by apply connect_mcp_connected|].
    rewrite call_mcp_tool_trace, call_mcp_tool_world, Hc, connects_app.
    destruct (mcp_client (obj s w)); split; try done;
      (split; [unfold connects; simpl; lia | by destruct s]).
  - rewrite call_mcp_tool_trace, call_mcp_tool_world, connect_mcp_disconnected, Hc by done.
    destruct (mcp_enter E s (trace w)) as [[]|cls msg]; simpl.
    + rewrite trace_after_connect, !connects_app, connects_connect.
      split; [simpl; lia|]. split.
      { change [EvConnect s; ?c] with ([EvConnect s] ++ [c]).
        rewrite connects_app, connects_connect. unfold connects. simpl. lia. }
      exists (after_connect s w). split; [done|]. split; [apply trace_after_connect|].
      split; [apply connected_after_connect|]. split; [apply mcp_client_after_connect|].
      split; [apply connect_mcp_connected, connected_after_connect|].
      split; [done|].
      subst call.
      assert (obj s (log (EvCallTool s tool_name (params_or_empty params)) (after_connect s w))
              = obj s (after_connect s w)) as Hobj by by destruct s.
      rewrite !Hobj.
      split; [apply connected_after_connect|]. split; [apply mcp_client_after_connect|].
      intros tool_name' params'.
      rewrite call_mcp_tool_trace, Hobj, connected_after_connect, mcp_client_after_connect.
      simpl. rewrite trace_after_connect. by rewrite <- !app_assoc.
    + rewrite trace_set_obj, connects_app, connects_connect.
      split; [simpl; lia|]. split; [simpl; lia|].
      exists (after_attempt s w). split; [done|]. split; [apply trace_after_attempt|].
      rewrite connected_after_attempt. by repeat split.
Qed.


Lemma unwrap_first_parsed tool_name text parsed b :
  json_loads E text = Success parsed -> py_contains "error" parsed = Ok b ->
  unwrap_first E tool_name (TextContent text) = parsed.
Proof. intros H1 H2. unfold unwrap_first. by rewrite H1, H2. Qed.

(** C5.  Once the connection stands and the endpoint has replied,
    [call_mcp_tool] returns the error dictionary "No result received from MCP
    server" for a reply without content items, whatever [json.loads] would do;
    for any other reply its result is what [unwrap_first] makes of the first
    item alone, the later items play no part; and a first item whose text
    parses to a container is returned as parsed. *)
Theorem first_item_is_unwrapped s tool_name params w w1 reply :
  ensure_connected E s w = (Ok tt, w1) ->
  mcp_client (obj s w1) = true ->
  mcp_call_tool E s (trace w1) tool_name (params_or_empty params) = Success reply ->
  call_mcp_tool E s tool_name params w =
    (Ok (match reply with
         | [] => error_dict "No result received from MCP server"
         | item :: _ => unwrap_first E tool_name item
         end),
     log (EvCallTool s tool_name (params_or_empty params)) w1)
  /\ (forall text parsed b,
        json_loads E text = Success parsed -> py_contains "error" parsed = Ok b ->
        unwrap_first E tool_name (TextContent text) = parsed).
Proof.
  intros Hconn Hclient Hreply. split; [|intros; by eapply unwrap_first_parsed].
  rewrite call_mcp_tool_unfold. simpl. rewrite Hconn.
  rewrite client_call_tool_run, Hreply by done. by destruct reply.
Qed.

Lemma call_mcp_tool_returns s tool_name params w :
  exists v, (call_mcp_tool E s tool_name params w).1 = Ok v.
Proof.
  destruct (tame_call_mcp_tool s tool_name params w) as [Hcalm _].
  unfold call_mcp_tool, try_except in *.
  match goal with
  | |- context [let (_, _) := ?body w in _] => destruct (body w) as [[v|[cls msg|]] w1]
  end; simpl in *; eauto. by destruct Hcalm.
Qed.

Lemma call_mcp_tool_cases s tool_name params w v w' :
  call_mcp_tool E s tool_name params w = (Ok v, w') ->
  (exists msg, v = error_dict msg) \/
  (exists w1 text rest,
     ensure_connected E s w = (Ok tt, w1) /\
     mcp_call_tool E s (trace w1) tool_name (params_or_empty params)
       = Success (TextContent text :: rest) /\
     json_loads E text = Success v).
Proof.
  rewrite call_mcp_tool_unfold. simpl.
  destruct (ensure_connected E s w) as [[[]|[cls msg|]] w1]; [|intros [= <- <-]; eauto|done].
  unfold client_call_tool.
  destruct (mcp_client (obj s w1)); [|intros [= <- <-]; eauto].
  destruct (mcp_call_tool E s (trace w1) tool_name (params_or_empty params))
    as [[|item rest]|cls msg] eqn:Hreply; simpl; intros [= <- <-]; eauto.
  unfold unwrap_first. destruct item as [text|data]; eauto.
  destruct (json_loads E text) as [parsed|cls msg] eqn:Hparse; eauto.
  destruct (py_contains "error" parsed); eauto.
  right. exists w1, text, rest. done.
Qed.

Lemma on_error_error prefix d err otherwise w :
  dict_lookup "error" d = Some err ->
  on_error E prefix (JObj d) otherwise w = (Ok (prefix +:+ py_str E err), w).
Proof.
  intros H. cbv [on_error mbind M_bind lift py_contains py_getitem mret M_ret].
  rewrite H. by rewrite bool_decide_eq_true_2.
Qed.

Lemma adapter_error s tool_name params prefix otherwise d err w w' :
  call_mcp_tool E s tool_name params w = (Ok (JObj d), w') ->
  dict_lookup "error" d = Some err ->
  (result ← call_mcp_tool E s tool_name params; on_error E prefix result (otherwise result)) w
    = (Ok (prefix +:+ py_str E err), w').
Proof.
  intros Hcall Herr. unfold mbind, M_bind. rewrite Hcall. by apply on_error_error.
Qed.

Lemma gmail_adapter_error c d err w w' :
  call_mcp_tool E Gmail (gmail_request c).1 (gmail_request c).2 w = (Ok (JObj d), w') ->
  dict_lookup "error" d = Some err ->
  run_gmail_call E c w = (Ok (gmail_error_prefix c +:+ py_str E err), w').
Proof.
  intros Hcall Herr.
  destruct c; simpl in *;
    refine (adapter_error _ _ _ _ (fun result => _) _ _ _ _ Hcall Herr).
Qed.

Lemma todo_adapter_error c d err w w' :
  call_mcp_tool E Todo (todo_request c).1 (todo_request c).2 w = (Ok (JObj d), w') ->
  dict_lookup "error" d = Some err ->
  run_todo_call E c w = (Ok (todo_error_prefix c +:+ py_str E err), w').
Proof.
  intros Hcall Herr.
  destruct c; simpl in *;
    refine (adapter_error _ _ _ _ (fun result => _) _ _ _ _ Hcall Herr).
Qed.

(** C3.  [call_mcp_tool] always returns: for every agent, tool name and
    argument mapping its result is a value, never an exception.  That value is
    either a dictionary with the single key "error", or the connection, the
    remote call and the parse all succeeded and it is the parsed first item.
    And every adapter, Gmail or To-Do, that receives from [call_mcp_tool] a
    dictionary with an "error" key returns its error text
    (prefix followed by the error) instead of raising. *)
Theorem tool_failures_are_contained :
  (forall s tool_name params w, exists v, (call_mcp_tool E s tool_name params w).1 = Ok v) /\
  (forall s tool_name params w v w',
     call_mcp_tool E s tool_name params w = (Ok v, w') ->
     (exists msg, v = error_dict msg) \/
     (exists w1 text rest,
        ensure_connected E s w = (Ok tt, w1) /\
        mcp_call_tool E s (trace w1) tool_name (params_or_empty params)
          = Success (TextContent text :: rest) /\
        json_loads E text = Success v)) /\
  (forall c d err w w',
     call_mcp_tool E Gmail (gmail_request c).1 (gmail_request c).2 w = (Ok (JObj d), w') ->
     dict_lookup "error" d = Some err ->
     run_gmail_call E c w = (Ok (gmail_error_prefix c +:+ py_str E err), w')) /\
  (forall c d err w w',
     call_mcp_tool E Todo (todo_request c).1 (todo_request c).2 w = (Ok (JObj d), w') ->
     dict_lookup "error" d = Some err ->
     run_todo_call E c w = (Ok (todo_error_prefix c +:+ py_str E err), w')).
Proof.
  split; [|split; [|split]].
  - apply call_mcp_tool_returns.
  - apply call_mcp_tool_cases.
  - apply gmail_adapter_error.
  - apply todo_adapter_error.
Qed.


(** ** Rendering of [list_messages] *)

Lemma append_cons x (a b : string) : String x a +:+ b = String x (a +:+ b).
Proof. reflexivity. Qed.

Lemma append_assoc (a b c : string) : (a +:+ b) +:+ c = a +:+ (b +:+ c).
Proof. induction a as [|x a IH]; [done | by rewrite !append_cons, IH]. Qed.

Lemma append_empty_r (a : string) : a +:+ EmptyString = a.
Proof. induction a as [|x a IH]; [done | by rewrite append_cons, IH]. Qed.

Lemma concat_empty_cons (x : string) xs :
  String.concat EmptyString (x :: xs) = x +:+ String.concat EmptyString xs.
Proof. destruct xs; simpl; [by rewrite append_empty_r | done]. Qed.

Lemma all_strs_take n l ls : all_strs l = Some ls -> all_strs (take n l) = Some (take n ls).
Proof.
  revert n ls. induction l as [|v l IH]; intros n ls; simpl.
  - intros [= <-]. by destruct n.
  - destruct v; try done. destruct (all_strs l) as [r|] eqn:Hr; [|done].
    intros [= <-]. destruct n; simpl; [done|]. by rewrite (IH n r).
Qed.

Lemma list_messages_entry_ok out i msg :
  summary_ok msg = true ->
  list_messages_entry E out (i, msg) = Ok (out +:+ entry_text E i msg).
Proof.
  destruct msg as [| | | | | |d]; try discriminate. simpl.
  rewrite !andb_true_iff, bool_decide_eq_true.
  unfold str_or_absent. intros [[[Hfrom Hsubject] Hdate] [ls Hls]].
  unfold list_messages_entry, entry_text, str_field, fields_of.
  rewrite Hls. unfold labels_of in Hls.
  cbv [mbind outcome_bind mret outcome_ret py_get py_slice_to py_join py_iter].
  destruct (dict_lookup "from" d) as [[]|]; try discriminate;
  destruct (dict_lookup "subject" d) as [[]|]; try discriminate;
  destruct (dict_lookup "date" d) as [[]|]; try discriminate;
  (destruct (dict_lookup "labelIds" d) as [[| | | | |l|]|]; try discriminate;
   [ by rewrite (all_strs_take 3 l ls Hls) | by injection Hls as <- ]).
Qed.

Lemma for_loop_entries out i msgs :
  Forall (fun msg => summary_ok msg = true) msgs ->
  for_loop (list_messages_entry E) out (enumerate_from i msgs) =
    Ok (out +:+ String.concat EmptyString
                  ((fun im => entry_text E im.1 im.2) <$> enumerate_from i msgs)).
Proof.
  intros Hok. revert out i. induction Hok as [|msg msgs Hmsg _ IH]; intros out i.
  - simpl. by rewrite append_empty_r.
  - change (enumerate_from i (msg :: msgs)) with ((i, msg) :: enumerate_from (S i) msgs).
    rewrite fmap_cons, concat_empty_cons.
    change (for_loop ?body out ((i, msg) :: ?l))
      with (match body out (i, msg) with
            | Ok out' => for_loop body out' l
            | Raise e => Raise e
            end).
    rewrite list_messages_entry_ok by done. rewrite IH. by rewrite append_assoc.
Qed.

Lemma enumerate_from_lookup {A} i (l : list A) k x :
  l !! k = Some x -> enumerate_from i l !! k = Some (i + k, x).
Proof.
  revert i k. induction l as [|y l IH]; intros i [|k]; simpl; try done.
  - intros [= ->]. by rewrite Nat.add_0_r.
  - intros H. rewrite (IH (S i) k H). do 2 f_equal. lia.
Qed.

Lemma length_enumerate_from {A} i (l : list A) : length (enumerate_from i l) = length l.
Proof. revert i. induction l as [|y l IH]; intros i; simpl; [done | by rewrite IH]. Qed.

(** C7.  When the endpoint's reply to [list_messages] parses to a dictionary
    without "error" whose "messages" is a non-empty list of N message
    summaries, the adapter returns the header "Found N messages..." followed
    by exactly N entries; the k-th entry is numbered k and shows the From,
    Subject, Date, Labels and ID of the k-th message. *)
Theorem list_messages_renders_every_message query max_results w d msgs w' :
  call_mcp_tool E Gmail "list_messages"
    (Some [("query", JStr query); ("max_results", JInt max_results)]) w = (Ok (JObj d), w') ->
  dict_lookup "error" d = None ->
  dict_lookup "messages" d = Some (JList msgs) ->
  msgs <> [] ->
  Forall (fun msg => summary_ok msg = true) msgs ->
  exists output,
    list_messages E query max_results w = (Ok output, w') /\
    output = ("Found " +:+ pretty (length msgs) +:+ " messages" +:+ for_query query
              +:+ ":" +:+ LF +:+ LF) +:+ String.concat EmptyString (entry_list E msgs) /\
    begins_with ("Found " +:+ pretty (length msgs) +:+ " messages") output /\
    length (entry_list E msgs) = length msgs /\
    (forall k msg, msgs !! k = Some msg ->
       entry_list E msgs !! k = Some (entry_text E (S k) msg)).
Proof.
  intros Hcall Herr Hmsgs Hne Hok. eexists. split; [|split; [reflexivity|split; [|split]]].
  - unfold list_messages. unfold mbind at 1, M_bind at 1. rewrite Hcall.
    cbv [on_error mbind M_bind lift py_contains py_getitem py_get mret M_ret].
    rewrite Herr, Hmsgs. rewrite bool_decide_eq_false_2 by (by intros [? ?]).
    destruct msgs as [|msg msgs]; [done|]. cbv [py_truthy negb py_len py_iter].
    by rewrite for_loop_entries.
  - eexists. rewrite !append_assoc. reflexivity.
  - unfold entry_list. by rewrite length_fmap, length_enumerate_from.
  - intros k msg Hk. unfold entry_list.
    by rewrite list_lookup_fmap, (enumerate_from_lookup 1 msgs k msg Hk).
Qed.


(** ** Running the graph *)

Lemma bind_run {A B} (m : M A) (f : A -> M B) w :
  (m ≫= f) w = match m w with
               | (Ok x, w') => f x w'
               | (Raise e, w') => (Raise e, w')
               end.
Proof. reflexivity. Qed.

Lemma bind_ok_inv {A B} (m : M A) (f : A -> M B) w y w' :
  (m ≫= f) w = (Ok y, w') -> exists x w1, m w = (Ok x, w1) /\ f x w1 = (Ok y, w').
Proof. rewrite bind_run. destruct (m w) as [[x|e] w1]; [eauto | done]. Qed.

Lemma chat_body_split wf initial message state w :
  chat_body E wf initial message state w =
    match enter_chat initial message state w with
    | (Ok (st, msgs), w0) =>
        (result ← ainvoke E wf (GState msgs (fields st)); leave_chat result) w0
    | (Raise e, w0) => (Raise e, w0)
    end.
Proof.
  unfold chat_body, enter_chat, leave_chat. rewrite !bind_run.
  match goal with |- context [match ?m w with _ => _ end] => destruct (m w) as [[st|e] w1] end;
    [|done].
  rewrite !bind_run. destruct (list_append (messages st) (HumanMessage message) w1)
    as [[[]|e] w2]; [|done].
  rewrite !bind_run. by destruct (read_list (messages st) w2) as [[msgs|e] w3].
Qed.

Lemma chat_unfold a message state w :
  graph_ready a w = true ->
  chat E a message state w = chat_body E (agent_graph E a) (initial_fields a) message state w.
Proof.
  intros H. destruct a as [|s]; simpl in *.
  - unfold master_chat. rewrite bind_run. simpl. by rewrite H.
  - unfold sub_chat. rewrite bind_run. simpl. by rewrite H.
Qed.

Lemma enter_chat_some initial message st l w :
  heap w !! messages st = Some l ->
  enter_chat initial message (Some st) w =
    (Ok (st, l ++ [HumanMessage message]),
     set_heap (<[messages st := l ++ [HumanMessage message]]> (heap w)) w).
Proof.
  intros H. cbv [enter_chat mbind M_bind mret M_ret list_append read_list].
  rewrite H. simpl. by rewrite lookup_insert_eq.
Qed.

Lemma enter_chat_dangling initial message st w :
  heap w !! messages st = None ->
  enter_chat initial message (Some st) w = (Raise (RuntimeError "dangling reference"), w).
Proof.
  intros H. cbv [enter_chat mbind M_bind mret M_ret list_append read_list]. by rewrite H.
Qed.

Lemma enter_chat_none initial message w :
  let p := fresh (dom (heap w)) in
  enter_chat initial message None w =
    (Ok (ConvState p initial, [HumanMessage message]),
     set_heap (<[p := [HumanMessage message]]> (<[p := []]> (heap w))) w).
Proof.
  cbv [enter_chat mbind M_bind mret M_ret list_append read_list alloc]. simpl.
  rewrite lookup_insert_eq. simpl. by rewrite lookup_insert_eq.
Qed.


Lemma llm_run a full_messages w :
  llm_with_tools_ainvoke E a full_messages w =
    (match llm_ainvoke E a (trace w) full_messages with
     | Success r => Ok (AIMessage r.1 r.2)
     | Failure cls msg => Raise (Exception cls msg)
     end, log (EvModel a full_messages) w).
Proof.
  unfold llm_with_tools_ainvoke. rewrite bind_run. simpl.
  by destruct (llm_ainvoke E a (trace w) full_messages).
Qed.

Lemma agent_node_run a st w :
  wf_agent (agent_graph E a) st w =
    (match llm_ainvoke E a (trace w) (system_message E a st :: g_messages st) with
     | Success r => Ok (Update [AIMessage r.1 r.2] (agent_update a st r.2))
     | Failure cls msg => Raise (Exception cls msg)
     end, log (EvModel a (system_message E a st :: g_messages st)) w).
Proof.
  destruct a as [|[|]]; simpl;
    unfold master_call_model, gmail_call_model, todo_call_model;
    rewrite bind_run, llm_run;
    by destruct (llm_ainvoke E _ (trace w) _).
Qed.

Lemma wf_conditional_agent_graph a : wf_conditional (agent_graph E a) = should_continue.
Proof. by destruct a as [|[|]]. Qed.

Lemma should_continue_after_reply a st text calls :
  should_continue (after_reply a st text calls) =
    Ok (match calls with [] => END | _ :: _ => tools_node end).
Proof.
  unfold should_continue, after_reply, apply_update, py_last. simpl.
  rewrite last_snoc. simpl. by destruct calls.
Qed.

(** One execution of the agent node when the backend replies. *)
Lemma run_graph_agent a fuel st w text calls :
  llm_ainvoke E a (trace w) (system_message E a st :: g_messages st) = Success (text, calls) ->
  run_graph (agent_graph E a) (S fuel) agent_node st w =
    run_graph (agent_graph E a) fuel (match calls with [] => END | _ :: _ => tools_node end)
      (after_reply a st text calls)
      (log (EvModel a (system_message E a st :: g_messages st)) w).
Proof.
  intros Hllm. simpl. rewrite bind_run, agent_node_run, Hllm. simpl.
  rewrite bind_run, wf_conditional_agent_graph.
  fold (after_reply a st text calls). by rewrite should_continue_after_reply.
Qed.

Lemma leave_chat_run result w m :
  last (g_messages result) = Some m ->
  leave_chat result w =
    (Ok (content m, ConvState (fresh (dom (heap w))) (g_fields result)),
     set_heap (<[fresh (dom (heap w)) := g_messages result]> (heap w)) w).
Proof.
  intros H. unfold leave_chat, alloc, py_last. rewrite bind_run. simpl. by rewrite H.
Qed.



Lemma tame_agent_graph a :
  (forall st, tame (wf_agent (agent_graph E a) st)) /\
  (forall st, tame (wf_tools (agent_graph E a) st)) /\
  (forall st, calm (wf_conditional (agent_graph E a) st)).
Proof.
  split; [|split]; intros st.
  - intros w. rewrite agent_node_run. simpl. split; [|apply grows_log].
    destruct (llm_ainvoke E a _ _); [apply calm_ok | apply calm_exception].
  - destruct a as [|[|]]; simpl; apply tame_tool_node;
      first [ apply calm_master_tools | apply calm_gmail_tools | apply calm_todo_tools
            | apply tame_run_master_call | apply tame_run_gmail_call
            | apply tame_run_todo_call ].
  - rewrite wf_conditional_agent_graph. apply calm_should_continue.
Qed.

Lemma tame_run_agent_graph a fuel n st : tame (run_graph (agent_graph E a) fuel n st).
Proof. destruct (tame_agent_graph a) as (? & ? & ?). by apply tame_run_graph. Qed.

(** In the sub-agents the tools node leads back to the agent node. *)
Lemma sub_agent_reasons_again s : reasons_again E (Sub s).
Proof.
  intros fuel st w st' w' Hrun.
  destruct fuel as [|f1]; [done|]. simpl in Hrun.
  apply bind_ok_inv in Hrun as (u & w1 & Htools & Hrun).
  exists u, w1. split; [done|].
  replace (wf_tools_edge (sub_graph E s)) with agent_node in Hrun by (by destruct s).
  destruct f1 as [|f2]; [done|].
  change (run_graph ?wf (S f2) agent_node ?st1 w1)
    with ((u ← wf_agent wf st1;
           next ← lift (wf_conditional wf (apply_update st1 u));
           run_graph wf f2 next (apply_update st1 u)) w1) in Hrun.
  apply bind_ok_inv in Hrun as (u2 & w2 & Hagent & Hrun).
  change (sub_graph E s) with (agent_graph E (Sub s)) in Hagent.
  rewrite agent_node_run in Hagent.
  assert (w2 = log (EvModel (Sub s) (system_message E (Sub s) (apply_update st u)
                                     :: g_messages (apply_update st u))) w1) as Hw2
    by congruence.
  assert (tame (next ← lift (wf_conditional (sub_graph E s)
                               (apply_update (apply_update st u) u2));
                run_graph (sub_graph E s) f2 next (apply_update (apply_update st u) u2))) as Ht.
  { apply tame_bind; [apply tame_lift, (tame_agent_graph (Sub s))|].
    intros n. apply (tame_run_agent_graph (Sub s)). }
  destruct (Ht w2) as [_ [Hprefix _]].
  rewrite Hrun in Hprefix. rewrite Hw2 in Hprefix. exact Hprefix.
Qed.

(** In the Master the tools node leads to [END]. *)
Lemma master_tools_end fuel st w u w1 :
  wf_tools (agent_graph E Master) st w = (Ok u, w1) ->
  run_graph (agent_graph E Master) (S fuel) tools_node st w = (Ok (apply_update st u), w1).
Proof.
  intros H. simpl in *. rewrite bind_run, H. by destruct fuel.
Qed.

(** C1 (as amended).  In both sub-agents, once the tool calls of a round are
    resolved and their results appended, the graph returns to the agent node:
    the backend is invoked again on the extended history before the answer is
    produced.  In the Master agent the tools node leads to [END]: the round
    ends with the tool results as the last messages and without a further
    backend call. *)
Theorem tools_lead_back_to_reasoning_in_sub_agents :
  (forall s, reasons_again E (Sub s)) /\
  (forall fuel st w u w1,
     wf_tools (agent_graph E Master) st w = (Ok u, w1) ->
     run_graph (agent_graph E Master) (S fuel) tools_node st w
       = (Ok (apply_update st u), w1)).
Proof. split; [apply sub_agent_reasons_again | apply master_tools_end]. Qed.


(** ** Delegation *)

Lemma wrapper_delegate s : wrapper E s = delegate E s.
Proof. by destruct s. Qed.

Lemma delegate_unavailable s user_request w :
  has_sub_agent s w = false ->
  delegate E s user_request w =
    (Ok ("❌ " +:+ agent_label s +:+ " is not available. Please try again later."), w).
Proof.
  intros H. cbv [delegate try_except mbind M_bind get_world mret M_ret]. by rewrite H.
Qed.

Lemma delegate_run s user_request w :
  has_sub_agent s w = true ->
  delegate E s user_request w =
    match sub_chat E s user_request (_current_state (obj s w)) w with
    | (Ok r, w1) => (Ok r.1, set_obj s (set_current_state (Some r.2) (obj s w1)) w1)
    | (Raise (Exception _ msg), w1) =>
        (Ok ("❌ Error with " +:+ agent_label s +:+ ": " +:+ msg), w1)
    | (Raise KeyboardInterrupt, w1) => (Raise KeyboardInterrupt, w1)
    end.
Proof.
  intros H. cbv [delegate try_except mbind M_bind get_world mret M_ret upd modify].
  rewrite H. simpl.
  by destruct (sub_chat E s user_request (_current_state (obj s w)) w) as [[r|[cls msg|]] w1].
Qed.

(** C10.  Neither wrapper of the Master ever raises: for every request and
    every world the wrapper returns a string.  If the sub-agent reference is
    [None], or if the sub-agent's [chat] raises, the string returned begins
    with the cross mark; if [chat] returns, the wrapper returns its answer and
    the sub-agent's [_current_state] holds the state [chat] returned. *)
Theorem sub_agent_wrappers_never_raise s user_request w :
  (exists text, (wrapper E s user_request w).1 = Ok text) /\
  (has_sub_agent s w = false ->
     exists text, wrapper E s user_request w = (Ok text, w) /\ begins_with "❌" text) /\
  (forall e w1,
     has_sub_agent s w = true ->
     sub_chat E s user_request (_current_state (obj s w)) w = (Raise e, w1) ->
     exists text, wrapper E s user_request w = (Ok text, w1) /\ begins_with "❌" text) /\
  (forall response st' w1,
     has_sub_agent s w = true ->
     sub_chat E s user_request (_current_state (obj s w)) w = (Ok (response, st'), w1) ->
     exists w', wrapper E s user_request w = (Ok response, w') /\
                _current_state (obj s w') = Some st').
Proof.
  rewrite wrapper_delegate. split; [|split; [|split]].
  - destruct (has_sub_agent s w) eqn:H.
    + rewrite delegate_run by done.
      destruct (tame_sub_chat s user_request (_current_state (obj s w)) w) as [Hcalm _].
      destruct (sub_chat E s user_request (_current_state (obj s w)) w)
        as [[r|[cls msg|]] w1]; simpl in *; eauto. by destruct Hcalm.
    + rewrite delegate_unavailable by done. eauto.
  - intros H. rewrite delegate_unavailable by done. eexists. split; [done|].
    by exists (" " +:+ agent_label s +:+ " is not available. Please try again later.").
  - intros e w1 H Hchat. rewrite delegate_run, Hchat by done.
    destruct (tame_sub_chat s user_request (_current_state (obj s w)) w) as [Hcalm _].
    rewrite Hchat in Hcalm. destruct e as [cls msg|]; [|by destruct Hcalm].
    eexists. split; [done|].
    by exists (" Error with " +:+ agent_label s +:+ ": " +:+ msg).
  - intros response st' w1 H Hchat. rewrite delegate_run, Hchat by done. simpl.
    eexists. split; [done|]. by rewrite obj_set_obj.
Qed.

Lemma lookup_master_tool s :
  exists bind,
    lookup_tool (sub_tool_name s) master_tools = Some bind /\
    forall args user_request,
      dict_lookup "user_request" args = Some (JStr user_request) ->
      (c ← lift (bind args); run_master_call E c) = (c ← lift (Ok (match s with
                                                  | Todo => TodoAgent user_request
                                                  | Gmail => GmailAgent user_request
                                                  end)); run_master_call E c).
Proof.
  destruct s; eexists; (split; [reflexivity|]); intros args user_request H;
    cbv [arg_str mbind outcome_bind mret outcome_ret]; by rewrite H.
Qed.

(** The tools node of the Master when exactly one call, of a sub-agent tool,
    is pending and the sub-agent answers. *)
Lemma master_tool_node_single s st text tc user_request w response sub_state w2 :
  last (g_messages st) = Some (AIMessage text [tc]) ->
  tc_name tc = sub_tool_name s ->
  dict_lookup "user_request" (tc_args tc) = Some (JStr user_request) ->
  has_sub_agent s w = true ->
  sub_chat E s user_request (_current_state (obj s w)) w = (Ok (response, sub_state), w2) ->
  wf_tools (agent_graph E Master) st w =
    (Ok (Update [ToolMessage response (tc_name tc) (tc_id tc)] []),
     set_obj s (set_current_state (Some sub_state) (obj s w2)) w2).
Proof.
  intros Hlast Hname Hreq Hsub Hchat. simpl. unfold tool_node. rewrite Hlast.
  destruct (lookup_master_tool s) as (bind & Hbind & Hrun).
  cbv [run_calls run_one]. rewrite Hname, Hbind.
  rewrite (Hrun _ _ Hreq).
  cbv [mbind M_bind mret M_ret try_except lift].
  assert (run_master_call E (match s with
                             | Todo => TodoAgent user_request
                             | Gmail => GmailAgent user_request
                             end) = delegate E s user_request) as -> by (by destruct s).
  by rewrite delegate_run, Hchat.
Qed.

(** C2.  When the Master's backend answers the user's message with exactly
    one tool call, of the tool that stands for sub-agent [s], and that
    sub-agent's [chat] returns the answer [response], then [MasterAgent.chat]
    returns that same string [response]. *)
Theorem master_relays_the_sub_agent_answer
    s message state w st msgs w0 text tc user_request response sub_state w2 :
  let input := system_message E Master (GState msgs (fields st)) :: msgs in
  let w1 := log (EvModel Master input) w0 in
  graph_ready Master w = true ->
  enter_chat (initial_fields Master) message state w = (Ok (st, msgs), w0) ->
  llm_ainvoke E Master (trace w0) input = Success (text, [tc]) ->
  tc_name tc = sub_tool_name s ->
  dict_lookup "user_request" (tc_args tc) = Some (JStr user_request) ->
  has_sub_agent s w1 = true ->
  sub_chat E s user_request (_current_state (obj s w1)) w1 = (Ok (response, sub_state), w2) ->
  2 <= recursion_limit E ->
  exists st' w', chat E Master message state w = (Ok (response, st'), w').
Proof.
  intros input w1 Hready Henter Hllm Hname Hreq Hsub Hchat Hlimit.
  rewrite chat_unfold, chat_body_split, Henter by done.
  rewrite bind_run. unfold ainvoke.
  destruct (recursion_limit E) as [|[|fuel]]; [lia..|].
  rewrite (run_graph_agent Master (S fuel) _ w0 text [tc]) by done.
  erewrite master_tools_end; cycle 1.
  { eapply master_tool_node_single; try done.
    unfold after_reply, apply_update. simpl. apply last_snoc. }
  rewrite (leave_chat_run _ _ (ToolMessage response (tc_name tc) (tc_id tc))).
  - simpl. eauto.
  - unfold after_reply, apply_update. simpl. apply last_snoc.
Qed.


(** ** The caller's state *)

Lemma tame_leave_chat result : tame (leave_chat result).
Proof. unfold leave_chat. tame_tac. apply tame_alloc. Qed.

(** C9.  [chat(message, state)] with a state changes the caller's object in
    place: the list bound to ["messages"] of the dictionary passed in holds
    the new user message at its end when the graph starts, and after the call,
    however it ends, that list still begins with the old contents followed by
    the user message; it is not what it was before the call. *)
Theorem chat_appends_to_the_callers_list a message st w l :
  graph_ready a w = true ->
  heap w !! messages st = Some l ->
  (exists w0,
     enter_chat (initial_fields a) message (Some st) w
       = (Ok (st, l ++ [HumanMessage message]), w0) /\
     heap w0 !! messages st = Some (l ++ [HumanMessage message])) /\
  exists l',
    heap (chat E a message (Some st) w).2 !! messages st = Some l' /\
    (l ++ [HumanMessage message]) `prefix_of` l' /\
    l' <> l.
Proof.
  intros Hready Hl. split.
  - eexists. split; [by apply enter_chat_some|]. simpl. by rewrite lookup_insert_eq.
  - rewrite chat_unfold, chat_body_split by done.
    rewrite (enter_chat_some _ _ _ l) by done.
    set (w0 := set_heap _ w).
    assert (tame (result ← ainvoke E (agent_graph E a)
                             (GState (l ++ [HumanMessage message]) (fields st));
                  leave_chat result)) as Ht.
    { apply tame_bind; [apply tame_run_agent_graph | intros; apply tame_leave_chat]. }
    destruct (Ht w0) as [_ [_ Hheap]].
    destruct (Hheap (messages st) (l ++ [HumanMessage message])) as (l' & Hl' & Hprefix).
    { subst w0. simpl. by rewrite lookup_insert_eq. }
    exists l'. split; [done|]. split; [done|].
    intros ->. apply prefix_length in Hprefix. rewrite length_app in Hprefix.
    simpl in Hprefix. lia.
Qed.

(** ** The interactive loop *)

Lemma is_exit_spec user_input :
  is_exit E user_input = true <-> In (py_lower E user_input) exit_tokens.
Proof.
  unfold is_exit. rewrite existsb_exists. split.
  - intros (t & Hin & Heq). apply String.eqb_eq in Heq. by subst.
  - intros Hin. exists (py_lower E user_input). split; [done | apply String.eqb_refl].
Qed.

(** A loop that ends has read the input on which it ended. *)
Lemma run_interactive_consumes a inputs state w unread :
  (run_interactive E a inputs state w).1 = Ok (Terminated unread) ->
  length unread < length inputs.
Proof.
  revert state w. induction inputs as [|[raw| |cls msg] rest IH]; intros state w; simpl.
  - done.
  - destruct (is_exit E (py_strip raw)); [intros [= <-]; lia|].
    destruct (String.eqb (py_strip raw) EmptyString); [intros H; apply IH in H; lia|].
    destruct (chat E a (py_strip raw) state w) as [[[response state']|[cls msg|]] w'].
    + intros H. apply IH in H. lia.
    + intros H. apply IH in H. lia.
    + intros [= <-]. lia.
  - intros [= <-]. lia.
  - intros H. apply IH in H. lia.
Qed.

(** C8.  In each of the three interactive loops a line of input ends the
    loop exactly when, after stripping surrounding whitespace and lowercasing,
    it is one of [quit], [exit], [bye], [q]: the loop stops at that line,
    leaving the rest of the input unread, for such a line and for no other. *)
Theorem exit_tokens_end_the_loop a raw rest state w :
  (run_interactive E a (Line raw :: rest) state w).1 = Ok (Terminated rest)
  <-> In (py_lower E (py_strip raw)) exit_tokens.
Proof.
  rewrite <- is_exit_spec. simpl. destruct (is_exit E (py_strip raw)); [done|].
  split; [|done]. intros H. exfalso.
  destruct (String.eqb (py_strip raw) EmptyString).
  - apply run_interactive_consumes in H. lia.
  - destruct (tame_chat a (py_strip raw) state w) as [Hcalm _].
    destruct (chat E a (py_strip raw) state w) as [[[response state']|[cls msg|]] w'].
    + apply run_interactive_consumes in H. lia.
    + apply run_interactive_consumes in H. lia.
    + by destruct Hcalm.
Qed.


(** ** What a round keeps and what it changes *)

(** A relation between the state a run starts from and the state it returns
    holds as soon as every node keeps it. *)
Lemma run_graph_inv (I : gstate -> gstate -> Prop) wf :
  (forall st, I st st) ->
  (forall st1 st2 st3, I st1 st2 -> I st2 st3 -> I st1 st3) ->
  (forall st w u w', wf_agent wf st w = (Ok u, w') -> I st (apply_update st u)) ->
  (forall st w u w', wf_tools wf st w = (Ok u, w') -> I st (apply_update st u)) ->
  forall fuel n st w st' w', run_graph wf fuel n st w = (Ok st', w') -> I st st'.
Proof.
  intros Hrefl Htrans Hagent Htools fuel.
  induction fuel as [|fuel IH]; intros [| |] st w st' w' Hrun; simpl in Hrun;
    try discriminate; try (injection Hrun as <- _; apply Hrefl).
  - apply bind_ok_inv in Hrun as (u & w1 & Hu & Hrun).
    apply bind_ok_inv in Hrun as (next & w2 & _ & Hrun).
    eapply Htrans; [by eapply Hagent | by eapply IH].
  - apply bind_ok_inv in Hrun as (u & w1 & Hu & Hrun).
    eapply Htrans; [by eapply Htools | by eapply IH].
Qed.

Lemma tool_node_fields {C} tools (run : C -> M string) st w u w' :
  tool_node E tools run st w = (Ok u, w') -> u_fields u = [].
Proof.
  unfold tool_node. destruct (last (g_messages st)) as [[?|?|text calls|? ? ?]|]; try done.
  intros H. apply bind_ok_inv in H as (ms & w1 & _ & H). by injection H as <- _.
Qed.

Lemma wf_tools_fields a st w u w' :
  wf_tools (agent_graph E a) st w = (Ok u, w') -> u_fields u = [].
Proof. destruct a as [|[|]]; apply tool_node_fields. Qed.

Lemma wf_agent_update a st w u w' :
  wf_agent (agent_graph E a) st w = (Ok u, w') ->
  exists text calls,
    llm_ainvoke E a (trace w) (system_message E a st :: g_messages st) = Success (text, calls) /\
    u = Update [AIMessage text calls] (agent_update a st calls).
Proof.
  rewrite agent_node_run.
  destruct (llm_ainvoke E a (trace w) _) as [[text calls]|cls msg]; [|done].
  intros [= <- _]. eauto.
Qed.

(** The history only grows during a run, and by messages of the backend and
    of the tools only. *)
Lemma run_calls_tools {C} tools (run : C -> M string) calls w ms w' :
  run_calls E tools run calls w = (Ok ms, w') -> requests_in ms = [].
Proof.
  revert w ms w'. induction calls as [|tc calls IH]; intros w ms w' H; simpl in H.
  - by injection H as <- _.
  - apply bind_ok_inv in H as (m & w1 & Hm & H).
    apply bind_ok_inv in H as (ms' & w2 & Hms & H). injection H as <- _.
    apply IH in Hms. unfold requests_in in *.
    unfold run_one in Hm. destruct (lookup_tool _ _).
    + apply bind_ok_inv in Hm as (text & w3 & _ & Hm). by injection Hm as <- _.
    + by injection Hm as <- _.
Qed.

Lemma tool_node_tools {C} tools (run : C -> M string) st w u w' :
  tool_node E tools run st w = (Ok u, w') -> requests_in (u_messages u) = [].
Proof.
  unfold tool_node. destruct (last (g_messages st)) as [[?|?|text calls|? ? ?]|]; try done.
  intros H. apply bind_ok_inv in H as (ms & w1 & Hms & H). injection H as <- _.
  by apply run_calls_tools in Hms.
Qed.

Lemma run_graph_history a fuel n st w st' w' :
  run_graph (agent_graph E a) fuel n st w = (Ok st', w') ->
  exists round, g_messages st' = g_messages st ++ round /\ requests_in round = [].
Proof.
  apply (run_graph_inv (fun st st' =>
           exists round, g_messages st' = g_messages st ++ round /\ requests_in round = [])).
  - intros st0. exists []. by rewrite app_nil_r.
  - intros st1 st2 st3 (r1 & -> & H1) (r2 & -> & H2). exists (r1 ++ r2).
    rewrite app_assoc. split; [done|]. unfold requests_in in *. by rewrite omap_app, H1, H2.
  - intros st0 w0 u w1 Hu. apply wf_agent_update in Hu as (text & calls & _ & ->).
    by eexists.
  - intros st0 w0 u w1 Hu. exists (u_messages u). split; [done|].
    destruct a as [|[|]]; by apply tool_node_tools in Hu.
Qed.

(** A sub-agent's run leaves the context fields alone. *)
Lemma run_graph_sub_fields s fuel n st w st' w' :
  run_graph (agent_graph E (Sub s)) fuel n st w = (Ok st', w') -> g_fields st' = g_fields st.
Proof.
  apply (run_graph_inv (fun st st' => g_fields st' = g_fields st)).
  - done.
  - intros st1 st2 st3 H1 H2. congruence.
  - intros st0 w0 u w1 Hu. apply wf_agent_update in Hu as (text & calls & _ & ->). done.
  - intros st0 w0 u w1 Hu. apply wf_tools_fields in Hu. simpl. by rewrite Hu.
Qed.

(** What [chat] comes down to when it returns. *)
Lemma chat_ok_inv a message state w response st' w' :
  chat E a message state w = (Ok (response, st'), w') ->
  exists st w0 result w1,
    enter_chat (initial_fields a) message state w
      = (Ok (st, history w state ++ [HumanMessage message]), w0) /\
    fields st = fields_in a state /\
    ainvoke E (agent_graph E a) (GState (history w state ++ [HumanMessage message]) (fields st)) w0
      = (Ok result, w1) /\
    leave_chat result w1 = (Ok (response, st'), w').
Proof.
  intros H.
  assert (graph_ready a w = true) as Hready.
  { destruct (graph_ready a w) eqn:Hr; [done|]. exfalso.
    destruct a as [|s]; simpl in *.
    - unfold master_chat in H. rewrite bind_run in H. simpl in H. by rewrite Hr in H.
    - unfold sub_chat in H. rewrite bind_run in H. simpl in H. by rewrite Hr in H. }
  rewrite chat_unfold, chat_body_split in H by done.
  assert (exists st w0,
            enter_chat (initial_fields a) message state w
              = (Ok (st, history w state ++ [HumanMessage message]), w0) /\
            fields st = fields_in a state) as (st & w0 & Henter & Hfields).
  { destruct state as [st|]; simpl.
    - destruct (heap w !! messages st) as [l|] eqn:Hl.
      + rewrite (enter_chat_some _ _ _ l) by done. eauto.
      + rewrite enter_chat_dangling in H by done. done.
    - rewrite enter_chat_none. eauto. }
  rewrite Henter in H. apply bind_ok_inv in H as (result & w1 & Hrun & Hleave).
  by exists st, w0, result, w1.
Qed.

Lemma leave_chat_inv result w response st' w' :
  leave_chat result w = (Ok (response, st'), w') ->
  heap w' !! messages st' = Some (g_messages result) /\
  fields st' = g_fields result /\
  exists m, last (g_messages result) = Some m /\ content m = response.
Proof.
  unfold leave_chat, alloc, py_last. rewrite bind_run. simpl.
  destruct (last (g_messages result)) as [m|] eqn:Hlast; simpl; [|done].
  intros [= <- <- <-]. simpl. rewrite lookup_insert_eq. eauto.
Qed.

Lemma chat_ok_history a message state w response st' w' :
  chat E a message state w = (Ok (response, st'), w') ->
  exists round m,
    heap w' !! messages st' = Some (history w state ++ HumanMessage message :: round) /\
    requests_in round = [] /\
    last round = Some m /\
    content m = response.
Proof.
  intros H. apply chat_ok_inv in H as (st & w0 & result & w1 & _ & _ & Hrun & Hleave).
  apply leave_chat_inv in Hleave as (Hheap & _ & m & Hlast & Hm).
  unfold ainvoke in Hrun. destruct (recursion_limit E) as [|fuel]; [done|].
  change (run_graph ?wf (S fuel) agent_node ?st0 w0)
    with ((u ← wf_agent wf st0;
           next ← lift (wf_conditional wf (apply_update st0 u));
           run_graph wf fuel next (apply_update st0 u)) w0) in Hrun.
  apply bind_ok_inv in Hrun as (u & w2 & Hu & Hrun).
  apply bind_ok_inv in Hrun as (next & w3 & _ & Hrun).
  apply wf_agent_update in Hu as (text & calls & _ & ->).
  apply run_graph_history in Hrun as (more & Hmore & Hnone). simpl in Hmore.
  exists (AIMessage text calls :: more), m.
  rewrite Hheap, Hmore, <- !app_assoc. split; [done|]. split; [done|]. split; [|done].
  rewrite Hmore, <- !app_assoc in Hlast. simpl in Hlast.
  rewrite last_app in Hlast. simpl in Hlast.
  rewrite last_cons in Hlast |- *. by destruct (last more).
Qed.

(** X1.  When [chat] returns, the history of the state it returns is the
    history passed in, then the user's message, then the messages of the
    round, of which there is at least one and none is a user message; the
    answer is the content of the last of them.  Nothing of the earlier history
    is dropped or reordered. *)
Theorem chat_extends_the_history a message state w response st' w' :
  chat E a message state w = (Ok (response, st'), w') ->
  exists round m,
    heap w' !! messages st' = Some (history w state ++ HumanMessage message :: round) /\
    requests_in round = [] /\
    last round = Some m /\
    content m = response.
Proof. apply chat_ok_history. Qed.


(** The first thing a run does is to ask the backend, with the system
    message put before the history. *)
Lemma first_event a fuel st w :
  (trace w ++ [EvModel a (system_message E a st :: g_messages st)])
    `prefix_of` trace (run_graph (agent_graph E a) (S fuel) agent_node st w).2.
Proof.
  change (run_graph ?wf (S fuel) agent_node st w)
    with ((u ← wf_agent wf st;
           next ← lift (wf_conditional wf (apply_update st u));
           run_graph wf fuel next (apply_update st u)) w).
  rewrite bind_run, agent_node_run.
  destruct (llm_ainvoke E a (trace w) _) as [[text calls]|cls msg]; [|done].
  assert (tame (next ← lift (wf_conditional (agent_graph E a)
                               (after_reply a st text calls));
                run_graph (agent_graph E a) fuel next (after_reply a st text calls))) as Ht.
  { apply tame_bind; [apply tame_lift, tame_agent_graph | intros; apply tame_run_agent_graph]. }
  apply (Ht (log (EvModel a (system_message E a st :: g_messages st)) w)).
Qed.

(** X2.  A conversation is replayed in full.  When a first [chat] has
    returned a state and that state is passed to a second [chat], the first
    thing the second call does is to ask the backend with the system message
    followed by the whole history of the returned state (which begins with the
    earlier history and the first user message) and the new user message. *)
Theorem next_chat_replays_the_history a m1 state w r1 st1 w1 m2 :
  chat E a m1 state w = (Ok (r1, st1), w1) ->
  graph_ready a w1 = true ->
  exists h1,
    heap w1 !! messages st1 = Some h1 /\
    (history w state ++ [HumanMessage m1]) `prefix_of` h1 /\
    (trace w1 ++ [EvModel a (system_message E a (GState (h1 ++ [HumanMessage m2]) (fields st1))
                             :: h1 ++ [HumanMessage m2])])
      `prefix_of` trace (chat E a m2 (Some st1) w1).2.
Proof.
  intros H1 Hready.
  assert (0 < recursion_limit E) as Hlimit.
  { apply chat_ok_inv in H1 as (st & w0 & result & w2 & _ & _ & Hrun & _).
    unfold ainvoke in Hrun. destruct (recursion_limit E); [done | lia]. }
  apply chat_ok_history in H1 as (round & m & Hh1 & _).
  eexists. split; [exact Hh1|]. split.
  { exists (round). by rewrite <- app_assoc. }
  rewrite chat_unfold, chat_body_split by done.
  rewrite (enter_chat_some _ _ _ _ _ Hh1). rewrite bind_run. unfold ainvoke.
  destruct (recursion_limit E) as [|fuel]; [lia|].
  set (st := GState _ (fields st1)). set (w0 := set_heap _ w1).
  pose proof (first_event a fuel st w0) as Hfirst.
  destruct (run_graph (agent_graph E a) (S fuel) agent_node st w0) as [[result|e] w2];
    [|exact Hfirst].
  etrans; [exact Hfirst|]. apply (tame_leave_chat result w2).
Qed.

Lemma gmail_bare_prompt msgs :
  gmail_system_message E (GState msgs (sub_initial_fields Gmail))
    = SystemMessage (system_prompt E (Sub Gmail)).
Proof. reflexivity. Qed.

(** X3.  A sub-agent's [chat] returns the context fields exactly as it
    received them (or as it created them): neither agent ever fills in
    [current_message_id], [search_context], [last_operation] or the list
    fields.  For a conversation started without a state the Gmail system
    message is therefore the bare prompt. *)
Theorem sub_agent_chat_keeps_the_fields s message state w response st' w' :
  chat E (Sub s) message state w = (Ok (response, st'), w') ->
  fields st' = fields_in (Sub s) state /\
  (state = None ->
   forall msgs,
     system_message E (Sub s) (GState msgs (fields st')) = SystemMessage (system_prompt E (Sub s))).
Proof.
  intros H. apply chat_ok_inv in H as (st & w0 & result & w1 & _ & Hfields & Hrun & Hleave).
  apply leave_chat_inv in Hleave as (_ & Hst' & _).
  apply run_graph_sub_fields in Hrun. simpl in Hrun.
  assert (fields st' = fields_in (Sub s) state) as Heq by congruence.
  split; [done|]. intros -> msgs. rewrite Heq. by destruct s.
Qed.

(** ** The Master's context hint *)

Lemma updated_context_other current calls :
  Forall (fun tc => tc_name tc <> "todo_agent" /\ tc_name tc <> "gmail_agent") calls ->
  updated_context current calls = current.
Proof.
  intros H. revert current. unfold updated_context.
  induction H as [|tc calls [H1 H2] _ IH]; intros current; simpl; [done|].
  apply String.eqb_neq in H1, H2. rewrite H1, H2. apply IH.
Qed.

Lemma updated_context_last current calls tc s :
  tc_name tc = sub_tool_name s ->
  updated_context current (calls ++ [tc]) = JStr (agent_label s).
Proof.
  intros H. unfold updated_context. rewrite foldl_app. simpl. rewrite H. by destruct s.
Qed.

Lemma master_round_fields fuel st w st' w' text calls :
  llm_ainvoke E Master (trace w) (system_message E Master st :: g_messages st)
    = Success (text, calls) ->
  run_graph (agent_graph E Master) fuel agent_node st w = (Ok st', w') ->
  g_fields st' = dict_set "current_context"
                   (updated_context (state_get st "current_context") calls) (g_fields st).
Proof.
  intros Hllm Hrun. destruct fuel as [|fuel]; [done|].
  rewrite (run_graph_agent Master fuel st w text calls Hllm) in Hrun.
  destruct calls as [|tc calls].
  - destruct fuel; simpl in Hrun; by injection Hrun as <- _.
  - destruct fuel as [|fuel]; [done|].
    change (run_graph ?wf (S fuel) tools_node ?st0 ?w0)
      with ((u ← wf_tools wf st0; run_graph wf fuel (wf_tools_edge wf) (apply_update st0 u)) w0)
      in Hrun.
    apply bind_ok_inv in Hrun as (u & w1 & Hu & Hrun).
    apply wf_tools_fields in Hu.
    assert (st' = apply_update (after_reply Master st text (tc :: calls)) u) as ->.
    { destruct fuel; simpl in Hrun; by injection Hrun as <- _. }
    simpl. by rewrite Hu.
Qed.

Lemma dict_lookup_set k v d : dict_lookup k (dict_set k v d) = Some v.
Proof.
  induction d as [|[k' v'] d IH]; simpl; [by rewrite String.eqb_refl|].
  destruct (String.eqb k k') eqn:Hk; simpl; by rewrite Hk.
Qed.

Lemma dict_lookup_set_ne k k' v d :
  k <> k' -> dict_lookup k' (dict_set k v d) = dict_lookup k' d.
Proof.
  intros Hne. assert (String.eqb k' k = false) as Hk' by (apply String.eqb_neq; congruence).
  induction d as [|[k0 v0] d IH]; simpl; [by rewrite Hk'|].
  destruct (String.eqb k k0) eqn:Hk; simpl.
  - apply String.eqb_eq in Hk as <-. by rewrite Hk'.
  - by rewrite IH.
Qed.

(** X4.  The Master's [current_context] follows the delegations.  After a
    round the field holds the label of the sub-agent named by the last
    sub-agent tool call of the backend's reply, and what it held before when
    the reply names none; every other field of the state is as it was.  When
    the reply ends with a sub-agent tool call and there is no conversation
    summary, the system message of the next round is the prompt followed by
    the hint on a line of its own. *)
Theorem master_context_follows_the_delegation
    message state w st msgs w0 text calls response st' w' :
  enter_chat (initial_fields Master) message state w = (Ok (st, msgs), w0) ->
  llm_ainvoke E Master (trace w0) (system_message E Master (GState msgs (fields st)) :: msgs)
    = Success (text, calls) ->
  chat E Master message state w = (Ok (response, st'), w') ->
  let before := state_get (GState msgs (fields st)) "current_context" in
  fields st' = dict_set "current_context" (updated_context before calls) (fields st) /\
  (forall k, k <> "current_context" -> dict_lookup k (fields st') = dict_lookup k (fields st)) /\
  (Forall (fun tc => tc_name tc <> "todo_agent" /\ tc_name tc <> "gmail_agent") calls ->
   updated_context before calls = before) /\
  (forall s earlier tc,
     calls = earlier ++ [tc] -> tc_name tc = sub_tool_name s ->
     updated_context before calls = JStr (agent_label s) /\
     (py_truthy (state_get (GState msgs (fields st)) "conversation_summary") = false ->
      forall later,
        system_message E Master (GState later (fields st'))
          = SystemMessage (system_prompt E Master +:+ LF +:+ "Current context: Working with "
                           +:+ agent_label s))).
Proof.
  intros Henter Hllm Hchat before.
  assert (fields st' = dict_set "current_context" (updated_context before calls) (fields st))
    as Hfields.
  { apply chat_ok_inv in Hchat as (st0 & w1 & result & w2 & Henter' & _ & Hrun & Hleave).
    rewrite Henter in Henter'. injection Henter' as <- Hmsgs <-. rewrite <- Hmsgs in Hrun.
    apply leave_chat_inv in Hleave as (_ & -> & _).
    by apply (master_round_fields _ _ _ _ _ text calls) in Hrun. }
  split; [done|]. split; [|split].
  - intros k Hk. rewrite Hfields. apply dict_lookup_set_ne. congruence.
  - apply updated_context_other.
  - intros s earlier tc -> Hname.
    assert (updated_context before (earlier ++ [tc]) = JStr (agent_label s)) as Hlast
      by by apply updated_context_last.
    split; [done|]. intros Hsummary later.
    unfold state_get in Hsummary. simpl in Hsummary.
    simpl. unfold master_system_message, state_get. simpl.
    rewrite Hfields, Hlast, dict_lookup_set, dict_lookup_set_ne by done.
    rewrite Hsummary. by destruct s.
Qed.


(** ** Batches *)

Lemma batch_loop_ok requests : forall state responses w result w',
  batch_loop E requests state responses w = (Ok result, w') ->
  exists answers final,
    result = responses ++ answers /\
    length answers = length requests /\
    requests_in (history w' final) = requests_in (history w state) ++ requests.
Proof.
  induction requests as [|request rest IH]; intros state responses w result w' H; simpl in H.
  - injection H as <- <-. exists [], state. by rewrite !app_nil_r.
  - apply bind_ok_inv in H as ([response st1] & w1 & Hchat & H).
    apply IH in H as (answers & final & -> & Hlen & Hreq). simpl in *.
    apply (chat_ok_history Master) in Hchat as (round & m & Hheap & Hnone & _).
    exists (response :: answers), final. rewrite <- app_assoc. split; [done|].
    split; [simpl; by rewrite Hlen|].
    rewrite Hreq, Hheap. unfold requests_in in *.
    rewrite omap_app.
    change (omap user_text (HumanMessage request :: round))
      with (request :: omap user_text round).
    rewrite Hnone. by rewrite <- app_assoc.
Qed.

(** X5.  A batch is one conversation.  When [handle_batch_requests]
    returns, there is one response per request, and the requests are, in
    order, the user messages of a single history: each request was answered
    with all the earlier ones, and their rounds, before it.  An empty batch
    returns the empty list without touching anything, even on a Master that
    was never started; any other batch needs the Master's graph. *)
Theorem batch_is_one_conversation requests w responses w' :
  handle_batch_requests E requests w = (Ok responses, w') ->
  length responses = length requests /\
  (exists final, requests_in (history w' final) = requests) /\
  (requests = [] -> w' = w) /\
  (requests <> [] -> master_graph (master w) = true).
Proof.
  unfold handle_batch_requests. intros H. split; [|split; [|split]].
  - apply batch_loop_ok in H as (answers & final & -> & Hlen & _). exact Hlen.
  - apply batch_loop_ok in H as (answers & final & _ & _ & Hreq). by exists final.
  - intros ->. by injection H as _ <-.
  - intros Hne. destruct requests as [|request rest]; [done|].
    simpl in H.
    apply bind_ok_inv in H as (r & w1 & Hchat & _).
    unfold master_chat in Hchat. rewrite bind_run in Hchat. simpl in Hchat.
    by destruct (master_graph (master w)).
Qed.


(** ** Start and end of the agents *)

Lemma sub_aenter_run s w :
  sub_aenter E s w =
    if connected (obj s w) then (Ok tt, set_obj s (set_graph true (obj s w)) w)
    else match mcp_enter E s (trace w) with
         | Success _ =>
             (Ok tt, set_obj s (set_graph true (obj s (after_connect s w))) (after_connect s w))
         | Failure _ msg => (Raise (RuntimeError (init_failure s +:+ msg)), after_attempt s w)
         end.
Proof.
  unfold sub_aenter. rewrite bind_run.
  destruct (connected (obj s w)) eqn:Hc.
  - by rewrite connect_mcp_connected.
  - rewrite connect_mcp_disconnected by done.
    by destruct (mcp_enter E s (trace w)) as [[]|cls msg].
Qed.

Lemma sub_chat_without_graph s message state w :
  graph (obj s w) = false ->
  chat E (Sub s) message state w
    = (Raise (RuntimeError "Agent not properly initialized. Use async context manager."), w).
Proof. intros H. simpl. unfold sub_chat. rewrite bind_run. simpl. by rewrite H. Qed.

(** X6.  Starting a sub-agent that is not connected makes exactly one
    connection attempt.  If it succeeds the agent is connected and has its
    graph.  If it fails, [__aenter__] raises a [RuntimeError] whose text is the
    class's prefix followed by the text of the failure, the agent stays
    unconnected and, having no graph, refuses every [chat]. *)
Theorem sub_agent_start s w :
  connected (obj s w) = false ->
  exists w',
    trace w' = trace w ++ [EvConnect s] /\
    match mcp_enter E s (trace w) with
    | Success _ =>
        sub_aenter E s w = (Ok tt, w') /\
        connected (obj s w') = true /\ graph (obj s w') = true
    | Failure _ msg =>
        sub_aenter E s w = (Raise (RuntimeError (init_failure s +:+ msg)), w') /\
        connected (obj s w') = false /\
        (graph (obj s w) = false ->
         forall message state,
           chat E (Sub s) message state w'
             = (Raise (RuntimeError "Agent not properly initialized. Use async context manager."),
                w'))
    end.
Proof.
  intros Hc. rewrite sub_aenter_run, Hc.
  destruct (mcp_enter E s (trace w)) as [[]|cls msg]; eexists; (split; [|split; [done|]]).
  - by destruct s.
  - by destruct s.
  - by destruct s.
  - split; [by destruct s|]. intros Hg message state.
    apply sub_chat_without_graph. by destruct s.
Qed.

Lemma master_aenter_cases w :
  let attempt := trace w ++ [EvConnect Todo] in
  let r := master_aenter E w in
  heap r.2 = heap w /\
  match mcp_enter E Todo (trace w) with
  | Failure _ msg =>
      r.1 = Raise (RuntimeError ("Failed to initialize MCP server: " +:+ msg)) /\
      trace r.2 = attempt /\
      obj Gmail r.2 = obj Gmail w /\
      self_gmail_agent (master r.2) = self_gmail_agent (master w) /\
      master_graph (master r.2) = master_graph (master w)
  | Success _ =>
      match mcp_enter E Gmail attempt with
      | Failure _ msg =>
          r.1 = Raise (RuntimeError ("Failed to initialize Gmail MCP server: " +:+ msg)) /\
          trace r.2 = attempt ++ [EvConnect Gmail] /\
          connected (obj Todo r.2) = true /\
          master_graph (master r.2) = master_graph (master w)
      | Success _ =>
          r.1 = Ok tt /\
          trace r.2 = attempt ++ [EvConnect Gmail] /\
          (forall s, has_sub_agent s r.2 = true /\ connected (obj s r.2) = true /\
                     graph (obj s r.2) = true /\ _current_state (obj s r.2) = None) /\
          master_graph (master r.2) = true
      end
  end.
Proof.
  intros attempt r. subst attempt r.
  cbv [master_aenter initialize_sub_agents try_except mbind M_bind mret M_ret construct
       modify set_master sub_aenter connect_mcp get_world upd client_enter raise].
  simpl.
  destruct (mcp_enter E Todo (trace w)) as [[]|cls1 msg1]; simpl; [|done].
  destruct (mcp_enter E Gmail (trace w ++ [EvConnect Todo])) as [[]|cls2 msg2]; simpl; [|done].
  repeat split; by destruct s.
Qed.

(** X7.  The Master starts the To-Do agent first and the Gmail agent
    second, each on a new object.  If the To-Do server cannot be reached, the
    Gmail agent is neither created nor connected.  If the Gmail server cannot
    be reached, the To-Do agent stays connected: nothing is closed, and the
    Master is left without its graph.  If both are reached, both sub-agents
    are connected with their graphs and the Master has its graph. *)
Theorem master_start_outcomes w :
  let attempt := trace w ++ [EvConnect Todo] in
  let r := master_aenter E w in
  heap r.2 = heap w /\
  match mcp_enter E Todo (trace w) with
  | Failure _ msg =>
      r.1 = Raise (RuntimeError ("Failed to initialize MCP server: " +:+ msg)) /\
      trace r.2 = attempt /\
      obj Gmail r.2 = obj Gmail w /\
      self_gmail_agent (master r.2) = self_gmail_agent (master w) /\
      master_graph (master r.2) = master_graph (master w)
  | Success _ =>
      match mcp_enter E Gmail attempt with
      | Failure _ msg =>
          r.1 = Raise (RuntimeError ("Failed to initialize Gmail MCP server: " +:+ msg)) /\
          trace r.2 = attempt ++ [EvConnect Gmail] /\
          connected (obj Todo r.2) = true /\
          master_graph (master r.2) = master_graph (master w)
      | Success _ =>
          r.1 = Ok tt /\
          trace r.2 = attempt ++ [EvConnect Gmail] /\
          (forall s, has_sub_agent s r.2 = true /\ connected (obj s r.2) = true /\
                     graph (obj s r.2) = true /\ _current_state (obj s r.2) = None) /\
          master_graph (master r.2) = true
      end
  end.
Proof. apply master_aenter_cases. Qed.

Lemma disconnect_mcp_run (X : sub_agent -> list event -> fallible unit) s w :
  disconnect_mcp X s w =
    if connected (obj s w) && mcp_client (obj s w) then
      match X s (trace w) with
      | Success _ =>
          (Ok tt, set_obj s (set_connected false (obj s (log (EvDisconnect s) w)))
                    (log (EvDisconnect s) w))
      | Failure cls msg => (Raise (Exception cls msg), log (EvDisconnect s) w)
      end
    else (Ok tt, w).
Proof.
  unfold disconnect_mcp. rewrite bind_run. simpl.
  destruct (connected (obj s w) && mcp_client (obj s w)); [|done].
  rewrite bind_run. unfold client_exit.
  by destruct (X s (trace w)) as [[]|cls msg].
Qed.


Lemma cleanup_run (X : sub_agent -> list event -> fallible unit) w :
  cleanup_sub_agents X w =
    match (if self_todo_agent (master w) then disconnect_mcp X Todo w else (Ok tt, w)) with
    | (Ok _, w1) =>
        match (if self_gmail_agent (master w) then disconnect_mcp X Gmail w1 else (Ok tt, w1))
        with
        | (Raise KeyboardInterrupt, w2) => (Raise KeyboardInterrupt, w2)
        | (_, w2) => (Ok tt, w2)
        end
    | (Raise KeyboardInterrupt, w1) => (Raise KeyboardInterrupt, w1)
    | (_, w1) => (Ok tt, w1)
    end.
Proof.
  unfold cleanup_sub_agents, try_except, sub_aexit. rewrite !bind_run.
  change (get_world w) with (Ok w, w). cbv iota beta. rewrite bind_run.
  destruct (self_todo_agent (master w)).
  - destruct (disconnect_mcp X Todo w) as [[[]|[cls msg|]] w1]; try reflexivity.
    destruct (self_gmail_agent (master w)); [|reflexivity].
    by destruct (disconnect_mcp X Gmail w1) as [[[]|[cls msg|]] w2].
  - change ((mret tt : M unit) w) with (Ok tt, w). cbv iota beta.
    destruct (self_gmail_agent (master w)); [|reflexivity].
    by destruct (disconnect_mcp X Gmail w) as [[[]|[cls msg|]] w2].
Qed.

(** Closing an agent touches nothing but that agent and the trace, and fails
    with an [Exception] if at all. *)
Lemma disconnect_mcp_frame (X : sub_agent -> list event -> fallible unit) s w :
  exists o w',
    disconnect_mcp X s w = (o, w') /\
    o <> Raise KeyboardInterrupt /\
    heap w' = heap w /\ master w' = master w /\
    (forall s', s' <> s -> obj s' w' = obj s' w).
Proof.
  rewrite disconnect_mcp_run.
  destruct (connected (obj s w) && mcp_client (obj s w)).
  - destruct (X s (trace w)) as [[]|cls msg]; eexists _, _; (split; [reflexivity|]);
      (split; [done|]); (split; [by destruct s|]); (split; [by destruct s|]);
      intros s' Hs'; by destruct s, s'.
  - by eexists _, _.
Qed.


Lemma close_frame (X : sub_agent -> list event -> fallible unit) (held : bool) s w :
  exists o w',
    (if held then disconnect_mcp X s w else (Ok tt, w)) = (o, w') /\
    o <> Raise KeyboardInterrupt /\
    heap w' = heap w /\ master w' = master w /\
    (forall s', s' <> s -> obj s' w' = obj s' w).
Proof.
  destruct held; [apply disconnect_mcp_frame|]. by eexists _, _.
Qed.

Lemma cleanup_cases (X : sub_agent -> list event -> fallible unit) w :
  let r := cleanup_sub_agents X w in
  r.1 = Ok tt /\ heap r.2 = heap w /\ master r.2 = master w /\
  (has_sub_agent Todo w = true -> connected (obj Todo w) = true ->
   mcp_client (obj Todo w) = true ->
   match X Todo (trace w) with
   | Failure _ _ => r.2 = log (EvDisconnect Todo) w
   | Success _ =>
       connected (obj Todo r.2) = false /\
       (has_sub_agent Gmail w = true -> connected (obj Gmail w) = true ->
        mcp_client (obj Gmail w) = true ->
        trace r.2 = trace w ++ [EvDisconnect Todo; EvDisconnect Gmail] /\
        (connected (obj Gmail r.2) = false <->
         exists u, X Gmail (trace w ++ [EvDisconnect Todo]) = Success u))
   end).
Proof.
  intros r. subst r. rewrite cleanup_run.
  split; [|split; [|split]].
  - destruct (close_frame X (self_todo_agent (master w)) Todo w)
      as (o1 & w1 & -> & Ho1 & _).
    destruct o1 as [[]|[cls msg|]]; [|done..].
    destruct (close_frame X (self_gmail_agent (master w)) Gmail w1)
      as (o2 & w2 & -> & Ho2 & _).
    by destruct o2 as [[]|[cls msg|]].
  - destruct (close_frame X (self_todo_agent (master w)) Todo w)
      as (o1 & w1 & -> & Ho1 & Hh1 & _).
    destruct o1 as [[]|[cls msg|]]; [|done..].
    destruct (close_frame X (self_gmail_agent (master w)) Gmail w1)
      as (o2 & w2 & -> & Ho2 & Hh2 & _).
    destruct o2 as [[]|[cls msg|]]; simpl; congruence.
  - destruct (close_frame X (self_todo_agent (master w)) Todo w)
      as (o1 & w1 & -> & Ho1 & _ & Hm1 & _).
    destruct o1 as [[]|[cls msg|]]; [|done..].
    destruct (close_frame X (self_gmail_agent (master w)) Gmail w1)
      as (o2 & w2 & -> & Ho2 & _ & Hm2 & _).
    destruct o2 as [[]|[cls msg|]]; simpl; congruence.
  - intros Ht Hc Hm. change (has_sub_agent Todo w) with (self_todo_agent (master w)) in Ht.
    rewrite Ht, disconnect_mcp_run, Hc, Hm. cbn [andb].
    destruct (X Todo (trace w)) as [[]|cls msg]; [|reflexivity].
    set (w1 := set_obj Todo _ _).
    assert (connected (obj Todo w1) = false) as Hc1 by reflexivity.
    split.
    + destruct (close_frame X (self_gmail_agent (master w)) Gmail w1)
        as (o2 & w2 & -> & Ho2 & _ & _ & Hobj).
      assert (obj Todo w2 = obj Todo w1) as Heq by by apply Hobj.
      destruct o2 as [[]|[cls msg|]]; unfold snd; congruence.
    + intros Hg Hc' Hm'. change (has_sub_agent Gmail w) with (self_gmail_agent (master w)) in Hg.
      rewrite Hg, disconnect_mcp_run.
      change (obj Gmail w1) with (obj Gmail w).
      change (trace w1) with (trace w ++ [EvDisconnect Todo]).
      rewrite Hc', Hm'. cbn [andb].
      destruct (X Gmail (trace w ++ [EvDisconnect Todo])) as [[]|cls msg].
      * split; [cbn; by rewrite <- app_assoc|]. split; [by eexists | reflexivity].
      * split; [cbn; by rewrite <- app_assoc|]. cbn in Hc' |- *. split; [congruence | by intros [u Hu]].
Qed.

(** X8.  [cleanup_sub_agents] never raises, and changes neither the
    histories nor the Master.  It closes the To-Do agent before the Gmail
    agent; when closing the To-Do agent fails, the To-Do agent is still marked
    connected and the Gmail agent is not closed at all.  When both are closed,
    both are marked unconnected. *)
Theorem cleanup_stops_at_the_first_failure (X : sub_agent -> list event -> fallible unit) w :
  let r := cleanup_sub_agents X w in
  r.1 = Ok tt /\ heap r.2 = heap w /\ master r.2 = master w /\
  (has_sub_agent Todo w = true -> connected (obj Todo w) = true ->
   mcp_client (obj Todo w) = true ->
   match X Todo (trace w) with
   | Failure _ _ => r.2 = log (EvDisconnect Todo) w
   | Success _ =>
       connected (obj Todo r.2) = false /\
       (has_sub_agent Gmail w = true -> connected (obj Gmail w) = true ->
        mcp_client (obj Gmail w) = true ->
        trace r.2 = trace w ++ [EvDisconnect Todo; EvDisconnect Gmail] /\
        (connected (obj Gmail r.2) = false <->
         exists u, X Gmail (trace w ++ [EvDisconnect Todo]) = Success u))
   end).
Proof. apply cleanup_cases. Qed.

(** X9.  An agent that was closed can be used again.  After [__aexit__] has
    returned on a connected agent, the agent is marked unconnected and keeps
    its graph; closing it once more does nothing; and the next tool call
    makes one new connection attempt before the call itself, which follows
    only if the attempt succeeds. *)
Theorem closed_agent_reconnects (X : sub_agent -> list event -> fallible unit)
    s w w1 tool_name params :
  connected (obj s w) = true ->
  mcp_client (obj s w) = true ->
  sub_aexit X s w = (Ok tt, w1) ->
  connected (obj s w1) = false /\
  graph (obj s w1) = graph (obj s w) /\
  sub_aexit X s w1 = (Ok tt, w1) /\
  trace (call_mcp_tool E s tool_name params w1).2 =
    trace w ++ EvDisconnect s :: EvConnect s ::
    match mcp_enter E s (trace w ++ [EvDisconnect s]) with
    | Success _ => [EvCallTool s tool_name (params_or_empty params)]
    | Failure _ _ => []
    end.
Proof.
  intros Hc Hm H. unfold sub_aexit in *. rewrite disconnect_mcp_run, Hc, Hm in H. simpl in H.
  destruct (X s (trace w)) as [[]|cls msg]; [|done]. injection H as <-.
  assert (connected (obj s (set_obj s (set_connected false (obj s (log (EvDisconnect s) w)))
                              (log (EvDisconnect s) w))) = false) as Hc1 by by destruct s.
  split; [done|]. split; [by destruct s|]. split.
  - by rewrite disconnect_mcp_run, Hc1.
  - rewrite call_mcp_tool_trace, Hc1. rewrite trace_set_obj. simpl.
    rewrite <- app_assoc. simpl.
    by destruct (mcp_enter E s (trace w ++ [EvDisconnect s])) as [[]|cls msg].
Qed.


(** ** Adapters and the tools of the servers *)

Lemma still_ret {A} (x : A) : still (mret x).
Proof. done. Qed.

Lemma still_lift {A} (o : outcome A) : still (lift o).
Proof. done. Qed.

Lemma still_bind {A B} (m : M A) (f : A -> M B) :
  still m -> (forall x, still (f x)) -> still (m ≫= f).
Proof.
  intros Hm Hf w. rewrite bind_run. specialize (Hm w).
  destruct (m w) as [[x|e] w1]; simpl in *; subst w1; [apply Hf | done].
Qed.

Lemma bind_still {A B} (m : M A) (f : A -> M B) w :
  (forall x, still (f x)) -> ((m ≫= f) w).2 = (m w).2.
Proof.
  intros Hf. rewrite bind_run. destruct (m w) as [[x|e] w1]; [apply Hf | done].
Qed.

Ltac still_step :=
  match goal with
  | |- still (mret _) => apply still_ret
  | |- still (lift _) => apply still_lift
  | |- still (mbind _ _) => apply still_bind; [|intros]
  | |- still (if ?b then _ else _) => destruct b
  end.

Lemma still_on_error prefix result otherwise :
  still otherwise -> still (on_error E prefix result otherwise).
Proof. intros H. unfold on_error. repeat still_step; done. Qed.

Ltac still_tac := intros; repeat first [apply still_on_error | still_step].

Lemma gmail_adapter_trace c w :
  trace (run_gmail_call E c w).2
    = trace (call_mcp_tool E Gmail (gmail_request c).1 (gmail_request c).2 w).2.
Proof.
  destruct c; simpl;
    unfold list_messages, get_message, search_messages, send_message, reply_to_message,
      mark_message_as_read, mark_message_as_unread, add_label_to_message,
      remove_label_from_message, list_labels;
    (rewrite bind_still; [done | still_tac]).
Qed.

Lemma todo_adapter_trace c w :
  trace (run_todo_call E c w).2
    = trace (call_mcp_tool E Todo (todo_request c).1 (todo_request c).2 w).2.
Proof.
  destruct c; simpl;
    unfold list_task_lists, create_task_list, delete_task_list, list_tasks, create_task,
      update_task, complete_task, uncomplete_task, delete_task;
    (rewrite bind_still; [done | still_tac]).
Qed.

Ltac bound_call H :=
  cbv [mbind outcome_bind mret outcome_ret] in H;
  repeat match type of H with
         | context [match ?x with _ => _ end] => destruct x; try discriminate H
         end;
  injection H as <-; reflexivity.

Lemma gmail_tool_names name bind args c :
  lookup_tool name gmail_tools = Some bind -> bind args = Ok c -> (gmail_request c).1 = name.
Proof.
  unfold gmail_tools. simpl. intros Hbind Hc.
  repeat (destruct (String.eqb name _) eqn:Hn in Hbind;
          [apply String.eqb_eq in Hn; subst name; injection Hbind as <-; bound_call Hc
          |clear Hn]).
  discriminate.
Qed.

Lemma todo_tool_names name bind args c :
  lookup_tool name todo_tools = Some bind -> bind args = Ok c -> (todo_request c).1 = name.
Proof.
  unfold todo_tools. simpl. intros Hbind Hc.
  repeat (destruct (String.eqb name _) eqn:Hn in Hbind;
          [apply String.eqb_eq in Hn; subst name; injection Hbind as <-; bound_call Hc
          |clear Hn]).
  discriminate.
Qed.


(** X10.  Every adapter calls the server tool that bears its own name.  A
    tool registered under [name], once its arguments are accepted, makes on a
    connected agent exactly one exchange with the server, a call of the
    server's tool [name]; it asks no backend and opens no connection. *)
Theorem adapters_call_their_namesake s w name args :
  connected (obj s w) = true ->
  mcp_client (obj s w) = true ->
  match s with
  | Gmail =>
      forall bind c,
        lookup_tool name gmail_tools = Some bind -> bind args = Ok c ->
        exists params,
          trace (run_gmail_call E c w).2 = trace w ++ [EvCallTool Gmail name params]
  | Todo =>
      forall bind c,
        lookup_tool name todo_tools = Some bind -> bind args = Ok c ->
        exists params,
          trace (run_todo_call E c w).2 = trace w ++ [EvCallTool Todo name params]
  end.
Proof.
  intros Hc Hm. destruct s; intros bind c Hbind Hcall.
  - rewrite gmail_adapter_trace, call_mcp_tool_trace, Hc, Hm.
    rewrite (gmail_tool_names _ _ _ _ Hbind Hcall). by eexists.
  - rewrite todo_adapter_trace, call_mcp_tool_trace, Hc, Hm.
    rewrite (todo_tool_names _ _ _ _ Hbind Hcall). by eexists.
Qed.

Lemma lookup_set_if_given k v params k' :
  k <> k' -> dict_lookup k' (set_if_given k v params) = dict_lookup k' params.
Proof. intros Hk. destruct v; [by apply dict_lookup_set_ne | done]. Qed.

Lemma lookup_set_if_given_eq k v params :
  dict_lookup k params = None ->
  dict_lookup k (set_if_given k v params) = JStr <$> v.
Proof. intros Hk. destruct v; [apply dict_lookup_set | done]. Qed.

Lemma lookup_set_if_nonempty k v params k' :
  k <> k' -> dict_lookup k' (set_if_nonempty k v params) = dict_lookup k' params.
Proof.
  intros Hk. unfold set_if_nonempty.
  destruct (String.eqb v EmptyString); [done | by apply dict_lookup_set_ne].
Qed.

Lemma lookup_set_if_nonempty_eq k v params :
  dict_lookup k params = None ->
  dict_lookup k (set_if_nonempty k v params)
    = if String.eqb v EmptyString then None else Some (JStr v).
Proof.
  intros Hk. unfold set_if_nonempty.
  destruct (String.eqb v EmptyString); [done | apply dict_lookup_set].
Qed.

(** X11.  What the optional arguments become on the wire.  [update_task]
    sends exactly the fields it was given, an empty string included, and
    leaves out those that are [None]; [send_message] leaves out [cc] and [bcc]
    when they are empty.  The required arguments are always sent as given. *)
Theorem optional_arguments_on_the_wire w :
  connected (obj Todo w) = true -> mcp_client (obj Todo w) = true ->
  connected (obj Gmail w) = true -> mcp_client (obj Gmail w) = true ->
  (forall list_id task_id title description due_date status,
     exists params,
       trace (update_task E list_id task_id title description due_date status w).2
         = trace w ++ [EvCallTool Todo "update_task" params] /\
       dict_lookup "list_id" params = Some (JStr list_id) /\
       dict_lookup "task_id" params = Some (JStr task_id) /\
       dict_lookup "title" params = JStr <$> title /\
       dict_lookup "description" params = JStr <$> description /\
       dict_lookup "due_date" params = JStr <$> due_date /\
       dict_lookup "status" params = JStr <$> status) /\
  (forall to subject body cc bcc,
     exists params,
       trace (send_message E to subject body cc bcc w).2
         = trace w ++ [EvCallTool Gmail "send_message" params] /\
       dict_lookup "to" params = Some (JStr to) /\
       dict_lookup "subject" params = Some (JStr subject) /\
       dict_lookup "body" params = Some (JStr body) /\
       dict_lookup "cc" params = (if String.eqb cc EmptyString then None else Some (JStr cc)) /\
       dict_lookup "bcc" params
         = (if String.eqb bcc EmptyString then None else Some (JStr bcc))).
Proof.
  intros Hct Hmt Hcg Hmg. split.
  - intros list_id task_id title description due_date status. eexists. split.
    + change (update_task E list_id task_id title description due_date status)
        with (run_todo_call E (UpdateTask list_id task_id title description due_date status)).
      rewrite todo_adapter_trace.
      rewrite call_mcp_tool_trace, Hct, Hmt. reflexivity.
    + simpl. repeat split.
      all: repeat first
             [ rewrite lookup_set_if_given_eq by (by rewrite ?lookup_set_if_given by done)
             | rewrite lookup_set_if_given by done ];
           reflexivity.
  - intros to subject body cc bcc. eexists. split.
    + change (send_message E to subject body cc bcc)
        with (run_gmail_call E (SendMessage to subject body cc bcc)).
      rewrite gmail_adapter_trace.
      rewrite call_mcp_tool_trace, Hcg, Hmg. reflexivity.
    + simpl. repeat split.
      all: repeat first
             [ rewrite lookup_set_if_nonempty_eq by (by rewrite ?lookup_set_if_nonempty by done)
             | rewrite lookup_set_if_nonempty by done ];
           reflexivity.
Qed.


(** ** A conversation keeps the agents up *)

Lemma stays_up_refl w : stays_up w w.
Proof. by repeat split. Qed.

Lemma stays_up_trans w1 w2 w3 : stays_up w1 w2 -> stays_up w2 w3 -> stays_up w1 w3.
Proof.
  intros (Hc1 & Hm1 & Hg1 & He1) (Hc2 & Hm2 & Hg2 & He2).
  repeat split; [intros s ?; by apply Hc2, Hc1 | intros s ?; by apply Hm2, Hm1
                | intros s ?; by apply Hg2, Hg1 | congruence].
Qed.

Lemma stays_up_log e w : stays_up w (log e w).
Proof. by repeat split. Qed.

Lemma stays_up_set_heap h w : stays_up w (set_heap h w).
Proof. by repeat split. Qed.

(** An update of an agent object that takes nothing away. *)
Lemma stays_up_upd s (f : agent_obj -> agent_obj) w :
  (forall o, (connected o = true -> connected (f o) = true) /\
             (mcp_client o = true -> mcp_client (f o) = true) /\
             (graph o = true -> graph (f o) = true)) ->
  stays_up w (set_obj s (f (obj s w)) w).
Proof.
  intros Hf. destruct (Hf (obj s w)) as (Hc & Hm & Hg).
  repeat split; try (by destruct s); intros s'; destruct s, s'; simpl in *; auto.
Qed.

Lemma steady_ret {A} (x : A) : steady (mret x).
Proof. intros w. apply stays_up_refl. Qed.

Lemma steady_lift {A} (o : outcome A) : steady (lift o).
Proof. intros w. apply stays_up_refl. Qed.

Lemma steady_raise {A} e : steady (@raise A e).
Proof. intros w. apply stays_up_refl. Qed.

Lemma steady_get_world : steady get_world.
Proof. intros w. apply stays_up_refl. Qed.

Lemma steady_await {A} (r : fallible A) : steady (await r).
Proof. destruct r; [apply steady_ret | apply steady_raise]. Qed.

Lemma steady_bind {A B} (m : M A) (f : A -> M B) :
  steady m -> (forall x, steady (f x)) -> steady (m ≫= f).
Proof.
  intros Hm Hf w. rewrite bind_run. specialize (Hm w).
  destruct (m w) as [[x|e] w1]; simpl in *; [|done].
  eapply stays_up_trans; [done | apply Hf].
Qed.

Lemma steady_try_except {A} (body : M A) handler :
  steady body -> (forall cls msg, steady (handler cls msg)) -> steady (try_except body handler).
Proof.
  intros Hb Hh w. specialize (Hb w). unfold try_except.
  destruct (body w) as [[x|[cls msg|]] w1]; simpl in *; try done.
  eapply stays_up_trans; [done | apply Hh].
Qed.

Lemma steady_logged {A} (m : M A) e : steady m -> steady (fun w => m (log e w)).
Proof.
  intros Hm w. eapply stays_up_trans; [apply (stays_up_log e) | apply Hm].
Qed.

Lemma steady_client_enter s : steady (client_enter E s).
Proof. intros w. unfold client_enter. apply (steady_logged _ _ (steady_await _)). Qed.

Lemma steady_client_call_tool s tool_name params :
  steady (client_call_tool E s tool_name params).
Proof.
  intros w. unfold client_call_tool. destruct (mcp_client (obj s w)).
  - apply (steady_logged _ _ (steady_await _)).
  - apply stays_up_refl.
Qed.

Lemma steady_llm a full_messages : steady (llm_with_tools_ainvoke E a full_messages).
Proof.
  intros w. unfold llm_with_tools_ainvoke.
  refine (steady_logged _ (EvModel a full_messages) _ w).
  apply steady_bind; [apply steady_await | intros; apply steady_ret].
Qed.

Lemma steady_upd s f :
  (forall o, (connected o = true -> connected (f o) = true) /\
             (mcp_client o = true -> mcp_client (f o) = true) /\
             (graph o = true -> graph (f o) = true)) ->
  steady (upd s f).
Proof. intros Hf w. by apply stays_up_upd. Qed.

Lemma steady_alloc l : steady (alloc l).
Proof. intros w. apply stays_up_set_heap. Qed.

Lemma steady_list_append p m : steady (list_append p m).
Proof.
  intros w. unfold list_append.
  destruct (heap w !! p); [apply stays_up_set_heap | apply stays_up_refl].
Qed.

Lemma steady_read_list p : steady (read_list p).
Proof. intros w. unfold read_list. destruct (heap w !! p); apply stays_up_refl. Qed.

Lemma still_steady {A} (m : M A) : still m -> steady m.
Proof. intros Hm w. rewrite Hm. apply stays_up_refl. Qed.

Ltac steady_step :=
  match goal with
  | |- steady (mret _) => apply steady_ret
  | |- steady (mbind _ _) => apply steady_bind; [|intros]
  | |- steady (lift _) => apply steady_lift
  | |- steady (raise _) => apply steady_raise
  | |- steady (try_except _ _) => apply steady_try_except; [|intros]
  | |- steady get_world => apply steady_get_world
  | |- steady (upd _ _) => apply steady_upd; by intros []
  | |- steady (await _) => apply steady_await
  | |- steady (client_enter _ _) => apply steady_client_enter
  | |- steady (client_call_tool _ _ _ _) => apply steady_client_call_tool
  | |- steady (llm_with_tools_ainvoke _ _ _) => apply steady_llm
  | |- steady (alloc _) => apply steady_alloc
  | |- steady (list_append _ _) => apply steady_list_append
  | |- steady (read_list _) => apply steady_read_list
  | |- steady (if ?b then _ else _) => destruct b
  | |- steady (match ?x with _ => _ end) => destruct x
  end.

Ltac steady_tac := intros; repeat steady_step.

Lemma steady_connect_mcp s : steady (connect_mcp E s).
Proof. unfold connect_mcp. steady_tac. Qed.

Lemma steady_call_mcp_tool s tool_name params : steady (call_mcp_tool E s tool_name params).
Proof. unfold call_mcp_tool, error_dict. steady_tac; apply steady_connect_mcp. Qed.


Lemma steady_run_gmail_call c : steady (run_gmail_call E c).
Proof.
  destruct c; simpl;
    unfold list_messages, get_message, search_messages, send_message, reply_to_message,
      mark_message_as_read, mark_message_as_unread, add_label_to_message,
      remove_label_from_message, list_labels;
    (apply steady_bind; [apply steady_call_mcp_tool | intros; apply still_steady; still_tac]).
Qed.

Lemma steady_run_todo_call c : steady (run_todo_call E c).
Proof.
  destruct c; simpl;
    unfold list_task_lists, create_task_list, delete_task_list, list_tasks, create_task,
      update_task, complete_task, uncomplete_task, delete_task;
    (apply steady_bind; [apply steady_call_mcp_tool | intros; apply still_steady; still_tac]).
Qed.

Lemma steady_run_calls {C} tools (run : C -> M string) calls :
  (forall c, steady (run c)) -> steady (run_calls E tools run calls).
Proof.
  intros Hrun. induction calls as [|tc calls IH]; simpl; [apply steady_ret|].
  apply steady_bind; [|intros; apply steady_bind; [done | intros; apply steady_ret]].
  unfold run_one. steady_tac. apply Hrun.
Qed.

Lemma steady_tool_node {C} tools (run : C -> M string) st :
  (forall c, steady (run c)) -> steady (tool_node E tools run st).
Proof.
  intros Hrun. unfold tool_node.
  destruct (last (g_messages st)) as [[| | |]|]; steady_tac. by apply steady_run_calls.
Qed.

Lemma steady_run_graph wf fuel n st :
  (forall st, steady (wf_agent wf st)) -> (forall st, steady (wf_tools wf st)) ->
  steady (run_graph wf fuel n st).
Proof.
  intros Hagent Htools. revert n st.
  induction fuel as [|fuel IH]; intros [| |] st; simpl; steady_tac; auto.
Qed.

Lemma steady_chat_body wf initial message state :
  (forall st, steady (wf_agent wf st)) -> (forall st, steady (wf_tools wf st)) ->
  steady (chat_body E wf initial message state).
Proof.
  intros Hagent Htools. unfold chat_body, ainvoke. steady_tac. by apply steady_run_graph.
Qed.

Lemma steady_sub_chat s message state : steady (sub_chat E s message state).
Proof.
  unfold sub_chat. steady_tac. apply steady_chat_body; intros st.
  - destruct s; simpl; unfold gmail_call_model, todo_call_model; steady_tac.
  - destruct s; simpl; apply steady_tool_node;
      [apply steady_run_gmail_call | apply steady_run_todo_call].
Qed.

Lemma steady_delegate s user_request : steady (delegate E s user_request).
Proof. unfold delegate. steady_tac. apply steady_sub_chat. Qed.

Lemma steady_master_chat message state : steady (master_chat E message state).
Proof.
  unfold master_chat. steady_tac. apply steady_chat_body; intros st; simpl.
  - unfold master_call_model. steady_tac.
  - apply steady_tool_node. intros []; apply steady_delegate.
Qed.

Lemma steady_chat a message state : steady (chat E a message state).
Proof. destruct a; [apply steady_master_chat | apply steady_sub_chat]. Qed.

Lemma steady_run_interactive a inputs : forall state, steady (run_interactive E a inputs state).
Proof.
  induction inputs as [|[raw| |cls msg] rest IH]; intros state; simpl;
    [apply steady_ret | | apply steady_ret | apply IH].
  destruct (is_exit E (py_strip raw)); [apply steady_ret|].
  destruct (String.eqb (py_strip raw) EmptyString); [apply IH|].
  intros w. pose proof (steady_chat a (py_strip raw) state w) as Hchat.
  destruct (chat E a (py_strip raw) state w) as [[[response state']|[cls msg|]] w1];
    simpl in *; [| |done]; (eapply stays_up_trans; [done | apply IH]).
Qed.

Lemma steady_batch_loop requests : forall state responses,
  steady (batch_loop E requests state responses).
Proof.
  induction requests as [|request rest IH]; intros state responses; simpl;
    [apply steady_ret|].
  apply steady_bind; [apply steady_master_chat | intros; apply IH].
Qed.

(** X12.  A conversation never closes a connection, never drops a client
    or a graph, and leaves the Master object alone: whatever [chat], the
    interactive loop or a batch does, and however it ends, an agent that was
    connected before is connected after. *)
Theorem conversations_keep_the_agents_up a w :
  (forall message state, stays_up w (chat E a message state w).2) /\
  (forall inputs state, stays_up w (run_interactive E a inputs state w).2) /\
  (forall requests, stays_up w (handle_batch_requests E requests w).2).
Proof.
  split; [|split].
  - intros message state. apply steady_chat.
  - intros inputs state. apply steady_run_interactive.
  - intros requests. unfold handle_batch_requests. apply steady_batch_loop.
Qed.


(** ** The program *)

Lemma run_interactive_returns a inputs : forall state w,
  exists e w', run_interactive E a inputs state w = (Ok e, w').
Proof.
  induction inputs as [|[raw| |cls msg] rest IH]; intros state w; simpl;
    [by eexists _, _ | | by eexists _, _ | apply IH].
  destruct (is_exit E (py_strip raw)); [by eexists _, _|].
  destruct (String.eqb (py_strip raw) EmptyString); [apply IH|].
  destruct (chat E a (py_strip raw) state w) as [[[response state']|[cls msg|]] w1];
    [apply IH | apply IH | by eexists _, _].
Qed.

Lemma tame_run_interactive a inputs : forall state, tame (run_interactive E a inputs state).
Proof.
  induction inputs as [|[raw| |cls msg] rest IH]; intros state; simpl;
    [apply tame_ret | | apply tame_ret | apply IH].
  destruct (is_exit E (py_strip raw)); [apply tame_ret|].
  destruct (String.eqb (py_strip raw) EmptyString); [apply IH|].
  intros w. destruct (tame_chat a (py_strip raw) state w) as [Hcalm Hgrows].
  destruct (chat E a (py_strip raw) state w) as [[[response state']|[cls msg|]] w1];
    simpl in *; [| |done].
  - destruct (IH (Some state') w1) as [Hc Hg]. split; [done | by eapply grows_trans].
  - destruct (IH state w1) as [Hc Hg]. split; [done | by eapply grows_trans].
Qed.

(** The three ways [__aenter__] of the Master can end. *)
Lemma master_aenter_ends w :
  (exists w1,
     master_aenter E w = (Ok tt, w1) /\
     trace w1 = trace w ++ [EvConnect Todo; EvConnect Gmail] /\
     forall s, has_sub_agent s w1 = true /\ connected (obj s w1) = true /\
               mcp_client (obj s w1) = true) \/
  (exists msg w1,
     master_aenter E w = (Raise (RuntimeError msg), w1) /\
     (trace w1 = trace w ++ [EvConnect Todo] \/
      trace w1 = trace w ++ [EvConnect Todo; EvConnect Gmail])).
Proof.
  cbv [master_aenter initialize_sub_agents try_except mbind M_bind mret M_ret construct
       modify set_master sub_aenter connect_mcp get_world upd client_enter raise].
  simpl.
  destruct (mcp_enter E Todo (trace w)) as [[]|cls1 msg1]; simpl;
    [|right; eexists _, _; split; [reflexivity | by left]].
  destruct (mcp_enter E Gmail (trace w ++ [EvConnect Todo])) as [[]|cls2 msg2]; simpl.
  - left. eexists. split; [reflexivity|]. split; [simpl; by rewrite <- app_assoc|].
    by intros [].
  - right. eexists _, _. split; [reflexivity|]. right. simpl. by rewrite <- app_assoc.
Qed.

Lemma main_run (X : sub_agent -> list event -> fallible unit) key inputs w :
  key <> EmptyString ->
  main E X (Some key) inputs w =
    match master_aenter E w with
    | (Ok _, w1) =>
        match run_interactive E Master inputs None w1 with
        | (Ok (Terminated rest), w2) => (Ok (Finished rest), (cleanup_sub_agents X w2).2)
        | (Ok (AwaitingInput state), w2) => (Ok (AtPrompt state), w2)
        | (Raise e, w2) => (Raise e, w2)
        end
    | (Raise (Exception _ msg), w1) => (Ok (Failed msg), w1)
    | (Raise KeyboardInterrupt, w1) => (Raise KeyboardInterrupt, w1)
    end.
Proof.
  intros Hkey. unfold main. apply String.eqb_neq in Hkey. rewrite Hkey. cbn [negb].
  unfold try_except. rewrite bind_run.
  destruct (master_aenter E w) as [[[]|[cls msg|]] w1]; try reflexivity.
  unfold main_body.
  destruct (run_interactive_returns Master inputs None w1) as (e & w2 & ->).
  destruct e as [rest|state]; [|reflexivity].
  unfold master_aexit. rewrite bind_run.
  destruct (cleanup_cases X w2) as (Hok & _).
  destruct (cleanup_sub_agents X w2) as [o w3]. simpl in Hok. by subst o.
Qed.

(** X13.  [main] closes what it opened.  It never raises.  Without an API
    key it returns at once and touches nothing.  When it reports a failure,
    the failure is that of the start: one or two connection attempts were
    made and nothing was closed.  When the loop is left, the To-Do client is
    closed and then, unless that failed, the Gmail client; while the loop
    waits at the prompt both agents are connected. *)
Theorem main_closes_what_it_opened
    (X : sub_agent -> list event -> fallible unit) key inputs w :
  let r := main E X key inputs w in
  (exists o, r.1 = Ok o) /\
  (r.1 = Ok NoApiKey <-> key = None \/ key = Some EmptyString) /\
  (r.1 = Ok NoApiKey -> r.2 = w) /\
  (forall msg, r.1 = Ok (Failed msg) ->
     trace r.2 = trace w ++ [EvConnect Todo] \/
     trace r.2 = trace w ++ [EvConnect Todo; EvConnect Gmail]) /\
  (forall state, r.1 = Ok (AtPrompt state) -> forall s, connected (obj s r.2) = true) /\
  (forall rest, r.1 = Ok (Finished rest) ->
     exists w2,
       (trace w ++ [EvConnect Todo; EvConnect Gmail]) `prefix_of` trace w2 /\
       trace r.2 = trace w2 ++ EvDisconnect Todo ::
                     match X Todo (trace w2) with
                     | Success _ => [EvDisconnect Gmail]
                     | Failure _ _ => []
                     end).
Proof.
  intros r. subst r.
  destruct key as [key|]; [destruct (String.eqb key EmptyString) eqn:Hkey|].
  2: {
    apply String.eqb_neq in Hkey. rewrite main_run by done.
    destruct (master_aenter_ends w) as [(w1 & -> & Htrace & Hup)|(msg & w1 & -> & Htrace)].
    - destruct (run_interactive_returns Master inputs None w1) as (e & w2 & Hrun).
      pose proof (steady_run_interactive Master inputs None w1) as Hsteady.
      pose proof (tame_run_interactive Master inputs None w1) as Htame.
      rewrite Hrun in *. simpl in Hsteady, Htame.
      destruct Hsteady as (Hc & Hm & _ & Hmaster).
      destruct e as [rest|state]; simpl.
      + split; [by eexists|]. split; [split; [done | by intros [|[= ->]]]|].
        split; [done|]. split; [done|]. split; [done|].
        intros rest' _. exists w2. split; [rewrite <- Htrace; apply Htame|].
        destruct (cleanup_cases X w2) as (_ & _ & _ & Hclose).
        assert (forall s, has_sub_agent s w2 = true) as Hhas.
        { intros s. destruct (Hup s) as (Hs & _). by destruct s; simpl in *; rewrite Hmaster. }
        specialize (Hclose (Hhas Todo) (Hc Todo (proj1 (proj2 (Hup Todo))))
                      (Hm Todo (proj2 (proj2 (Hup Todo))))).
        destruct (X Todo (trace w2)) as [[]|cls msg].
        * destruct Hclose as (_ & Hclose).
          by destruct (Hclose (Hhas Gmail) (Hc Gmail (proj1 (proj2 (Hup Gmail))))
                         (Hm Gmail (proj2 (proj2 (Hup Gmail))))) as [-> _].
        * by rewrite Hclose.
      + split; [by eexists|]. split; [split; [done | by intros [|[= ->]]]|].
        split; [done|]. split; [done|]. split; [|done].
        intros _ _ s. apply Hc, Hup.
    - simpl. split; [by eexists|]. split; [split; [done | by intros [|[= ->]]]|].
      split; [done|]. split; [done|]. by split. }
  - apply String.eqb_eq in Hkey as ->. simpl.
    split; [by eexists|]. split; [split; [by right | done]|]. by repeat split.
  - simpl. split; [by eexists|]. split; [split; [by left | done]|]. by repeat split.
Qed.

End Properties.

(** * Properties of the To Do server *)

Section TodoServer.
Context (E : environment) (N : network).
Implicit Types (s : todo_state) (w : world).

(** The token, the requests and the replies of the tools. *)

Lemma st_bind_run {S A B} (m : St S A) (f : A -> St S B) (s : S) :
  (m ≫= f) s = let (o, s') := m s in
               match o with Ok x => f x s' | Raise e => (Raise e, s') end.
Proof. unfold mbind, St_bind. by destruct (m s) as [[x|e] s']. Qed.

Lemma quiet_ret {S A} (x : A) : quiet (mret x : St S A).
Proof. done. Qed.

Lemma quiet_lift {S A} (o : outcome A) : quiet (st_lift o : St S A).
Proof. done. Qed.

Lemma quiet_await {S A} (r : fallible A) : quiet (st_await r : St S A).
Proof. by destruct r. Qed.

Lemma quiet_bind {S A B} (m : St S A) (f : A -> St S B) :
  quiet m -> (forall x, quiet (f x)) -> quiet (m ≫= f).
Proof.
  intros Hm Hf s. rewrite st_bind_run. specialize (Hm s).
  destruct (m s) as [[x|e] s1]; simpl in *; subst s1; [apply Hf | done].
Qed.

Ltac quiet_step :=
  match goal with
  | |- quiet (mret _) => apply quiet_ret
  | |- quiet (st_lift _) => apply quiet_lift
  | |- quiet (st_await _) => apply quiet_await
  | |- quiet (mbind _ _) => apply quiet_bind; [|intros]
  | |- quiet (if ?b then _ else _) => destruct b
  | |- quiet (match ?x with _ => _ end) => destruct x
  end.

Ltac quiet_tac := intros; repeat quiet_step.

Lemma one_request_quiet {A} t (m : St todo_state A) : quiet m -> one_request t m.
Proof. intros Hm s. by left. Qed.

Lemma one_request_send method url t data :
  one_request t (msgraph_todo_lib.send N method url t data).
Proof.
  intros s. right. exists (HttpRequest method url t data). split; [reflexivity|].
  unfold msgraph_todo_lib.send.
  destruct (httpx N (net s) _) as [response|cls msg]; reflexivity.
Qed.

(** After the request, what follows asks nothing. *)
Lemma one_request_then {A B} t (m : St todo_state A) (f : A -> St todo_state B) :
  one_request t m -> (forall x, quiet (f x)) -> one_request t (m ≫= f).
Proof.
  intros Hm Hf s. rewrite st_bind_run. specialize (Hm s).
  destruct (m s) as [[x|e] s1]; [|exact Hm].
  rewrite (Hf x s1). exact Hm.
Qed.

Lemma one_request_try {A} t (body : St todo_state A) handler :
  one_request t body -> (forall cls msg, quiet (handler cls msg)) ->
  one_request t (st_try body handler).
Proof.
  intros Hb Hh s. unfold st_try. specialize (Hb s).
  destruct (body s) as [[x|[cls msg|]] s1]; [exact Hb | | exact Hb].
  rewrite (Hh cls msg s1). exact Hb.
Qed.

Lemma one_request_get_todo_lists t : one_request t (msgraph_todo_lib.get_todo_lists N t).
Proof.
  unfold msgraph_todo_lib.get_todo_lists.
  apply one_request_then; [apply one_request_send | quiet_tac].
Qed.

Lemma one_request_lib t :
  one_request t (msgraph_todo_lib.get_todo_lists N t) /\
  (forall name, one_request t (msgraph_todo_lib.create_todo_list N t name)) /\
  (forall l, one_request t (msgraph_todo_lib.get_tasks N t l)) /\
  (forall l title b d, one_request t (msgraph_todo_lib.create_task N t l title b d)) /\
  (forall l k, one_request t (msgraph_todo_lib.complete_task N t l k)) /\
  (forall l k title b d st, one_request t (msgraph_todo_lib.update_task N t l k title b d st)) /\
  (forall l k, one_request t (msgraph_todo_lib.uncomplete_task N t l k)) /\
  (forall l k, one_request t (msgraph_todo_lib.delete_task N t l k)) /\
  (forall l, one_request t (msgraph_todo_lib.delete_task_list N t l)).
Proof.
  repeat split; intros;
    unfold msgraph_todo_lib.uncomplete_task, msgraph_todo_lib.get_todo_lists, msgraph_todo_lib.create_todo_list,
      msgraph_todo_lib.get_tasks, msgraph_todo_lib.create_task,
      msgraph_todo_lib.complete_task, msgraph_todo_lib.update_task,
      msgraph_todo_lib.delete_task, msgraph_todo_lib.delete_task_list;
    try (apply one_request_try; [|quiet_tac]);
    try (destruct (negb (py_truthy (JObj (msgraph_todo_lib.update_data _ _ _ _))));
         [apply one_request_quiet; quiet_tac|]);
    (apply one_request_then; [apply one_request_send | quiet_tac]).
Qed.

(** Every tool, once it has a token, asks the network at most once. *)
Lemma one_request_tools name bind args tool t :
  lookup_tool name (improved_mcp_server.tools N) = Some bind ->
  bind args = Ok tool ->
  exists body, tool = improved_mcp_server.with_token N body /\ one_request t (body t).
Proof.
  destruct (one_request_lib t) as (H1 & H2 & H3 & H4 & H5 & H6 & H7 & H8 & H9).
  unfold improved_mcp_server.tools. simpl. intros Hbind Hc.
  repeat (destruct (String.eqb name _) eqn:Hn in Hbind;
          [apply String.eqb_eq in Hn; subst name; injection Hbind as <-;
           cbv [mbind outcome_bind mret outcome_ret] in Hc;
           repeat match type of Hc with
                  | context [match ?x with _ => _ end] => destruct x; try discriminate Hc
                  end;
           injection Hc as <-; eexists; (split; [reflexivity|]); cbv beta;
           (apply one_request_then; [auto | quiet_tac])
          |clear Hn]).
  discriminate.
Qed.

(** X14.  Every tool of the To Do server settles the token first.  Without
    a token in hand the sign-in is run once: if it fails the tool fails with
    it, if it yields no token the tool answers "Authentication failed" and
    asks the Graph endpoint nothing.  With a token in hand the sign-in is
    never run again, so a token is never renewed; the tool then asks the
    endpoint at most once, with that token. *)
Theorem tools_settle_the_token_first name bind args tool s :
  lookup_tool name (improved_mcp_server.tools N) = Some bind ->
  bind args = Ok tool ->
  if msgraph_todo_lib.no_token (access_token s) then
    match get_access_token N (net s) with
    | Failure cls msg =>
        tool s = (Raise (Exception cls msg), TodoState (net s ++ [EvAuth]) (access_token s))
    | Success t =>
        if msgraph_todo_lib.no_token t then
          tool s = (Ok improved_mcp_server.authentication_failed,
                    TodoState (net s ++ [EvAuth]) t)
        else
          exists token,
            t = Some token /\ access_token (tool s).2 = Some token /\
            (net (tool s).2 = net s ++ [EvAuth] \/
             exists r, rq_bearer r = token /\ net (tool s).2 = net s ++ [EvAuth; EvHttp r])
    end
  else
    exists token,
      access_token s = Some token /\ access_token (tool s).2 = Some token /\
      (net (tool s).2 = net s \/
       exists r, rq_bearer r = token /\ net (tool s).2 = net s ++ [EvHttp r]).
Proof.
  intros Hbind Hargs.
  destruct (msgraph_todo_lib.no_token (access_token s)) eqn:Hheld.
  - destruct (get_access_token N (net s)) as [t|cls msg] eqn:Hsign.
    + destruct (msgraph_todo_lib.no_token t) eqn:Ht.
      * destruct (one_request_tools _ _ _ _ EmptyString Hbind Hargs) as (body & -> & _).
        unfold improved_mcp_server.with_token. rewrite st_bind_run.
        unfold msgraph_todo_lib.ensure_access_token. rewrite Hheld, Hsign.
        destruct t as [token|]; [|done]. simpl in Ht. by rewrite Ht.
      * destruct t as [token|]; [|done].
        destruct (one_request_tools _ _ _ _ token Hbind Hargs) as (body & -> & Hone).
        exists token. split; [done|].
        unfold improved_mcp_server.with_token. rewrite st_bind_run.
        unfold msgraph_todo_lib.ensure_access_token. rewrite Hheld, Hsign.
        simpl in Ht. rewrite Ht.
        destruct (Hone (TodoState (net s ++ [EvAuth]) (Some token))) as [->|(r & Hr & ->)].
        -- split; [done | by left].
        -- split; [done|]. right. exists r. split; [done|]. simpl. by rewrite <- app_assoc.
    + destruct (one_request_tools _ _ _ _ EmptyString Hbind Hargs) as (body & -> & _).
      unfold improved_mcp_server.with_token. rewrite st_bind_run.
      unfold msgraph_todo_lib.ensure_access_token. by rewrite Hheld, Hsign.
  - destruct (access_token s) as [token|] eqn:Htoken; [|done].
    destruct (one_request_tools _ _ _ _ token Hbind Hargs) as (body & -> & Hone).
    exists token. split; [done|].
    unfold improved_mcp_server.with_token. rewrite st_bind_run.
    unfold msgraph_todo_lib.ensure_access_token. rewrite Htoken, Hheld.
    simpl in Hheld. rewrite Hheld.
    destruct (Hone s) as [->|(r & Hr & ->)].
    + split; [done | by left].
    + split; [by simpl|]. right. by exists r.
Qed.

Lemma held_token s token :
  access_token s = Some token -> token <> EmptyString ->
  msgraph_todo_lib.ensure_access_token N s = (Ok (Some token), s).
Proof.
  intros Hs Ht. unfold msgraph_todo_lib.ensure_access_token. rewrite Hs. simpl.
  apply String.eqb_neq in Ht. by rewrite Ht.
Qed.

Lemma with_token_run body s token :
  access_token s = Some token -> token <> EmptyString ->
  improved_mcp_server.with_token N body s = body token s.
Proof.
  intros Hs Ht. unfold improved_mcp_server.with_token.
  rewrite st_bind_run, (held_token s token Hs Ht).
  apply String.eqb_neq in Ht. by rewrite Ht.
Qed.

(** X15.  An update that names no field is refused without a request.  The
    library returns [None] at once, the server answers with the error
    "Failed to update task" and its state is unchanged.  This is what the
    agent's [update_task] reaches when the backend gives only the two ids:
    the server binds the mapping the agent sends to exactly that call, and the
    agent answers [Error updating task: Failed to update task]. *)
Theorem update_without_fields_asks_nothing list_id task_id s token :
  access_token s = Some token -> token <> EmptyString ->
  let refusal := JObj [("error", JStr "Failed to update task")] in
  msgraph_todo_lib.update_task N token list_id task_id None None None None s = (Ok JNull, s) /\
  (exists bind tool,
     lookup_tool (todo_request (UpdateTask list_id task_id None None None None)).1
       (improved_mcp_server.tools N) = Some bind /\
     bind (params_or_empty (todo_request (UpdateTask list_id task_id None None None None)).2)
       = Ok tool /\
     tool s = (Ok refusal, s)) /\
  (forall w w',
     call_mcp_tool E Todo "update_task"
       (Some [("list_id", JStr list_id); ("task_id", JStr task_id)]) w = (Ok refusal, w') ->
     update_task E list_id task_id None None None None w
       = (Ok "Error updating task: Failed to update task", w')).
Proof.
  intros Hs Ht refusal. split; [done|]. split.
  - eexists _, _. split; [reflexivity|]. split; [reflexivity|].
    unfold improved_mcp_server.update_task. by rewrite (with_token_run _ s token Hs Ht).
  - intros w w' Hcall.
    apply (todo_adapter_error E (UpdateTask list_id task_id None None None None)
             [("error", JStr "Failed to update task")] (JStr "Failed to update task") w w');
      [exact Hcall | reflexivity].
Qed.

Lemma send_run method url token data s :
  msgraph_todo_lib.send N method url token data s
    = (match httpx N (net s) (HttpRequest method url token data) with
       | Success response => Ok response
       | Failure cls msg => Raise (Exception cls msg)
       end,
       TodoState (net s ++ [EvHttp (HttpRequest method url token data)]) (access_token s)).
Proof.
  unfold msgraph_todo_lib.send. by destruct (httpx N (net s) _) as [response|cls msg].
Qed.

Lemma update_data_empty title body due status :
  msgraph_todo_lib.update_data title body due status = [] <->
  title = None /\ body = None /\ due = None /\ status = None.
Proof.
  split; [|by intros (-> & -> & -> & ->)].
  unfold msgraph_todo_lib.update_data.
  destruct title, body, due as [d|], status; try done;
    try (destruct (String.eqb d EmptyString)); done.
Qed.

(** X16.  What an update sends.  When at least one field is given, the
    library sends exactly one PATCH to the task's address with the fields
    given and no others; an empty due date is sent as a null [dueDateTime]
    (the removal), any other as midnight UTC of that day.  [complete_task] is
    the update that sets only the status to "completed", and
    [uncomplete_task] the one that sets it to "notStarted". *)
Theorem update_sends_the_fields_given token list_id task_id s :
  let url := msgraph_todo_lib.lists_url +:+ "/" +:+ list_id +:+ "/tasks/" +:+ task_id in
  (forall title body due status,
     ~ (title = None /\ body = None /\ due = None /\ status = None) ->
     exists data,
       net (msgraph_todo_lib.update_task N token list_id task_id title body due status s).2
         = net s ++ [EvHttp (HttpRequest PATCH url token (Some (JObj data)))] /\
       dict_lookup "title" data = JStr <$> title /\
       dict_lookup "body" data = msgraph_todo_lib.text_body <$> body /\
       dict_lookup "dueDateTime" data
         = (fun d => if String.eqb d EmptyString then JNull
                     else msgraph_todo_lib.due_date_time d) <$> due /\
       dict_lookup "status" data = JStr <$> status) /\
  msgraph_todo_lib.complete_task N token list_id task_id s
    = msgraph_todo_lib.update_task N token list_id task_id None None None (Some "completed") s /\
  net (msgraph_todo_lib.uncomplete_task N token list_id task_id s).2
    = net s ++ [EvHttp (HttpRequest PATCH url token
                          (Some (JObj [("status", JStr "notStarted")])))].
Proof.
  intros url. split; [|split].
  - intros title body due status Hsome.
    exists (msgraph_todo_lib.update_data title body due status). split.
    + unfold msgraph_todo_lib.update_task.
      destruct (msgraph_todo_lib.update_data title body due status) as [|kv data] eqn:Hdata.
      { by apply update_data_empty in Hdata. }
      cbn [py_truthy negb]. rewrite st_bind_run, send_run.
      destruct (httpx N (net s) _) as [response|cls msg]; [|done].
      destruct (status_code response =? 200)%Z; [|done].
      by destruct (response_json response).
    + unfold msgraph_todo_lib.update_data.
      destruct title, body, due as [d|], status; simpl;
        try (destruct (String.eqb d EmptyString)); done.
  - reflexivity.
  - unfold msgraph_todo_lib.uncomplete_task, msgraph_todo_lib.update_task.
    cbn [msgraph_todo_lib.update_data dict_set py_truthy negb].
    rewrite st_bind_run, send_run.
    destruct (httpx N (net s) _) as [response|cls msg]; [|done].
    destruct (status_code response =? 200)%Z; [|done].
    by destruct (response_json response).
Qed.

Lemma get_tasks_run token list_id s :
  let r := HttpRequest GET (msgraph_todo_lib.lists_url +:+ "/" +:+ list_id +:+ "/tasks")
             token None in
  msgraph_todo_lib.get_tasks N token list_id s
    = (match httpx N (net s) r with
       | Success response =>
           if (status_code response =? 200)%Z then
             match response_json response with
             | Success tasks =>
                 match py_get tasks "value" (JList []) with
                 | Ok v => Ok v
                 | Raise (Exception cls msg) =>
                     Ok (JObj [("error", JStr ("Error fetching tasks: " +:+ msg))])
                 | Raise KeyboardInterrupt => Raise KeyboardInterrupt
                 end
             | Failure cls msg =>
                 Ok (JObj [("error",
                            JStr (if String.eqb cls "ReadTimeout" then msgraph_todo_lib.timed_out
                                  else if String.eqb cls "ConnectError"
                                       then msgraph_todo_lib.unreachable
                                       else "Error fetching tasks: " +:+ msg))])
             end
           else Ok (JList [])
       | Failure cls msg =>
           Ok (JObj [("error",
                      JStr (if String.eqb cls "ReadTimeout" then msgraph_todo_lib.timed_out
                            else if String.eqb cls "ConnectError"
                                 then msgraph_todo_lib.unreachable
                                 else "Error fetching tasks: " +:+ msg))])
       end,
       TodoState (net s ++ [EvHttp r]) (access_token s)).
Proof.
  intros r. unfold msgraph_todo_lib.get_tasks, st_try. rewrite st_bind_run, send_run.
  fold r. destruct (httpx N (net s) r) as [response|cls msg].
  - destruct (status_code response =? 200)%Z; [|done].
    rewrite st_bind_run.
    destruct (response_json response) as [tasks|cls msg]; simpl.
    + destruct tasks; simpl; try done.
    + by destruct (String.eqb cls "ReadTimeout"), (String.eqb cls "ConnectError").
  - by destruct (String.eqb cls "ReadTimeout"), (String.eqb cls "ConnectError").
Qed.

(** X17.  How a failure to fetch the tasks is told.  When the request
    itself fails, whatever the exception, the library returns a dictionary
    with the key "error"; the server tool then iterates over that dictionary
    and raises a [TypeError], so the library's message is never sent.  When
    the endpoint answers with a status other than 200, the server answers
    with an empty list of tasks, which the agent reports as a list without
    tasks. *)
Theorem list_tasks_failures list_id s token :
  access_token s = Some token -> token <> EmptyString ->
  let r := HttpRequest GET (msgraph_todo_lib.lists_url +:+ "/" +:+ list_id +:+ "/tasks")
             token None in
  (forall cls msg,
     httpx N (net s) r = Failure cls msg ->
     (exists text, (msgraph_todo_lib.get_tasks N token list_id s).1
                     = Ok (JObj [("error", JStr text)])) /\
     (improved_mcp_server.list_tasks N list_id s).1
       = Raise (TypeError "string indices must be integers, not 'str'")) /\
  (forall response,
     httpx N (net s) r = Success response -> status_code response <> 200%Z ->
     (improved_mcp_server.list_tasks N list_id s).1 = Ok (JObj [("tasks", JList [])])) /\
  (forall w w',
     call_mcp_tool E Todo "list_tasks" (Some [("list_id", JStr list_id)]) w
       = (Ok (JObj [("tasks", JList [])]), w') ->
     list_tasks E list_id w
       = (Ok ("No tasks found in this list (ID: " +:+ list_id +:+ ")"), w')).
Proof.
  intros Hs Ht r. split; [|split].
  - intros cls msg Hfail. split.
    + rewrite get_tasks_run. fold r. rewrite Hfail. by eexists.
    + unfold improved_mcp_server.list_tasks.
      rewrite (with_token_run _ s token Hs Ht), st_bind_run, get_tasks_run.
      fold r. by rewrite Hfail.
  - intros response Hresp Hstatus.
    unfold improved_mcp_server.list_tasks.
    rewrite (with_token_run _ s token Hs Ht), st_bind_run, get_tasks_run.
    fold r. rewrite Hresp. apply Z.eqb_neq in Hstatus. by rewrite Hstatus.
  - intros w w' Hcall. unfold list_tasks. rewrite bind_run, Hcall. reflexivity.
Qed.

Lemma chars_nil d : chars d = [] -> d = EmptyString.
Proof.
  destruct d as [|c d]; [done|]. simpl.
  destruct (chars d) as [|ch rest]; [done|]. by destruct (continues d).
Qed.

Lemma concat_chars d : String.concat EmptyString (chars d) = d.
Proof.
  induction d as [|c d IH]; [done|]. cbn [chars].
  destruct (chars d) as [|ch rest] eqn:Hd.
  - by rewrite (chars_nil d Hd).
  - destruct (continues d); rewrite !concat_empty_cons;
      rewrite concat_empty_cons in IH; by rewrite <- IH.
Qed.

Lemma chars_app d suffix :
  continues suffix = false -> chars (d +:+ suffix) = chars d ++ chars suffix.
Proof.
  intros Hsuffix. induction d as [|c d IH]; [done|].
  change (String c d +:+ suffix) with (String c (d +:+ suffix)). cbn [chars].
  rewrite IH. destruct d as [|c' d].
  - change (continues (EmptyString +:+ suffix)) with (continues suffix).
    rewrite Hsuffix. simpl. by destruct (chars suffix).
  - change (continues (String c' d +:+ suffix)) with (continues (String c' d)).
    destruct (chars (String c' d)) as [|ch rest] eqn:Hd; [by apply chars_nil in Hd|].
    simpl. by destruct (is_continuation c').
Qed.

(** Cutting a string after as many code points as its first part has gives
    that part, when what follows begins a code point. *)
Lemma str_take_append d suffix :
  continues suffix = false -> str_take (str_len d) (d +:+ suffix) = d.
Proof.
  intros Hsuffix. unfold str_take, str_len. rewrite chars_app by done.
  by rewrite take_app_length, concat_chars.
Qed.

Lemma task_data_due task id title status day :
  dict_lookup "id" task = Some id ->
  dict_lookup "title" task = Some title ->
  dict_lookup "status" task = Some status ->
  dict_lookup "dueDateTime" task = Some (msgraph_todo_lib.due_date_time day) ->
  match dict_lookup "body" task with
  | Some body => exists content, py_getitem body "content" = Ok content
  | None => True
  end ->
  exists shown,
    improved_mcp_server.task_data (JObj task) = Ok (JObj shown) /\
    dict_lookup "id" shown = Some id /\
    dict_lookup "title" shown = Some title /\
    dict_lookup "dueDate" shown
      = Some (JStr (str_take 10 (day +:+ "T00:00:00.0000000"))).
Proof.
  intros Hid Htitle Hstatus Hdue Hbody.
  unfold improved_mcp_server.task_data.
  cbv [mbind outcome_bind mret outcome_ret py_getitem py_contains].
  rewrite Hid, Htitle, Hstatus, Hdue.
  rewrite bool_decide_eq_true_2 by by eexists.
  cbn [msgraph_todo_lib.due_date_time dict_lookup String.eqb Ascii.eqb Bool.eqb py_slice_to].
  destruct (dict_lookup "body" task) as [body|] eqn:Hb.
  - rewrite bool_decide_eq_true_2 by by eexists.
    destruct Hbody as [content Hcontent].
    cbv [py_getitem] in Hcontent.
    destruct body; try discriminate Hcontent.
    destruct (dict_lookup "content" d) as [c|]; [|discriminate Hcontent].
    destruct (py_truthy c); eexists; (split; [reflexivity|]); simpl; done.
  - rewrite bool_decide_eq_false_2 by by intros [? ?].
    eexists. split; [reflexivity|]. done.
Qed.

(** X18.  A due date comes back as it was given.  [create_task] sends the
    day as midnight UTC, [<day>T00:00:00.0000000].  When the endpoint
    answers 201 with the task and that [dueDateTime], the server's reply
    carries as [dueDate] the first ten characters of what was sent; for a day
    written with ten characters (YYYY-MM-DD) this is the day itself, and the
    agent, given that reply, shows it after [Due:]. *)
Theorem due_date_round_trip list_id title description day s token response task id shown_title
    status :
  access_token s = Some token -> token <> EmptyString ->
  str_len day = 10 ->
  let sent := msgraph_todo_lib.create_data title description day in
  httpx N (net s)
    (HttpRequest POST (msgraph_todo_lib.lists_url +:+ "/" +:+ list_id +:+ "/tasks") token
       (Some (JObj sent))) = Success response ->
  status_code response = 201%Z ->
  response_json response = Success (JObj task) ->
  dict_lookup "id" task = Some id ->
  dict_lookup "title" task = Some shown_title ->
  dict_lookup "status" task = Some status ->
  dict_lookup "dueDateTime" task = dict_lookup "dueDateTime" sent ->
  match dict_lookup "body" task with
  | Some body => exists content, py_getitem body "content" = Ok content
  | None => True
  end ->
  dict_lookup "dueDateTime" sent
    = Some (JObj [("dateTime", JStr (day +:+ "T00:00:00.0000000")); ("timeZone", JStr "UTC")]) /\
  exists shown,
    (improved_mcp_server.create_task N list_id title description day s).1
      = Ok (improved_mcp_server.succeeded (JObj shown)) /\
    dict_lookup "dueDate" shown = Some (JStr day) /\
    forall w w',
      call_mcp_tool E Todo "create_task"
        (Some [("list_id", JStr list_id); ("title", JStr title);
               ("description", JStr description); ("due_date", JStr day)]) w
        = (Ok (improved_mcp_server.succeeded (JObj shown)), w') ->
      create_task E list_id title description day w
        = (Ok ("✅ Successfully created task '" +:+ py_str E shown_title +:+ "' (Due: " +:+ day
               +:+ ") (ID: " +:+ py_str E id +:+ ")"), w').
Proof.
  intros Hs Ht Hlen sent Hresp H201 Hjson Hid Htitle Hstatus Hecho Hbody.
  assert (dict_lookup "dueDateTime" sent = Some (msgraph_todo_lib.due_date_time day)) as Hsent.
  { subst sent. unfold msgraph_todo_lib.create_data.
    destruct day as [|c day]; [done|].
    cbn [String.eqb negb]. apply dict_lookup_set. }
  split; [exact Hsent|].
  rewrite Hsent in Hecho.
  destruct (task_data_due task id shown_title status day Hid Htitle Hstatus Hecho Hbody)
    as (shown & Hshown & Hsid & Hstitle & Hsdue).
  rewrite <- Hlen, str_take_append in Hsdue by done.
  exists shown. split; [|split; [exact Hsdue|]].
  - unfold improved_mcp_server.create_task.
    rewrite (with_token_run _ s token Hs Ht), st_bind_run.
    unfold msgraph_todo_lib.create_task. rewrite st_bind_run, send_run.
    fold sent. rewrite Hresp, H201, Hjson. cbn [Z.eqb Pos.eqb st_await mret St_ret].
    cbn [py_truthy]. destruct task as [|kv task]; [discriminate Hid|].
    cbn [negb]. rewrite st_bind_run. unfold st_lift. by rewrite Hshown.
  - intros w w' Hcall. unfold create_task. rewrite bind_run, Hcall.
    cbv [on_error improved_mcp_server.succeeded mbind M_bind lift py_contains
         mret M_ret success py_get outcome_bind outcome_ret py_getitem due_info title_and_id].
    cbn [dict_lookup String.eqb Ascii.eqb Bool.eqb].
    rewrite bool_decide_eq_false_2 by by intros [? ?].
    cbn [py_truthy]. rewrite Hsdue, Hstitle, Hsid.
    destruct day as [|c day]; [done|].
    cbn [py_truthy String.eqb negb py_str]. by rewrite !append_assoc.
Qed.

(** X19.  The two sides of the To Do protocol fit.  What an adapter of the
    agent puts on the wire is accepted by the server: the server has a tool of
    the name called, its parameters are satisfied by the mapping sent, and the
    call it is bound to is the function of that name with the adapter's own
    arguments, each in its place. *)
Theorem todo_calls_arrive_as_sent c w :
  connected (obj Todo w) = true ->
  mcp_client (obj Todo w) = true ->
  exists name params bind,
    trace (run_todo_call E c w).2 = trace w ++ [EvCallTool Todo name params] /\
    lookup_tool name (improved_mcp_server.tools N) = Some bind /\
    bind params = Ok (served N c).
Proof.
  intros Hc Hm. exists (todo_request c).1, (params_or_empty (todo_request c).2).
  assert (exists bind,
            lookup_tool (todo_request c).1 (improved_mcp_server.tools N) = Some bind /\
            bind (params_or_empty (todo_request c).2) = Ok (served N c)) as (bind & H1 & H2).
  { destruct c as [| | | | |list_id task_id [title|] [description|] [due_date|] [status|]| | |];
      eexists; (split; [reflexivity|]); reflexivity. }
  exists bind. split; [|done].
  by rewrite (todo_adapter_trace E), (call_mcp_tool_trace E), Hc, Hm.
Qed.

(** ** What the server answers is what the agent can read *)

Lemma with_token_ok body s reply s' :
  improved_mcp_server.with_token N body s = (Ok reply, s') ->
  reply = improved_mcp_server.authentication_failed \/
  exists token s1, body token s1 = (Ok reply, s').
Proof.
  unfold improved_mcp_server.with_token. rewrite st_bind_run.
  destruct (msgraph_todo_lib.ensure_access_token N s) as [[[token|]|e] s1]; [| |done].
  - destruct (String.eqb token EmptyString); [intros [= <- _]; by left|].
    intros H. right. by exists token, s1.
  - intros [= <- _]. by left.
Qed.

Lemma st_bind_ok {S A B} (m : St S A) (f : A -> St S B) (a : S) y (b : S) :
  (m ≫= f) a = (Ok y, b) -> exists x c, m a = (Ok x, c) /\ f x c = (Ok y, b).
Proof.
  rewrite st_bind_run. destruct (m a) as [[x|e] c]; [|done]. intros H. by exists x, c.
Qed.

Lemma task_data_shape task data :
  improved_mcp_server.task_data task = Ok data ->
  exists shown title id status,
    data = JObj shown /\
    dict_lookup "title" shown = Some title /\
    dict_lookup "id" shown = Some id /\
    dict_lookup "status" shown = Some status.
Proof.
  unfold improved_mcp_server.task_data.
  cbv [mbind outcome_bind mret outcome_ret].
  destruct (py_getitem task "id") as [id|]; [|done].
  destruct (py_getitem task "title") as [title|]; [|done].
  destruct (py_getitem task "status") as [status|]; [|done].
  destruct (py_contains "dueDateTime" task) as [[|]|]; [| |done].
  - destruct (py_getitem task "dueDateTime") as [due|]; [|done].
    destruct (py_getitem due "dateTime") as [date_time|]; [|done].
    destruct (py_slice_to 10 date_time) as [day|]; [|done].
    destruct (py_contains "body" task) as [[|]|]; [| |done].
    + destruct (py_getitem task "body") as [body|]; [|done].
      destruct (py_getitem body "content") as [content|]; [|done].
      destruct (py_truthy content); intros [= <-]; by eexists _, title, id, status.
    + intros [= <-]. by eexists _, title, id, status.
  - destruct (py_contains "body" task) as [[|]|]; [| |done].
    + destruct (py_getitem task "body") as [body|]; [|done].
      destruct (py_getitem body "content") as [content|]; [|done].
      destruct (py_truthy content); intros [= <-]; by eexists _, title, id, status.
    + intros [= <-]. by eexists _, title, id, status.
Qed.

Lemma short_task_shape task data :
  improved_mcp_server.short_task task = Ok data ->
  exists shown title id status,
    data = JObj shown /\
    dict_lookup "title" shown = Some title /\
    dict_lookup "id" shown = Some id /\
    dict_lookup "status" shown = Some status.
Proof.
  unfold improved_mcp_server.short_task.
  cbv [mbind outcome_bind mret outcome_ret].
  destruct (py_getitem task "id") as [id|]; [|done].
  destruct (py_getitem task "title") as [title|]; [|done].
  destruct (py_getitem task "status") as [status|]; [|done].
  intros [= <-]. by eexists _, title, id, status.
Qed.

(** A reply is an error with a text, or the success of a task that has a
    title and an id. *)
Lemma task_reply_shape (lib : string -> St todo_state json) (format : json -> outcome json)
    failure s reply s' :
  (forall task data, format task = Ok data ->
     exists shown title id status,
       data = JObj shown /\ dict_lookup "title" shown = Some title /\
       dict_lookup "id" shown = Some id /\ dict_lookup "status" shown = Some status) ->
  improved_mcp_server.with_token N (fun access_token =>
    task ← lib access_token;
    if negb (py_truthy task) then mret (JObj [("error", JStr failure)])
    else data ← st_lift (format task); mret (improved_mcp_server.succeeded data)) s
    = (Ok reply, s') ->
  (exists text, reply = JObj [("error", JStr text)]) \/
  (exists shown title id status,
     reply = improved_mcp_server.succeeded (JObj shown) /\
     dict_lookup "title" shown = Some title /\ dict_lookup "id" shown = Some id /\
     dict_lookup "status" shown = Some status).
Proof.
  intros Hformat H. apply with_token_ok in H as [->|(token & s1 & H)]; [left; by eexists|].
  apply st_bind_ok in H as (task & s2 & _ & H).
  destruct (negb (py_truthy task)); [injection H as <- _; left; by eexists|].
  apply st_bind_ok in H as (data & s3 & Hdata & H). injection H as <- _.
  unfold st_lift in Hdata. injection Hdata as Hdata _.
  apply Hformat in Hdata as (shown & title & id & status & -> & ?). right.
  by exists shown, title, id, status.
Qed.

Lemma collect_ok {A B} (f : A -> outcome B) l ys :
  collect f l = Ok ys -> forall y, In y ys -> exists x, f x = Ok y.
Proof.
  revert ys. induction l as [|x l IH]; intros ys; simpl; [by intros [= <-]|].
  destruct (f x) as [y0|] eqn:Hx; [|done].
  destruct (collect f l) as [ys0|]; [|done]. intros [= <-] y [<-|Hin]; [by exists x|].
  by apply (IH ys0).
Qed.

Lemma for_loop_all_ok {A} (body : string -> A -> outcome string) l : forall output,
  (forall output x, In x l -> exists output', body output x = Ok output') ->
  exists result, for_loop body output l = Ok result.
Proof.
  induction l as [|x l IH]; intros output Hbody; simpl; [by eexists|].
  destruct (Hbody output x) as [output' ->]; [by left|].
  apply IH. intros out y Hy. apply Hbody. by right.
Qed.

Lemma in_enumerate_from {A} (l : list A) : forall i k x,
  In (k, x) (enumerate_from i l) -> In x l.
Proof.
  induction l as [|y l IH]; intros i k x; simpl; [done|].
  intros [[= _ <-]|Hin]; [by left | right; by eapply IH].
Qed.

Lemma on_error_none prefix d otherwise w :
  dict_lookup "error" d = None ->
  on_error E prefix (JObj d) otherwise w = otherwise w.
Proof.
  intros H. cbv [on_error mbind M_bind lift py_contains mret M_ret].
  rewrite H. by rewrite bool_decide_eq_false_2 by by intros [? ?].
Qed.

Lemma format_list_shape task_list data :
  improved_mcp_server.format_list task_list = Ok data ->
  exists id name shared rest,
    data = JObj (("id", id) :: ("name", name) :: ("isShared", shared) :: rest).
Proof.
  unfold improved_mcp_server.format_list. cbv [mbind outcome_bind mret outcome_ret].
  destruct (py_getitem task_list "id") as [id|]; [|done].
  destruct (py_getitem task_list "displayName") as [name|]; [|done].
  destruct (py_getitem task_list "isShared") as [shared|]; [|done].
  destruct (py_getitem task_list "isOwner") as [owner|]; [|done].
  destruct (py_contains "wellknownListName" task_list) as [[|]|]; [| |done].
  - destruct (py_getitem task_list "wellknownListName"); [|done].
    intros [= <-]. by eexists _, _, _, _.
  - intros [= <-]. by eexists _, _, _, _.
Qed.

Lemma list_tasks_entry_ok output i fields title id status :
  dict_lookup "title" fields = Some title ->
  dict_lookup "id" fields = Some id ->
  dict_lookup "status" fields = Some status ->
  (forall d, dict_lookup "description" fields = Some d -> exists text, d = JStr text) ->
  exists output', list_tasks_entry E output (i, JObj fields) = Ok output'.
Proof.
  intros Htitle Hid Hstatus Hdesc.
  cbv [list_tasks_entry due_info mbind outcome_bind mret outcome_ret py_getitem py_get].
  rewrite Hstatus, Htitle, Hid.
  destruct (dict_lookup "dueDate" fields) as [due|];
    destruct (dict_lookup "description" fields) as [d|] eqn:Hd.
  - destruct (Hdesc d eq_refl) as [text ->].
    destruct (py_truthy due), (py_truthy (JStr text)); by eexists.
  - destruct (py_truthy due); by eexists.
  - destruct (Hdesc d eq_refl) as [text ->].
    destruct (py_truthy (JStr text)); cbn [py_truthy]; by eexists.
  - by eexists.
Qed.

(** X20.  Whatever the To Do server answers, the agent can read.  For
    every call of the agent, a reply the function it reaches returns is turned
    into a text by the adapter, without an exception: the keys the adapter
    looks up are the keys the server writes.  For the list of tasks this needs
    the descriptions to be strings, as the adapter cuts them to fifty
    characters. *)
Theorem todo_replies_are_readable c s reply s' w w' :
  served N c s = (Ok reply, s') ->
  descriptions_are_text reply ->
  call_mcp_tool E Todo (todo_request c).1 (todo_request c).2 w = (Ok reply, w') ->
  exists text, run_todo_call E c w = (Ok text, w').
Proof.
  intros Hserved Htext Hcall.
  assert (forall d err, reply = JObj d -> dict_lookup "error" d = Some err ->
            exists text, run_todo_call E c w = (Ok text, w')) as Herror.
  { intros d err -> Herr. eexists. by eapply (todo_adapter_error E). }
  assert (reply = improved_mcp_server.authentication_failed ->
          exists text, run_todo_call E c w = (Ok text, w')) as Hauth.
  { intros ->. by eapply Herror. }
  destruct c as [|name|list_id|list_id|list_id title description due_date
                |list_id task_id title description due_date status
                |list_id task_id|list_id task_id|list_id task_id];
    simpl in Hserved, Hcall |- *.
  - (* list_task_lists *)
    apply with_token_ok in Hserved as [->|(token & s1 & H)]; [by apply Hauth|].
    apply st_bind_ok in H as (task_lists & s2 & _ & H).
    apply st_bind_ok in H as (items & s3 & _ & H).
    apply st_bind_ok in H as (formatted & s4 & Hformatted & H). injection H as <- _.
    unfold st_lift in Hformatted. injection Hformatted as Hformatted _.
    unfold list_task_lists. rewrite bind_run, Hcall, on_error_none by done.
    cbv [mbind M_bind lift py_get mret M_ret]. cbn [dict_lookup String.eqb Ascii.eqb Bool.eqb].
    destruct formatted as [|first more]; [by eexists|].
    cbn [py_truthy negb py_len py_iter].
    destruct (for_loop_all_ok (list_task_lists_entry E) (enumerate_from 1 (first :: more))
                ("Found " +:+ pretty (length (first :: more)) +:+ " task lists:" +:+ LF))
      as [result ->]; [|by eexists].
    intros output [i y] Hin. apply in_enumerate_from in Hin.
    destruct (collect_ok _ _ _ Hformatted y Hin) as [x Hx].
    apply format_list_shape in Hx as (id & name' & shared & rest & ->).
    cbv [list_task_lists_entry mbind outcome_bind mret outcome_ret py_get py_getitem].
    cbn [dict_lookup String.eqb Ascii.eqb Bool.eqb]. by eexists.
  - (* create_task_list *)
    apply with_token_ok in Hserved as [->|(token & s1 & H)]; [by apply Hauth|].
    apply st_bind_ok in H as (new_list & s2 & _ & H).
    destruct (negb (py_truthy new_list)); [injection H as <- _; by eapply Herror|].
    apply st_bind_ok in H as (id & s3 & _ & H).
    apply st_bind_ok in H as (display_name & s4 & _ & H). injection H as <- _.
    unfold create_task_list. rewrite bind_run, Hcall, on_error_none by done.
    by eexists.
  - (* delete_task_list *)
    apply with_token_ok in Hserved as [->|(token & s1 & H)]; [by apply Hauth|].
    apply st_bind_ok in H as (ok & s2 & _ & H).
    destruct (negb ok); injection H as <- _; [by eapply Herror|].
    unfold delete_task_list. rewrite bind_run, Hcall, on_error_none by done.
    by eexists.
  - (* list_tasks *)
    apply with_token_ok in Hserved as [->|(token & s1 & H)]; [by apply Hauth|].
    apply st_bind_ok in H as (tasks & s2 & _ & H).
    apply st_bind_ok in H as (items & s3 & _ & H).
    apply st_bind_ok in H as (formatted & s4 & Hformatted & H). injection H as <- _.
    unfold st_lift in Hformatted. injection Hformatted as Hformatted _.
    unfold list_tasks. rewrite bind_run, Hcall, on_error_none by done.
    cbv [mbind M_bind lift py_get mret M_ret]. cbn [dict_lookup String.eqb Ascii.eqb Bool.eqb].
    destruct formatted as [|first more]; [by eexists|].
    cbn [py_truthy negb py_len py_iter].
    destruct (for_loop_all_ok (list_tasks_entry E) (enumerate_from 1 (first :: more))
                ("Found " +:+ pretty (length (first :: more)) +:+ " tasks:" +:+ LF))
      as [result ->]; [|by eexists].
    intros output [i y] Hin. apply in_enumerate_from in Hin.
    destruct (collect_ok _ _ _ Hformatted y Hin) as [x Hx].
    apply task_data_shape in Hx as (shown & title & id & status & -> & Ht & Hi & Hst).
    apply (list_tasks_entry_ok output i shown title id status Ht Hi Hst).
    intros d Hd. by apply (Htext (first :: more) shown d).
  - (* create_task *)
    apply (task_reply_shape _ _ _ _ _ _ task_data_shape) in Hserved
      as [[text ->]|(shown & title' & id & status & -> & Ht & Hi & _)]; [by eapply Herror|].
    unfold create_task. rewrite bind_run, Hcall.
    unfold improved_mcp_server.succeeded. rewrite on_error_none by done.
    cbv [mbind M_bind lift mret M_ret success py_get outcome_bind outcome_ret py_getitem
         due_info title_and_id].
    cbn [dict_lookup String.eqb Ascii.eqb Bool.eqb py_truthy]. rewrite Ht, Hi.
    destruct (dict_lookup "dueDate" shown) as [due|]; [destruct (py_truthy due)|];
      by eexists.
  - (* update_task *)
    apply (task_reply_shape _ _ _ _ _ _ task_data_shape) in Hserved
      as [[text ->]|(shown & title' & id & status' & -> & Ht & Hi & _)]; [by eapply Herror|].
    unfold update_task. rewrite bind_run, Hcall.
    unfold improved_mcp_server.succeeded. rewrite on_error_none by done.
    cbv [mbind M_bind lift mret M_ret success py_get outcome_bind outcome_ret py_getitem
         title_and_id].
    cbn [dict_lookup String.eqb Ascii.eqb Bool.eqb py_truthy]. rewrite Ht, Hi. by eexists.
  - (* complete_task *)
    apply (task_reply_shape _ _ _ _ _ _ short_task_shape) in Hserved
      as [[text ->]|(shown & title' & id & status' & -> & Ht & Hi & _)]; [by eapply Herror|].
    unfold complete_task. rewrite bind_run, Hcall.
    unfold improved_mcp_server.succeeded. rewrite on_error_none by done.
    cbv [mbind M_bind lift mret M_ret success py_get outcome_bind outcome_ret py_getitem
         title_and_id].
    cbn [dict_lookup String.eqb Ascii.eqb Bool.eqb py_truthy]. rewrite Ht, Hi. by eexists.
  - (* uncomplete_task *)
    apply (task_reply_shape _ _ _ _ _ _ short_task_shape) in Hserved
      as [[text ->]|(shown & title' & id & status' & -> & Ht & Hi & _)]; [by eapply Herror|].
    unfold uncomplete_task. rewrite bind_run, Hcall.
    unfold improved_mcp_server.succeeded. rewrite on_error_none by done.
    cbv [mbind M_bind lift mret M_ret success py_get outcome_bind outcome_ret py_getitem
         title_and_id].
    cbn [dict_lookup String.eqb Ascii.eqb Bool.eqb py_truthy]. rewrite Ht, Hi. by eexists.
  - (* delete_task *)
    apply with_token_ok in Hserved as [->|(token & s1 & H)]; [by apply Hauth|].
    apply st_bind_ok in H as (ok & s2 & _ & H).
    destruct (negb ok); injection H as <- _; [by eapply Herror|].
    unfold delete_task. rewrite bind_run, Hcall, on_error_none by done.
    by eexists.
Qed.

End TodoServer.

(** * Properties of the Gmail server *)

Section GmailServer.

Context (E : environment) (G : google).
Implicit Types (s : gmail_state).

(** The service, the requests and the replies of the tools. *)

Lemma asked_nil s : asked [] s = s.
Proof. destruct s. unfold asked. simpl. by rewrite app_nil_r. Qed.

Lemma asked_asked rs rs' s : asked rs' (asked rs s) = asked (rs ++ rs') s.
Proof. unfold asked. simpl. by rewrite fmap_app, app_assoc. Qed.

Lemma tries_ret {A} (P : A -> Prop) x : P x -> tries P (mret x).
Proof. intros Hx s. split; [exists []; by rewrite asked_nil | done]. Qed.

Lemma tries_lift {A} (P : A -> Prop) (o : outcome A) :
  calm o -> (forall x, o = Ok x -> P x) -> tries P (st_lift o).
Proof.
  intros Hcalm Hx s. split; [exists []; by rewrite asked_nil|]. simpl.
  destruct o as [x|[cls msg|]]; [by apply Hx | done | by destruct Hcalm].
Qed.

Lemma tries_api r : tries (fun _ => True) (gmail_lib.api G r).
Proof.
  intros s. unfold gmail_lib.api.
  destruct (execute G (api_log s) r) as [v|cls msg]; (split; [by exists [r]|done]).
Qed.

Lemma tries_bind {A B} (P : A -> Prop) (Q : B -> Prop) (m : St gmail_state A)
    (f : A -> St gmail_state B) :
  tries P m -> (forall x, P x -> tries Q (f x)) -> tries Q (m ≫= f).
Proof.
  intros Hm Hf s. rewrite st_bind_run. destruct (Hm s) as [[rs Hs] Hx].
  destruct (m s) as [[x|[cls msg|]] s1]; simpl in *; subst s1.
  - destruct (Hf x Hx (asked rs s)) as [[rs' Hs'] Hy]. split; [|done].
    exists (rs ++ rs'). by rewrite Hs', asked_asked.
  - split; [by exists rs | done].
  - done.
Qed.

Lemma tries_weaken {A} (P Q : A -> Prop) (m : St gmail_state A) :
  (forall x, P x -> Q x) -> tries P m -> tries Q m.
Proof.
  intros HPQ Hm s. destruct (Hm s) as [Hs Hx]. split; [done|].
  destruct (m s).1 as [x|[cls msg|]]; [by apply HPQ | done | done].
Qed.

Lemma always_tries {A} (P : A -> Prop) (m : St gmail_state A) : always P m -> tries P m.
Proof. intros Hm s. destruct (Hm s) as (x & rs & -> & Hx). split; [by exists rs | done]. Qed.

(** [try: body except Exception: return v] always returns. *)
Lemma always_try {A} (P : A -> Prop) (body : St gmail_state A) (handler : string -> A) :
  tries P body -> (forall msg, P (handler msg)) ->
  always P (st_try body (fun _ msg => mret (handler msg))).
Proof.
  intros Hbody Hv s. unfold st_try. destruct (Hbody s) as [[rs Hs] Hx].
  destruct (body s) as [[x|[cls msg|]] s1]; simpl in *; subst s1.
  - by exists x, rs.
  - by exists (handler msg), rs.
  - done.
Qed.

Lemma tries_collect {A B} (P : B -> Prop) (f : A -> St gmail_state B) l :
  (forall x, tries P (f x)) -> tries (Forall P) (st_collect f l).
Proof.
  intros Hf. induction l as [|x l IH]; simpl.
  - by apply tries_ret.
  - eapply tries_bind; [apply Hf|]. intros y Hy.
    eapply tries_bind; [apply IH|]. intros ys Hys. apply tries_ret. by constructor.
Qed.

(** *** The computations raise no interrupt *)

Lemma calm_raised {A} (r : fallible A) : calm (raised r).
Proof. by destruct r. Qed.

Lemma calm_py_getitem v k : calm (py_getitem v k).
Proof. destruct v; simpl; try done. by destruct (dict_lookup k d). Qed.

Lemma calm_py_get v k d : calm (py_get v k d).
Proof. by destruct v. Qed.

Lemma calm_py_iter v : calm (py_iter v).
Proof. by destruct v. Qed.

Lemma calm_py_contains k v : calm (py_contains k v).
Proof. by destruct v. Qed.

Lemma calm_py_startswith v p : calm (py_startswith v p).
Proof. by destruct v. Qed.

Lemma calm_py_replace v old new : calm (py_replace v old new).
Proof. by destruct v. Qed.

Ltac py_calm :=
  intros;
  repeat match goal with
         | |- calm (Ok _) => apply calm_ok
         | |- calm (mret _) => apply calm_ok
         | |- calm (Raise (Exception _ _)) => apply calm_exception
         | |- calm (raised _) => apply calm_raised
         | |- calm (py_getitem _ _) => apply calm_py_getitem
         | |- calm (py_get _ _ _) => apply calm_py_get
         | |- calm (py_iter _) => apply calm_py_iter
         | |- calm (py_contains _ _) => apply calm_py_contains
         | |- calm (py_startswith _ _) => apply calm_py_startswith
         | |- calm (py_replace _ _ _) => apply calm_py_replace
         | |- calm (mbind _ _) => apply calm_bind; [|intros]
         | |- calm (if ?b then _ else _) => destruct b
         | |- calm (match ?x with _ => _ end) => destruct x
         end.

Lemma calm_collect {A B} (f : A -> outcome B) l : (forall x, calm (f x)) -> calm (collect f l).
Proof.
  intros Hf. induction l as [|x l IH]; simpl; [done|].
  specialize (Hf x). destruct (f x) as [y|e]; [|intros [= ->]; by apply Hf].
  destruct (collect f l) as [ys|e]; [done|]. intros [= ->]. by apply IH.
Qed.

Lemma calm_header_dict items : forall headers, calm (header_dict items headers).
Proof.
  induction items as [|h items IH]; intros headers; simpl; [done|].
  apply calm_bind; [py_calm|]. intros name. apply calm_bind; [py_calm|]. intros value.
  destruct name; try apply IH; done.
Qed.

Lemma calm_headers_of message : calm (gmail_lib.headers_of message).
Proof. unfold gmail_lib.headers_of. py_calm. apply calm_header_dict. Qed.

Lemma calm_first_plain_text parts : calm (gmail_lib.first_plain_text G parts).
Proof. induction parts as [|part parts IH]; simpl; [done|]. py_calm; apply IH. Qed.

Lemma calm_plain_body payload : calm (gmail_lib.plain_body G payload).
Proof. unfold gmail_lib.plain_body. py_calm. apply calm_first_plain_text. Qed.

Lemma calm_reply_text headers reply_body : calm (gmail_lib.reply_text E headers reply_body).
Proof. unfold gmail_lib.reply_text. py_calm. Qed.

Lemma calm_label_entry label : calm (gmail_lib.label_entry label).
Proof. unfold gmail_lib.label_entry. py_calm. Qed.

(** *** The library *)

Lemma tries_message_summary message :
  tries is_summary (gmail_lib.message_summary G message).
Proof.
  unfold gmail_lib.message_summary.
  do 7 (apply (tries_bind (fun _ => True));
        [first [apply tries_api
               | apply tries_lift; [py_calm; apply calm_headers_of | done]]
        | intros ? _]).
  apply tries_ret. by repeat eexists.
Qed.

Lemma always_list_messages query max_results label_ids :
  always (fun v => exists l, v = JList l /\ Forall is_summary l)
    (gmail_lib.list_messages G query max_results label_ids).
Proof.
  unfold gmail_lib.list_messages.
  apply (always_try _ _ (fun _ => JList [])); [|intros _; by exists []].
  apply (tries_bind (fun _ => True)); [apply tries_api | intros result _].
  apply (tries_bind (fun _ => True)); [apply tries_lift; [py_calm | done] | intros messages _].
  apply (tries_bind (fun _ => True)); [apply tries_lift; [py_calm | done] | intros items _].
  apply (tries_bind (Forall is_summary));
    [apply tries_collect, tries_message_summary | intros l Hl].
  apply tries_ret. by exists l.
Qed.

Lemma always_get_message message_id :
  always (fun v => v = JNull \/ is_extract v) (gmail_lib.get_message G message_id).
Proof.
  unfold gmail_lib.get_message.
  apply (always_try _ _ (fun _ => JNull)); [|intros _; by left].
  apply (tries_bind (fun _ => True)); [apply tries_api | intros message _].
  do 7 (apply (tries_bind (fun _ => True));
        [apply tries_lift; [py_calm; first [apply calm_headers_of | apply calm_plain_body] | done]
        | intros ? _]).
  apply tries_ret. right. by repeat eexists.
Qed.

Lemma always_send_message to subject body cc bcc :
  always (fun _ => True) (gmail_lib.send_message G to subject body cc bcc).
Proof.
  unfold gmail_lib.send_message.
  apply (always_try _ _ (fun _ => JNull)); [apply tries_api | done].
Qed.

Lemma always_reply_to_message message_id reply_body :
  always (fun _ => True) (gmail_lib.reply_to_message E G message_id reply_body).
Proof.
  unfold gmail_lib.reply_to_message.
  apply (always_try _ _ (fun _ => JNull)); [|done].
  apply (tries_bind (fun _ => True)); [apply tries_api | intros original _].
  apply (tries_bind (fun _ => True));
    [apply tries_lift; [apply calm_headers_of | done] | intros headers _].
  apply (tries_bind (fun _ => True));
    [apply tries_lift; [apply calm_reply_text | done] | intros text _].
  apply (tries_bind (fun _ => True));
    [apply tries_lift; [py_calm | done] | intros thread_id _].
  apply tries_api.
Qed.

Lemma collect_forall {A B} (P : B -> Prop) (f : A -> outcome B) l ys :
  (forall x y, f x = Ok y -> P y) -> collect f l = Ok ys -> Forall P ys.
Proof.
  intros Hf. revert ys. induction l as [|x l IH]; intros ys; simpl; [by intros [= <-]|].
  destruct (f x) as [y|] eqn:Hx; [|done].
  destruct (collect f l) as [ys0|]; [|done]. intros [= <-]. constructor; [by eapply Hf | by apply IH].
Qed.

Lemma label_entry_shape label entry :
  gmail_lib.label_entry label = Ok entry -> is_label entry.
Proof.
  unfold gmail_lib.label_entry. cbv [mbind outcome_bind mret outcome_ret].
  destruct (py_getitem label "id") as [id|]; [|done].
  destruct (py_getitem label "name") as [name|]; [|done].
  destruct (py_getitem label "type") as [type|]; [|done].
  intros [= <-]. by exists id, name, type.
Qed.

Lemma always_get_labels :
  always (fun v => exists l, v = JList l /\ Forall is_label l) (gmail_lib.get_labels G).
Proof.
  unfold gmail_lib.get_labels.
  apply (always_try _ _ (fun _ => JList [])); [|intros _; by exists []].
  apply (tries_bind (fun _ => True)); [apply tries_api | intros result _].
  apply (tries_bind (fun _ => True)); [apply tries_lift; [py_calm | done] | intros labels _].
  apply (tries_bind (fun _ => True)); [apply tries_lift; [py_calm | done] | intros items _].
  apply (tries_bind (Forall is_label)).
  - apply tries_lift; [apply calm_collect, calm_label_entry|].
    intros entries. apply collect_forall. apply label_entry_shape.
  - intros entries Hentries. apply tries_ret. by exists entries.
Qed.

Lemma always_modify message_id body :
  always (fun _ => True)
    (st_try (gmail_lib.api G (MessagesModify message_id body)) (fun _ _ => mret JNull)).
Proof. apply (always_try _ _ (fun _ => JNull)); [apply tries_api | done]. Qed.

(** *** The server *)

Lemma calm_has_wanted_data wanted part :
  (forall mime, calm (wanted mime)) -> calm (gmail_mcp_server.has_wanted_data wanted part).
Proof.
  intros Hwanted. unfold gmail_mcp_server.has_wanted_data, gmail_mcp_server.body_data.
  apply calm_bind; [py_calm|]. intros mime. apply calm_bind; [apply Hwanted|]. py_calm.
Qed.

Lemma calm_pass wanted nested parts :
  (forall mime, calm (wanted mime)) -> (forall part, calm (nested part)) ->
  calm (gmail_mcp_server.pass G wanted nested parts).
Proof.
  intros Hwanted Hnested. induction parts as [|part parts IH]; simpl; [done|].
  apply calm_bind; [by apply calm_has_wanted_data|]. intros [].
  - unfold gmail_mcp_server.decoded_body. py_calm.
  - unfold gmail_mcp_server.is_multipart. apply calm_bind; [py_calm|]. intros []; [|exact IH].
    apply calm_bind; [apply Hnested|]. intros nested_body. destruct (negb _); [done | exact IH].
Qed.

Lemma calm_extract depth : forall payload preferred_mime_type,
  calm (gmail_mcp_server._extract_body_from_payload G depth payload preferred_mime_type).
Proof.
  induction depth as [|depth IH]; intros payload preferred_mime_type; simpl; [done|].
  apply calm_bind; [py_calm|]. intros [].
  - apply calm_bind; [py_calm|]. intros parts. apply calm_bind; [py_calm|]. intros items.
    apply calm_bind; [apply calm_pass; [done | intros; apply IH]|]. intros [text|]; [done|].
    apply calm_bind.
    { destruct (negb _); [|done]. apply calm_pass; [done | intros; apply IH]. }
    intros [text|]; [done|].
    apply calm_bind; [|by intros [text|]].
    apply calm_pass; [py_calm|]. intros part. unfold gmail_mcp_server.with_own_type.
    apply calm_bind; [py_calm|]. intros mime. destruct mime; first [done | apply IH].
  - unfold gmail_mcp_server.body_data, gmail_mcp_server.decoded_body. py_calm.
Qed.

Lemma calm_format_message_summary message_data :
  calm (gmail_mcp_server._format_message_summary message_data).
Proof. unfold gmail_mcp_server._format_message_summary. py_calm. Qed.

Lemma calm_attachment part : calm (gmail_mcp_server.attachment part).
Proof. unfold gmail_mcp_server.attachment. py_calm. Qed.

Lemma calm_format_message_detail message_data :
  calm (gmail_mcp_server._format_message_detail G message_data).
Proof.
  unfold gmail_mcp_server._format_message_detail.
  apply calm_bind; [py_calm|]. intros payload. apply calm_bind; [py_calm|]. intros headers_list.
  apply calm_bind; [py_calm|]. intros items. apply calm_bind; [apply calm_header_dict|].
  intros headers_dict. apply calm_bind; [apply calm_extract|]. intros body_html.
  apply calm_bind; [apply calm_extract|]. intros body_plain.
  apply calm_bind; [py_calm|]. intros has_parts. apply calm_bind; [|py_calm].
  destruct has_parts; [|done]. py_calm. apply calm_collect, calm_attachment.
Qed.

Lemma calm_message_list messages_raw library_error :
  calm (gmail_mcp_server.message_list messages_raw library_error).
Proof.
  unfold gmail_mcp_server.message_list. destruct (gmail_mcp_server.is_none _); [done|].
  py_calm. apply calm_collect, calm_format_message_summary.
Qed.

Lemma calm_if_done result key failure :
  calm (gmail_mcp_server.if_done result (gmail_mcp_server.done_reply key) failure).
Proof. unfold gmail_mcp_server.if_done, gmail_mcp_server.done_reply. py_calm. Qed.

Lemma message_list_dict messages_raw library_error reply :
  gmail_mcp_server.message_list messages_raw library_error = Ok reply -> is_dict reply.
Proof.
  unfold gmail_mcp_server.message_list. destruct (gmail_mcp_server.is_none _).
  - intros [= <-]. by eexists.
  - cbv [mbind outcome_bind mret outcome_ret].
    destruct (py_iter messages_raw) as [items|]; [|done].
    destruct (collect _ items) as [formatted|]; [|done]. intros [= <-]. by eexists.
Qed.

Lemma if_done_dict result key failure reply :
  gmail_mcp_server.if_done result (gmail_mcp_server.done_reply key) failure = Ok reply ->
  is_dict reply.
Proof.
  unfold gmail_mcp_server.if_done, gmail_mcp_server.done_reply.
  cbv [mbind outcome_bind mret outcome_ret].
  destruct (if py_truthy result then py_contains "id" result else Ok false) as [[]|]; [| |done].
  - destruct (py_getitem result "id") as [id|]; [|done].
    destruct (py_get result key JNull) as [v|]; [|done]. intros [= <-]. by eexists.
  - intros [= <-]. by eexists.
Qed.

(** The body of a tool, under its [try], answers with a dictionary. *)
Lemma always_acting_body (lib : St gmail_state json) key failure :
  always (fun _ => True) lib ->
  always is_dict
    (st_try
       (result ← lib;
        st_lift (gmail_mcp_server.if_done result (gmail_mcp_server.done_reply key) failure))
       (fun _ msg => mret (gmail_mcp_server.failed ("An unexpected error occurred: " +:+ msg)))).
Proof.
  intros Hlib.
  apply (always_try _ _ (fun msg => gmail_mcp_server.failed _)); [|intros; by eexists].
  apply (tries_bind (fun _ => True)); [by apply always_tries | intros result _].
  apply tries_lift; [apply calm_if_done | apply if_done_dict].
Qed.

Lemma always_tools name bind args tool :
  lookup_tool name (gmail_mcp_server.tools E G) = Some bind ->
  bind args = Ok tool ->
  exists body, tool = gmail_mcp_server.with_service G body /\ always is_dict body.
Proof.
  unfold gmail_mcp_server.tools. simpl. intros Hbind Hargs.
  repeat (destruct (String.eqb name _) eqn:Hn in Hbind;
          [apply String.eqb_eq in Hn; subst name; injection Hbind as <-;
           cbv [mbind outcome_bind mret outcome_ret] in Hargs;
           repeat match type of Hargs with
                  | context [match ?x with _ => _ end] => destruct x; try discriminate Hargs
                  end;
           injection Hargs as <-; eexists; (split; [reflexivity|])
          |clear Hn]); try discriminate Hbind.
  all: try (apply always_acting_body;
            first [apply always_send_message | apply always_reply_to_message
                  | apply always_modify]).
  all: try (apply (always_try _ _ (fun msg => JObj [("error", JStr _)])); [|intros; by eexists]).
  all: unfold gmail_lib.search_messages;
    (eapply tries_bind;
     [apply always_tries;
      first [apply always_list_messages | apply always_get_message | apply always_get_labels]
     | intros result _]).
  - apply tries_lift; [apply calm_message_list | apply message_list_dict].
  - destruct (negb _); [apply tries_ret; by eexists|].
    apply (tries_bind (fun _ => True)).
    + apply tries_lift; [apply calm_format_message_detail | done].
    + intros formatted _. apply tries_ret. by eexists.
  - apply tries_lift; [apply calm_message_list | apply message_list_dict].
  - destruct (gmail_mcp_server.is_none _); apply tries_ret; by eexists.
Qed.

Lemma with_service_run body s :
  gmail_mcp_server.with_service G body s =
    if gmail_service s then body s
    else
      match get_gmail_service G (api_log s) with
      | Success true => body (GmailState (api_log s ++ [EvService]) true)
      | _ => (Ok gmail_mcp_server.service_unavailable,
              GmailState (api_log s ++ [EvService]) false)
      end.
Proof.
  unfold gmail_mcp_server.with_service. rewrite st_bind_run.
  unfold gmail_mcp_server._ensure_service.
  destruct (gmail_service s); [done|].
  by destruct (get_gmail_service G (api_log s)) as [[]|cls msg].
Qed.

(** X21.  Every tool of the Gmail server answers, and settles the service
    first.  A tool never raises: its reply is a dictionary.  With the service
    object in hand it is not built again, and the tool only asks the API.
    Without it the construction is run once, before anything else: if it
    yields the service the tool goes on with it and keeps it; if it raises
    (whatever the exception) or yields [None], the tool answers
    "Gmail service not available." and asks the API nothing, and the next
    call will try again. *)
Theorem gmail_tools_always_answer name bind args tool s :
  lookup_tool name (gmail_mcp_server.tools E G) = Some bind ->
  bind args = Ok tool ->
  if gmail_service s then
    exists d rs, tool s = (Ok (JObj d), GmailState (api_log s ++ (EvApi <$> rs)) true)
  else
    match get_gmail_service G (api_log s) with
    | Success true =>
        exists d rs,
          tool s = (Ok (JObj d), GmailState (api_log s ++ EvService :: (EvApi <$> rs)) true)
    | _ =>
        tool s = (Ok gmail_mcp_server.service_unavailable,
                  GmailState (api_log s ++ [EvService]) false)
    end.
Proof.
  intros Hbind Hargs.
  destruct (always_tools name bind args tool Hbind Hargs) as (body & -> & Hbody).
  rewrite with_service_run. destruct (gmail_service s) eqn:Hs.
  - destruct (Hbody s) as (reply & rs & -> & d & ->). exists d, rs.
    unfold asked. by rewrite Hs.
  - destruct (get_gmail_service G (api_log s)) as [[]|cls msg]; [|done|done].
    destruct (Hbody (GmailState (api_log s ++ [EvService]) true))
      as (reply & rs & -> & d & ->).
    exists d, rs. unfold asked. simpl. by rewrite <- app_assoc.
Qed.

(** X22.  The agent's search does not reach the server.  The agent's
    [search_messages] sends [query] and [max_results] as arguments; the
    server's tool of that name declares one parameter, [request], so the
    arguments are refused when they are bound and the library is never
    called.  The other nine calls of the agent are bound to the function of
    their name with the adapter's own arguments, an empty [cc] or [bcc] being
    left out.  When the endpoint reports the refusal as a failure of the
    call, the agent answers with the error text. *)
Theorem search_does_not_reach_the_server :
  (forall query max_results,
     exists bind,
       lookup_tool "search_messages" (gmail_mcp_server.tools E G) = Some bind /\
       bind (params_or_empty (gmail_request (SearchMessages query max_results)).2)
         = Raise (ValidationError "request: Field required")) /\
  (forall c,
     (forall query max_results, c <> SearchMessages query max_results) ->
     exists bind,
       lookup_tool (gmail_request c).1 (gmail_mcp_server.tools E G) = Some bind /\
       bind (params_or_empty (gmail_request c).2) = Ok (gmail_served E G c)) /\
  (forall query max_results w cls msg,
     connected (obj Gmail w) = true -> mcp_client (obj Gmail w) = true ->
     mcp_call_tool E Gmail (trace w) "search_messages"
       [("query", JStr query); ("max_results", JInt max_results)] = Failure cls msg ->
     (search_messages E query max_results w).1
       = Ok ("Error searching messages: Error calling MCP tool search_messages: " +:+ msg)).
Proof.
  split; [|split].
  - intros query max_results. eexists. split; reflexivity.
  - intros c Hc.
    destruct c as [query max_results|message_id|query max_results|to subject body cc bcc
                  |message_id reply_body|message_id|message_id|message_id label_id
                  |message_id label_id|];
      try (eexists; split; reflexivity).
    + by destruct (Hc query max_results).
    + eexists. split; [reflexivity|]. simpl. unfold set_if_nonempty, given.
      destruct (String.eqb cc EmptyString), (String.eqb bcc EmptyString); reflexivity.
  - intros query max_results w cls msg Hc Hm Hfail.
    unfold search_messages. rewrite bind_run, (call_mcp_tool_unfold E).
    unfold ensure_connected. cbv [mbind M_bind get_world mret M_ret]. rewrite Hc. simpl.
    rewrite (client_call_tool_run E) by done. simpl. rewrite Hfail. simpl.
    reflexivity.
Qed.

Lemma all_strs_fmap (l : list string) : all_strs (JStr <$> l) = Some l.
Proof. induction l as [|x l IH]; [done|]. rewrite fmap_cons. cbn [all_strs]. by rewrite IH. Qed.

Lemma format_message_detail_extract id thread_id subject from_addr to date body snippet
    label_ids :
  0 < recursion_depth G ->
  gmail_mcp_server._format_message_detail G
    (JObj [("id", id); ("threadId", thread_id); ("subject", subject); ("from", from_addr);
           ("to", to); ("date", date); ("body", JStr body); ("snippet", snippet);
           ("labelIds", label_ids)])
    = Ok (without_content id thread_id snippet label_ids).
Proof.
  intros Hdepth. unfold gmail_mcp_server._format_message_detail.
  destruct (recursion_depth G) as [|depth]; [lia|]. reflexivity.
Qed.

(** X23.  The server's [get_message] loses the content of the message.
    The library returns an extract of the message (subject, sender,
    recipient, date and the text of the body), but the server formats it as
    if it were the message of the API, which has a payload: the extract has
    none, so the subject, the sender, the recipient, the date and the body of
    the reply are empty, whatever the message, and only the id, the thread,
    the snippet and the labels are left.  The agent, given that reply, shows
    a message without sender, subject, date and body. *)
Theorem get_message_loses_the_content message_id s extract :
  gmail_service s = true ->
  0 < recursion_depth G ->
  (gmail_lib.get_message G message_id s).1 = Ok extract ->
  extract <> JNull ->
  exists id thread_id subject from_addr to date body snippet label_ids,
    extract = JObj [("id", id); ("threadId", thread_id); ("subject", subject);
                    ("from", from_addr); ("to", to); ("date", date); ("body", JStr body);
                    ("snippet", snippet); ("labelIds", label_ids)] /\
    (gmail_mcp_server.get_message G message_id s).1
      = Ok (JObj [("message", without_content id thread_id snippet label_ids)]) /\
    forall labels w w',
      label_ids = JList (JStr <$> labels) ->
      call_mcp_tool E Gmail "get_message" (Some [("message_id", JStr message_id)]) w
        = (Ok (JObj [("message", without_content id thread_id snippet label_ids)]), w') ->
      get_message E message_id w
        = (Ok ("📧 Message Details:" +:+ LF +:+ "From: " +:+ LF +:+ "To: " +:+ LF
               +:+ "Subject: " +:+ LF +:+ "Date: " +:+ LF
               +:+ "Labels: " +:+ String.concat ", " labels +:+ LF), w').
Proof.
  intros Hs Hdepth Hlib Hsome.
  destruct (always_get_message message_id s) as (v & rs & Hrun & Hv).
  rewrite Hrun in Hlib. injection Hlib as ->.
  destruct Hv as [->|(id & thread_id & subject & from_addr & to & date & body & snippet
                      & label_ids & ->)]; [done|].
  exists id, thread_id, subject, from_addr, to, date, body, snippet, label_ids.
  split; [done|]. split.
  - unfold gmail_mcp_server.get_message. rewrite with_service_run, Hs.
    unfold st_try. rewrite st_bind_run, Hrun. cbn [py_truthy negb].
    rewrite st_bind_run. unfold st_lift.
    by rewrite format_message_detail_extract.
  - intros labels w w' -> Hcall. unfold get_message. rewrite bind_run, Hcall.
    rewrite (on_error_none E) by done.
    cbv [mbind M_bind lift py_get mret M_ret without_content].
    cbn [dict_lookup String.eqb Ascii.eqb Bool.eqb py_truthy negb].
    unfold get_message_render.
    cbv [mbind outcome_bind mret outcome_ret py_get py_join py_iter].
    cbn [dict_lookup String.eqb Ascii.eqb Bool.eqb py_truthy negb].
    rewrite all_strs_fmap. cbn [py_str]. by rewrite !append_assoc.
Qed.

Lemma with_service_ok body s reply s' :
  gmail_mcp_server.with_service G body s = (Ok reply, s') ->
  reply = gmail_mcp_server.service_unavailable \/ exists s1, body s1 = (Ok reply, s').
Proof.
  rewrite with_service_run. destruct (gmail_service s); [by eauto|].
  destruct (get_gmail_service G (api_log s)) as [[]|cls msg];
    [by eauto | intros [= <- _]; by left | intros [= <- _]; by left].
Qed.

(** X24.  The totals of a label are never sent.  The reply of the server's
    [list_labels] is either "Gmail service not available." or a list of
    labels, each with exactly the three fields the library copies: id, name
    and type.  The agent looks for [messagesTotal] and [messagesUnread] as
    well; they are never there, so every label is shown with
    "Total: 0 | Unread: 0". *)
Theorem label_totals_are_never_sent s reply s' :
  gmail_mcp_server.list_labels G s = (Ok reply, s') ->
  reply = gmail_mcp_server.service_unavailable \/
  exists labels,
    reply = JObj [("labels", JList labels)] /\
    Forall is_label labels /\
    forall label output,
      In label labels ->
      exists id name type,
        label = JObj [("id", id); ("name", name); ("type", type)] /\
        list_labels_entry E output label
          = Ok (output +:+ "• " +:+ py_str E name +:+ " (ID: " +:+ py_str E id +:+ ")" +:+ LF
                +:+ "  Type: " +:+ py_str E type +:+ " | Total: 0 | Unread: 0" +:+ LF +:+ LF).
Proof.
  unfold gmail_mcp_server.list_labels. intros Hrun.
  apply with_service_ok in Hrun as [->|[s1 Hrun]]; [by left|]. right.
  unfold st_try in Hrun. rewrite st_bind_run in Hrun.
  destruct (always_get_labels s1) as (v & rs & Hlib & labels & -> & Hlabels).
  rewrite Hlib in Hrun. simpl in Hrun. injection Hrun as <- _.
  exists labels. split; [done|]. split; [done|].
  intros label output Hin. rewrite List.Forall_forall in Hlabels.
  destruct (Hlabels label Hin) as (id & name & type & ->).
  exists id, name, type. split; [done|]. reflexivity.
Qed.

(** X25.  A failure of the API looks like an empty mailbox.  When the
    request for the list of messages fails, whatever the exception, the
    library returns an empty list, the server answers with no messages and no
    error, and the agent tells that no messages were found; the same holds
    for the labels. *)
Theorem api_failures_look_like_empty_mailboxes s :
  gmail_service s = true ->
  (forall query max_results cls msg,
     execute G (api_log s)
       (MessagesList [("userId", JStr "me"); ("q", JStr query);
                      ("maxResults", JInt max_results)]) = Failure cls msg ->
     (gmail_mcp_server.list_messages G query max_results None s).1
       = Ok (JObj [("messages", JList [])])) /\
  (forall cls msg,
     execute G (api_log s) LabelsList = Failure cls msg ->
     (gmail_mcp_server.list_labels G s).1 = Ok (JObj [("labels", JList [])])) /\
  (forall query max_results w w',
     call_mcp_tool E Gmail "list_messages"
       (Some [("query", JStr query); ("max_results", JInt max_results)]) w
       = (Ok (JObj [("messages", JList [])]), w') ->
     list_messages E query max_results w
       = (Ok ("No messages found" +:+ for_query query +:+ "."), w')) /\
  (forall w w',
     call_mcp_tool E Gmail "list_labels" None w = (Ok (JObj [("labels", JList [])]), w') ->
     list_labels E w = (Ok "No labels found.", w')).
Proof.
  intros Hs. split; [|split; [|split]].
  - intros query max_results cls msg Hfail.
    unfold gmail_mcp_server.list_messages. rewrite with_service_run, Hs.
    unfold st_try at 1. rewrite st_bind_run.
    unfold gmail_lib.list_messages, st_try. rewrite st_bind_run.
    unfold gmail_lib.api. by rewrite Hfail.
  - intros cls msg Hfail.
    unfold gmail_mcp_server.list_labels. rewrite with_service_run, Hs.
    unfold st_try at 1. rewrite st_bind_run.
    unfold gmail_lib.get_labels, st_try. rewrite st_bind_run.
    unfold gmail_lib.api. by rewrite Hfail.
  - intros query max_results w w' Hcall. unfold list_messages.
    rewrite bind_run, Hcall. by rewrite (on_error_none E).
  - intros w w' Hcall. unfold list_labels.
    rewrite bind_run, Hcall. by rewrite (on_error_none E).
Qed.

Lemma acting_reply (lib : St gmail_state json) key failure s reply s' :
  gmail_mcp_server.acting G lib key failure s = (Ok reply, s') ->
  (exists msg, reply = gmail_mcp_server.service_unavailable \/
               reply = gmail_mcp_server.failed msg) \/
  (exists id v, reply = JObj [("success", JBool true); ("messageId", id); (key, v)]).
Proof.
  unfold gmail_mcp_server.acting. intros Hrun.
  apply with_service_ok in Hrun as [->|[s1 Hrun]]; [left; exists EmptyString; by left|].
  unfold st_try in Hrun. rewrite st_bind_run in Hrun.
  destruct (lib s1) as [[result|[cls msg|]] s2]; [|injection Hrun as <- _; by eauto|done].
  unfold st_lift, gmail_mcp_server.if_done, gmail_mcp_server.done_reply in Hrun.
  cbv [mbind outcome_bind mret outcome_ret] in Hrun.
  destruct (if py_truthy result then py_contains "id" result else Ok false)
    as [[]|[cls msg|]]; [| |injection Hrun as <- _; by eauto|done].
  - destruct (py_getitem result "id") as [id|[cls msg|]];
      [|injection Hrun as <- _; by eauto|done].
    destruct (py_get result key JNull) as [v|[cls msg|]];
      [|injection Hrun as <- _; by eauto|done].
    injection Hrun as <- _. right. by exists id, v.
  - injection Hrun as <- _. by eauto.
Qed.

(** X26.  The adapters' last resort is never reached.  Each of the six
    adapters that act on the mailbox has a text for a reply that tells
    neither an error nor a success ("Failed to send email." and the like).
    The server's replies to these calls always tell one or the other: a
    failure is sent with the key "error", a success with [success] true.  So
    whenever the adapter returns a text, it is the error text or the text of
    the success, never the last resort. *)
Theorem fallbacks_are_never_reached c fallback s reply s' w w1 text w' :
  gmail_fallback c = Some fallback ->
  gmail_served E G c s = (Ok reply, s') ->
  call_mcp_tool E Gmail (gmail_request c).1 (gmail_request c).2 w = (Ok reply, w1) ->
  run_gmail_call E c w = (Ok text, w') ->
  text <> fallback /\
  ((exists d err, reply = JObj d /\ dict_lookup "error" d = Some err /\
                  text = gmail_error_prefix c +:+ py_str E err) \/
   (exists d, reply = JObj d /\ dict_lookup "success" d = Some (JBool true) /\
              begins_with "✅" text)).
Proof.
  intros Hfallback Hserved Hcall Htext.
  assert (forall d err, reply = JObj d -> dict_lookup "error" d = Some err ->
            text <> fallback /\
            ((exists d err, reply = JObj d /\ dict_lookup "error" d = Some err /\
                            text = gmail_error_prefix c +:+ py_str E err) \/
             (exists d, reply = JObj d /\ dict_lookup "success" d = Some (JBool true) /\
                        begins_with "✅" text))) as Herror.
  { intros d err -> Herr.
    rewrite (gmail_adapter_error E c d err w w1 Hcall Herr) in Htext.
    injection Htext as <- _. split; [|left; by eauto].
    destruct c; try discriminate Hfallback; injection Hfallback as <-; discriminate. }
  assert (begins_with "✅" text -> text <> fallback) as Hdiffer.
  { intros [rest ->].
    destruct c; try discriminate Hfallback; injection Hfallback as <-; discriminate. }
  destruct c; try discriminate Hfallback; simpl in Hserved, Hcall, Htext;
    apply acting_reply in Hserved as [(msg & [->| ->])|(id & v & ->)];
    try (by eapply Herror);
    [unfold send_message in Htext | unfold reply_to_message in Htext
    | unfold mark_message_as_read in Htext | unfold mark_message_as_unread in Htext
    | unfold add_label_to_message in Htext | unfold remove_label_from_message in Htext];
    rewrite bind_run, Hcall in Htext; rewrite (on_error_none E) in Htext by done;
    cbv [mbind M_bind lift success current_labels py_get mret M_ret
         outcome_bind outcome_ret] in Htext;
    cbn [dict_lookup String.eqb Ascii.eqb Bool.eqb py_truthy] in Htext;
    try (destruct (py_join ", " v) as [labels|]; [|done]);
    injection Htext as <- _;
    (split; [apply Hdiffer; eexists; reflexivity|]);
    right; eexists; (split; [reflexivity|]); (split; [reflexivity|]);
    eexists; reflexivity.
Qed.

End GmailServer.

(** * The properties on the concrete session *)

Import Scenario.

(** C1, as stated, fails for the Master: its run from the tools node comes to
    an answer although no call of the Master's backend follows the tools. *)
Lemma master_does_not_reason_again : ~ reasons_again env Master.
Proof.
  intros H.
  destruct (run_graph (agent_graph env Master) 1 tools_node delegating world0)
    as [[st'|e] w'] eqn:Hrun; [|vm_compute in Hrun; discriminate].
  destruct (H 1 delegating world0 st' w' Hrun) as (u & w1 & Htools & Hprefix).
  assert (trace w' = trace w1) as Heq.
  { rewrite (master_tools_end env 0 delegating world0 u w1 Htools) in Hrun. congruence. }
  apply prefix_length in Hprefix. rewrite Heq, length_app in Hprefix.
  simpl in Hprefix. lia.
Qed.

Lemma tools_lead_back_witness :
  (exists u w1,
     wf_tools (agent_graph env Master) delegating world0 = (Ok u, w1) /\
     run_graph (agent_graph env Master) 1 tools_node delegating world0
       = (Ok (apply_update delegating u), w1)) /\
  (exists u w1,
     wf_tools (agent_graph env (Sub Gmail)) listing world0 = (Ok u, w1) /\
     (trace w1 ++ [EvModel (Sub Gmail)
                     (system_message env (Sub Gmail) (apply_update listing u)
                      :: g_messages listing ++ u_messages u)])
       `prefix_of` trace (run_graph (agent_graph env (Sub Gmail)) 25 tools_node
                            listing world0).2).
Proof.
  split.
  - eexists _, _. split; [vm_compute; reflexivity|].
    apply (proj2 (tools_lead_back_to_reasoning_in_sub_agents env)).
    vm_compute; reflexivity.
  - destruct (run_graph (agent_graph env (Sub Gmail)) 25 tools_node listing world0)
      as [[st'|e] w'] eqn:Hrun; [|vm_compute in Hrun; discriminate].
    exact (proj1 (tools_lead_back_to_reasoning_in_sub_agents env) Gmail 25
             listing world0 st' w' Hrun).
Defined.

Lemma master_relays_witness :
  exists st' w',
    chat env Master request_text None world0
      = (Ok ("Done. ✅ Successfully created task 'call mom' (ID: T1)", st'), w').
Proof.
  eapply (master_relays_the_sub_agent_answer env Todo request_text None world0
            _ _ _ EmptyString
            (ToolCall "todo_agent" [("user_request", JStr request_text)] "call_m1")
            request_text).
  - reflexivity.
  - vm_compute; reflexivity.
  - vm_compute; reflexivity.
  - reflexivity.
  - reflexivity.
  - reflexivity.
  - vm_compute; reflexivity.
  - vm_compute; lia.
Defined.

Lemma tool_failures_witness :
  exists w',
    run_gmail_call env (SendMessage "a@example.com" "Hi" "Hello" EmptyString EmptyString) world0
      = (Ok "Error sending message: Error calling MCP tool send_message: connection refused",
         w').
Proof.
  eexists.
  eapply (proj1 (proj2 (proj2 (tool_failures_are_contained env)))
            (SendMessage "a@example.com" "Hi" "Hello" EmptyString EmptyString)
            [("error", JStr "Error calling MCP tool send_message: connection refused")]
            (JStr "Error calling MCP tool send_message: connection refused")).
  - vm_compute; reflexivity.
  - reflexivity.
Defined.


Lemma first_item_witness :
  (call_mcp_tool env Gmail "list_messages" None world0).1
    = Ok (JObj [("messages", JList [msg1; msg2])]).
Proof.
  edestruct (first_item_is_unwrapped env Gmail "list_messages" None world0) as [H _].
  - vm_compute; reflexivity.
  - reflexivity.
  - vm_compute; reflexivity.
  - rewrite H. vm_compute; reflexivity.
Defined.

Lemma connection_witness :
  connects Gmail (trace (call_mcp_tool env Gmail "list_labels" None world0).2) = 0 /\
  (let after := (call_mcp_tool env Gmail "list_labels" None world_offline).2 in
   trace after = [EvConnect Gmail; EvCallTool Gmail "list_labels" []] /\
   connected (obj Gmail after) = true /\
   trace (call_mcp_tool env Gmail "list_labels" None after).2
     = [EvConnect Gmail; EvCallTool Gmail "list_labels" [];
        EvCallTool Gmail "list_labels" []]).
Proof.
  split.
  - destruct (connection_is_idempotent env Gmail "list_labels" None world0) as [H _].
    destruct (H eq_refl) as (_ & _ & -> & _). reflexivity.
  - destruct (connection_is_idempotent env Gmail "list_labels" None world_offline)
      as [_ H].
    destruct (H eq_refl) as (_ & _ & w1 & _ & _ & _ & _ & _ & Htrace & Hc & _ & Hnext).
    split; [exact Htrace|]. split; [exact Hc|].
    rewrite (Hnext "list_labels" None), Htrace. reflexivity.
Defined.

Lemma list_messages_witness :
  exists output w',
    list_messages env EmptyString 10 world0 = (Ok output, w') /\
    begins_with "Found 2 messages" output /\
    length (entry_list env [msg1; msg2]) = 2.
Proof.
  edestruct (list_messages_renders_every_message env EmptyString 10 world0
               [("messages", JList [msg1; msg2])] [msg1; msg2])
    as (output & H1 & _ & H2 & H3 & _).
  - vm_compute; reflexivity.
  - reflexivity.
  - reflexivity.
  - discriminate.
  - repeat constructor.
  - exists output. eexists. split; [exact H1|]. split; [exact H2 | exact H3].
Defined.

Lemma exit_tokens_witness :
  (run_interactive env Master [Line ("  QuIt" +:+ nbsp); Line "hello"] None world0).1
    = Ok (Terminated [Line "hello"]).
Proof.
  apply (proj2 (exit_tokens_end_the_loop env Master ("  QuIt" +:+ nbsp) [Line "hello"]
                  None world0)).
  vm_compute. tauto.
Defined.

Lemma chat_appends_witness :
  exists l',
    heap (chat env Master "next" (Some held) world1).2 !! messages held = Some l' /\
    (earlier ++ [HumanMessage "next"]) `prefix_of` l'.
Proof.
  destruct (chat_appends_to_the_callers_list env Master "next" held world1 earlier)
    as [_ (l' & H1 & H2 & _)].
  - reflexivity.
  - reflexivity.
  - eauto.
Defined.

Lemma wrappers_witness :
  exists w',
    wrapper env Todo request_text world0
      = (Ok "Done. ✅ Successfully created task 'call mom' (ID: T1)", w') /\
    is_Some (_current_state (obj Todo w')).
Proof.
  destruct (sub_agent_wrappers_never_raise env Todo request_text world0)
    as (_ & _ & _ & H).
  edestruct H as (w' & H1 & H2).
  - reflexivity.
  - vm_compute; reflexivity.
  - exists w'. split; [exact H1 | by rewrite H2].
Defined.

Lemma chat_extends_witness :
  exists response st' w' round m,
    chat env Master "next" (Some held) world1 = (Ok (response, st'), w') /\
    heap w' !! messages st' = Some (earlier ++ HumanMessage "next" :: round) /\
    last round = Some m /\ content m = response.
Proof.
  eexists _, _, _.
  edestruct (chat_extends_the_history env Master "next" (Some held) world1)
    as (round & m & H1 & _ & H2 & H3).
  - vm_compute; reflexivity.
  - exists round, m. split; [vm_compute; reflexivity|]. split; [exact H1|]. by split.
Defined.

Lemma next_chat_witness :
  exists r1 st1 w1,
    chat env Master "hello" None world0 = (Ok (r1, st1), w1) /\
    exists h1,
      heap w1 !! messages st1 = Some h1 /\
      [HumanMessage "hello"] `prefix_of` h1 /\
      (trace w1 ++ [EvModel Master
                      (system_message env Master
                         (GState (h1 ++ [HumanMessage request_text]) (fields st1))
                       :: h1 ++ [HumanMessage request_text])])
        `prefix_of` trace (chat env Master request_text (Some st1) w1).2.
Proof.
  eexists _, _, _. split; [vm_compute; reflexivity|].
  eapply (next_chat_replays_the_history env Master "hello" None world0).
  - vm_compute; reflexivity.
  - reflexivity.
Defined.

Lemma sub_agent_fields_witness :
  exists response st' w',
    chat env (Sub Gmail) "show my unread emails" None world0 = (Ok (response, st'), w') /\
    fields st' = sub_initial_fields Gmail.
Proof.
  eexists _, _, _. split; [vm_compute; reflexivity|].
  eapply proj1, (sub_agent_chat_keeps_the_fields env Gmail "show my unread emails" None world0).
  vm_compute; reflexivity.
Defined.

Lemma master_context_witness :
  exists response st' w',
    chat env Master request_text None world0 = (Ok (response, st'), w') /\
    fields st' = dict_set "current_context" (JStr "Todo Agent") master_initial_fields.
Proof.
  eexists _, _, _. split; [vm_compute; reflexivity|].
  edestruct (master_context_follows_the_delegation env request_text None world0) as [H _].
  - vm_compute; reflexivity.
  - vm_compute; reflexivity.
  - vm_compute; reflexivity.
  - exact H.
Defined.

Lemma batch_witness :
  exists responses w',
    handle_batch_requests env ["hello"; request_text] world0 = (Ok responses, w') /\
    length responses = 2.
Proof.
  eexists _, _. split; [vm_compute; reflexivity|].
  edestruct (batch_is_one_conversation env ["hello"; request_text] world0) as [H _].
  - vm_compute; reflexivity.
  - exact H.
Defined.

Lemma sub_agent_start_witness :
  (exists w',
     sub_aenter env Gmail world_new = (Ok tt, w') /\
     connected (obj Gmail w') = true /\ graph (obj Gmail w') = true) /\
  (exists w',
     sub_aenter env_offline Gmail world_new
       = (Raise (RuntimeError "Failed to initialize Gmail MCP server: connection refused"), w') /\
     forall message state,
       chat env_offline (Sub Gmail) message state w'
         = (Raise (RuntimeError "Agent not properly initialized. Use async context manager."),
            w')).
Proof.
  split.
  - destruct (sub_agent_start env Gmail world_new) as (w' & _ & H); [reflexivity|].
    exists w'. exact H.
  - destruct (sub_agent_start env_offline Gmail world_new) as (w' & _ & H1 & _ & H2);
      [reflexivity|].
    exists w'. split; [exact H1|]. by apply H2.
Defined.

Lemma closed_agent_witness :
  exists w1,
    sub_aexit closing Gmail world0 = (Ok tt, w1) /\
    trace (call_mcp_tool env Gmail "list_labels" None w1).2
      = [EvDisconnect Gmail; EvConnect Gmail; EvCallTool Gmail "list_labels" []].
Proof.
  eexists. split; [vm_compute; reflexivity|].
  edestruct (closed_agent_reconnects env closing Gmail world0) as (_ & _ & _ & H).
  - reflexivity.
  - reflexivity.
  - vm_compute; reflexivity.
  - exact H.
Defined.

Lemma namesake_witness :
  exists params,
    trace (run_gmail_call env ListLabels world0).2 = [EvCallTool Gmail "list_labels" params].
Proof.
  apply (adapters_call_their_namesake env Gmail world0 "list_labels" [] eq_refl eq_refl
           (fun _ => mret ListLabels) ListLabels); reflexivity.
Defined.

Lemma optional_arguments_witness :
  exists params,
    trace (update_task env "L1" "T1" None None (Some EmptyString) None world0).2
      = [EvCallTool Todo "update_task" params] /\
    dict_lookup "title" params = None /\
    dict_lookup "due_date" params = Some (JStr EmptyString).
Proof.
  destruct (optional_arguments_on_the_wire env world0 eq_refl eq_refl eq_refl eq_refl)
    as [H _].
  destruct (H "L1" "T1" None None (Some EmptyString) None)
    as (params & H1 & _ & _ & H2 & _ & H3 & _).
  exists params. split; [exact H1|]. split; [exact H2 | exact H3].
Defined.

Lemma token_first_witness :
  exists token,
    access_token (improved_mcp_server.list_tasks graph_api "L1" todo_new).2 = Some token /\
    (net (improved_mcp_server.list_tasks graph_api "L1" todo_new).2 = [EvAuth] \/
     exists r, rq_bearer r = token /\
       net (improved_mcp_server.list_tasks graph_api "L1" todo_new).2 = [EvAuth; EvHttp r]).
Proof.
  destruct (tools_settle_the_token_first graph_api "list_tasks" _ [("list_id", JStr "L1")] _
              todo_new eq_refl eq_refl) as (token & _ & H).
  exists token. exact H.
Defined.

Lemma update_without_fields_witness :
  msgraph_todo_lib.update_task graph_api "token-1" "L1" "T1" None None None None todo_signed_in
    = (Ok JNull, todo_signed_in) /\
  exists bind tool,
    lookup_tool "update_task" (improved_mcp_server.tools graph_api) = Some bind /\
    bind [("list_id", JStr "L1"); ("task_id", JStr "T1")] = Ok tool /\
    tool todo_signed_in = (Ok (JObj [("error", JStr "Failed to update task")]), todo_signed_in).
Proof.
  destruct (update_without_fields_asks_nothing env graph_api "L1" "T1" todo_signed_in "token-1"
              eq_refl) as (H1 & H2 & _); [done|].
  split; [exact H1 | exact H2].
Defined.

Lemma update_sends_witness :
  exists data,
    net (msgraph_todo_lib.update_task graph_api "token-1" "L1" "T1" None None
           (Some EmptyString) None todo_signed_in).2
      = [EvHttp (HttpRequest PATCH "https://graph.microsoft.com/v1.0/me/todo/lists/L1/tasks/T1"
                   "token-1" (Some (JObj data)))] /\
    dict_lookup "dueDateTime" data = Some JNull /\
    dict_lookup "title" data = None.
Proof.
  destruct (update_sends_the_fields_given graph_api "token-1" "L1" "T1" todo_signed_in)
    as [H _].
  destruct (H None None (Some EmptyString) None) as (data & H1 & H2 & _ & H3 & _).
  - by intros (_ & _ & ? & _).
  - exists data. split; [exact H1|]. split; [exact H3 | exact H2].
Defined.

Lemma list_tasks_failures_witness :
  (improved_mcp_server.list_tasks graph_down "L1" todo_signed_in).1
    = Raise (TypeError "string indices must be integers, not 'str'").
Proof.
  destruct (list_tasks_failures env graph_down "L1" todo_signed_in "token-1" eq_refl)
    as [H _]; [done|].
  exact (proj2 (H "ConnectError" "All connection attempts failed" eq_refl)).
Defined.

Lemma due_date_witness :
  exists shown,
    (improved_mcp_server.create_task graph_api "L1" "call mom" "at noon" "2025-01-31"
       todo_signed_in).1 = Ok (improved_mcp_server.succeeded (JObj shown)) /\
    dict_lookup "dueDate" shown = Some (JStr "2025-01-31") /\
    (create_task env_todo "L1" "call mom" "at noon" "2025-01-31" world0).1
      = Ok "✅ Successfully created task 'call mom' (Due: 2025-01-31) (ID: T1)".
Proof.
  edestruct (due_date_round_trip env_todo graph_api "L1" "call mom" "at noon" "2025-01-31"
               todo_signed_in "token-1") as (_ & shown & H1 & H2 & H3).
  - reflexivity.
  - done.
  - reflexivity.
  - reflexivity.
  - reflexivity.
  - reflexivity.
  - reflexivity.
  - reflexivity.
  - reflexivity.
  - reflexivity.
  - simpl. by eexists.
  - exists shown. split; [exact H1|]. split; [exact H2|].
    vm_compute in H1. injection H1 as <-.
    erewrite H3; [reflexivity|]. vm_compute. reflexivity.
Defined.

Lemma todo_calls_witness :
  exists name params bind,
    trace (run_todo_call env (ListTasks "L1") world0).2 = [EvCallTool Todo name params] /\
    lookup_tool name (improved_mcp_server.tools graph_api) = Some bind /\
    bind params = Ok (improved_mcp_server.list_tasks graph_api "L1").
Proof.
  exact (todo_calls_arrive_as_sent env graph_api (ListTasks "L1") world0 eq_refl eq_refl).
Defined.

Lemma todo_replies_witness :
  exists text w', list_tasks env_todo "L1" world0 = (Ok text, w').
Proof.
  destruct (todo_replies_are_readable env_todo graph_api (ListTasks "L1") todo_signed_in
              (JObj [("tasks", JList [shown1])])
              (improved_mcp_server.list_tasks graph_api "L1" todo_signed_in).2 world0
              (call_mcp_tool env_todo Todo "list_tasks" (Some [("list_id", JStr "L1")])
                 world0).2) as [text H].
  - vm_compute. reflexivity.
  - intros tasks fields d [= <-] [[= <-]|[]] [= <-]. by eexists.
  - vm_compute. reflexivity.
  - exists text. eexists. exact H.
Defined.

Lemma gmail_answer_witness :
  (exists d rs,
     gmail_mcp_server.list_labels mailbox gmail_new
       = (Ok (JObj d), GmailState (EvService :: (EvApi <$> rs)) true)) /\
  gmail_mcp_server.get_message mailbox_locked "m1" gmail_new
    = (Ok gmail_mcp_server.service_unavailable, GmailState [EvService] false).
Proof.
  split.
  - exact (gmail_tools_always_answer env mailbox "list_labels" _ [] _ gmail_new
             eq_refl eq_refl).
  - exact (gmail_tools_always_answer env mailbox_locked "get_message" _
             [("message_id", JStr "m1")] _ gmail_new eq_refl eq_refl).
Defined.

Lemma search_witness :
  (exists bind,
     lookup_tool "search_messages" (gmail_mcp_server.tools env mailbox) = Some bind /\
     bind [("query", JStr "lunch"); ("max_results", JInt 5)]
       = Raise (ValidationError "request: Field required")) /\
  (exists bind,
     lookup_tool "get_message" (gmail_mcp_server.tools env mailbox) = Some bind /\
     bind [("message_id", JStr "m1")] = Ok (gmail_mcp_server.get_message mailbox "m1")) /\
  (search_messages env_gmail "lunch" 5 world0).1
    = Ok ("Error searching messages: Error calling MCP tool search_messages: "
          +:+ "1 validation error for call[search_messages]").
Proof.
  destruct (search_does_not_reach_the_server env_gmail mailbox) as (H1 & H2 & H3).
  split; [exact (H1 "lunch" 5%Z)|]. split.
  - apply (H2 (GetMessage "m1")). discriminate.
  - apply (H3 "lunch" 5%Z world0 "ToolError"); reflexivity.
Defined.

Lemma lost_content_witness :
  (gmail_lib.get_message mailbox "m1" gmail_ready).1
    = Ok (JObj [("id", JStr "m1"); ("threadId", JStr "t1"); ("subject", JStr "Re: Lunch");
                ("from", JStr "alice@example.com"); ("to", JStr "me@example.com");
                ("date", JStr "Mon, 1 Jan 2024"); ("body", JStr "See you at noon");
                ("snippet", JStr "See you");
                ("labelIds", JList [JStr "INBOX"; JStr "UNREAD"])]) /\
  (gmail_mcp_server.get_message mailbox "m1" gmail_ready).1
    = Ok (JObj [("message",
                 without_content (JStr "m1") (JStr "t1") (JStr "See you")
                   (JList [JStr "INBOX"; JStr "UNREAD"]))]) /\
  (get_message env_gmail "m1" world0).1
    = Ok ("📧 Message Details:" +:+ LF +:+ "From: " +:+ LF +:+ "To: " +:+ LF
          +:+ "Subject: " +:+ LF +:+ "Date: " +:+ LF +:+ "Labels: INBOX, UNREAD" +:+ LF).
Proof.
  split; [vm_compute; reflexivity|].
  destruct (get_message_loses_the_content env_gmail mailbox "m1" gmail_ready
              (JObj [("id", JStr "m1"); ("threadId", JStr "t1"); ("subject", JStr "Re: Lunch");
                     ("from", JStr "alice@example.com"); ("to", JStr "me@example.com");
                     ("date", JStr "Mon, 1 Jan 2024"); ("body", JStr "See you at noon");
                     ("snippet", JStr "See you");
                     ("labelIds", JList [JStr "INBOX"; JStr "UNREAD"])]))
    as (id & thread_id & subject & from_addr & to & date & body & snippet & label_ids
        & Hextract & Hreply & Hshown).
  - reflexivity.
  - simpl. lia.
  - vm_compute. reflexivity.
  - discriminate.
  - injection Hextract as <- <- _ _ _ _ _ <- <-.
    split; [exact Hreply|].
    by rewrite (Hshown ["INBOX"; "UNREAD"] world0
                  (call_mcp_tool env_gmail Gmail "get_message"
                     (Some [("message_id", JStr "m1")]) world0).2 eq_refl eq_refl).
Defined.

Lemma label_totals_witness :
  list_labels_entry env EmptyString
    (JObj [("id", JStr "INBOX"); ("name", JStr "INBOX"); ("type", JStr "system")])
    = Ok ("• INBOX (ID: INBOX)" +:+ LF +:+ "  Type: system | Total: 0 | Unread: 0"
          +:+ LF +:+ LF).
Proof.
  destruct (label_totals_are_never_sent env mailbox gmail_ready
              (JObj [("labels", JList [JObj [("id", JStr "INBOX"); ("name", JStr "INBOX");
                                             ("type", JStr "system")]])])
              (gmail_mcp_server.list_labels mailbox gmail_ready).2 eq_refl)
    as [Hnone|(labels & Hreply & _ & Hentry)]; [discriminate Hnone|].
  injection Hreply as <-.
  destruct (Hentry _ EmptyString (or_introl eq_refl)) as (id & name & type & Hlabel & ->).
  by injection Hlabel as <- <- <-.
Defined.

Lemma empty_mailbox_witness :
  (gmail_mcp_server.list_messages mailbox_down "is:unread" 10 None gmail_ready).1
    = Ok (JObj [("messages", JList [])]) /\
  (gmail_mcp_server.list_labels mailbox_down gmail_ready).1 = Ok (JObj [("labels", JList [])]).
Proof.
  destruct (api_failures_look_like_empty_mailboxes env mailbox_down gmail_ready eq_refl)
    as (H1 & H2 & _).
  split.
  - exact (H1 "is:unread" 10%Z "HttpError" "HttpError 503" eq_refl).
  - exact (H2 "HttpError" "HttpError 503" eq_refl).
Defined.

Lemma fallbacks_witness :
  exists text,
    (send_message env_gmail "a@example.com" "Hi" "Hello" EmptyString EmptyString world0).1
      = Ok text /\
    text <> "Failed to send email." /\ begins_with "✅" text.
Proof.
  destruct (send_message env_gmail "a@example.com" "Hi" "Hello" EmptyString EmptyString world0)
    as [[text|e] w'] eqn:Hrun; [|vm_compute in Hrun; discriminate Hrun].
  exists text. split; [reflexivity|].
  destruct (fallbacks_are_never_reached env_gmail mailbox
              (SendMessage "a@example.com" "Hi" "Hello" EmptyString EmptyString)
              "Failed to send email." gmail_ready
              (JObj [("success", JBool true); ("messageId", JStr "m2");
                     ("threadId", JStr "t1")])
              (gmail_mcp_server.send_message mailbox "a@example.com" "Hi" "Hello" None None
                 gmail_ready).2
              world0
              (call_mcp_tool env_gmail Gmail "send_message"
                 (Some [("to", JStr "a@example.com"); ("subject", JStr "Hi");
                        ("body", JStr "Hello")]) world0).2
              text w' eq_refl)
    as [Hdiffer [(d & err & Hreply & Herr & _)|(d & _ & _ & Hbegins)]].
  - vm_compute. reflexivity.
  - vm_compute. reflexivity.
  - exact Hrun.
  - injection Hreply as <-. discriminate Herr.
  - by split.
Defined.

(** ** The session, run *)

(** One delegated round: the Master's backend is asked once, the To-Do
    agent's backend twice (before and after its tool), and the endpoint once. *)
Example delegated_round :
  let w := (chat env Master request_text None world0).2 in
  model_calls Master (trace w) = 1 /\
  model_calls (Sub Todo) (trace w) = 2 /\
  trace w !! 2 = Some (EvCallTool Todo "create_task"
                         [("list_id", JStr "L1"); ("title", JStr "call mom");
                          ("description", JStr EmptyString); ("due_date", JStr EmptyString)]).
Proof. vm_compute. auto. Qed.

(** A sub-agent whose endpoint is unreachable still answers: the failure is
    told in the tool message and the backend is asked again. *)
Example unreachable_endpoint :
  let r := chat env_offline (Sub Gmail) "show my unread emails" None world_offline in
  (exists st,
     r.1 = Ok ("Error listing messages: Error calling MCP tool list_messages: "
               +:+ "Failed to initialize Gmail MCP server: connection refused", st)) /\
  model_calls (Sub Gmail) (trace r.2) = 2 /\
  connects Gmail (trace r.2) = 1.
Proof. vm_compute. eauto. Qed.

(** A reply that is valid JSON but no container makes the success message
    fail; the adapter still answers with an error text. *)
Example scalar_reply :
  (list_tasks env "L1" world0).1
    = Ok "Error listing tasks: Error calling MCP tool list_tasks: argument of type 'int' is not iterable".
Proof. vm_compute. reflexivity. Qed.

Example strip_and_lower :
  py_strip "  QuIt " = "QuIt" /\ py_lower env "QuIt" = "quit" /\
  is_exit env (py_strip "quit now") = false /\ is_exit env (py_strip " Q") = true.
Proof. vm_compute. auto. Qed.

(** Strings are counted, cut and stripped by code point: an accented letter
    counts once, and the no-break space and the em space are stripped. *)
Example strings_by_code_point :
  str_len "Réunion" = 7 /\ str_take 2 "Réunion" = "Ré" /\
  py_strip (em_space +:+ " quit" +:+ nbsp) = "quit" /\
  py_strip ("a" +:+ nbsp +:+ "b") = "a" +:+ nbsp +:+ "b".
Proof. vm_compute. auto. Qed.

(** A sender of thirty-one accented letters is cut to thirty letters, not to
    thirty bytes. *)
Example accented_sender_is_cut_by_letter :
  let sender := String.concat EmptyString (replicate 31 "é") in
  str_take 30 sender = String.concat EmptyString (replicate 30 "é") /\
  str_len (str_take 30 sender) = 30 /\ String.length (str_take 30 sender) = 60.
Proof. vm_compute. auto. Qed.

(** The loop goes on after an empty line, an input error and a chat, and
    stops at the exit word, leaving what follows unread. *)
Example a_console_session :
  (run_interactive env Master
     [Line EmptyString; InputError "EOFError" "EOF when reading a line"; Line "hello";
      Line "BYE"; Line "never read"] None world0).1
    = Ok (Terminated [Line "never read"]).
Proof. vm_compute. reflexivity. Qed.

(** The first call of a To Do server that holds no token signs in and then
    asks the endpoint once; the task comes back with its day and its text. *)
Example a_first_server_call :
  let r := improved_mcp_server.list_tasks graph_api "L1" todo_new in
  r.1 = Ok (JObj [("tasks", JList [shown1])]) /\
  net r.2 = [EvAuth;
             EvHttp (HttpRequest GET "https://graph.microsoft.com/v1.0/me/todo/lists/L1/tasks"
                       "token-1" None)] /\
  access_token r.2 = Some "token-1".
Proof. vm_compute. auto. Qed.

(** The first call of a Gmail server builds the service, asks for the list
    and then for each message of it. *)
Example a_first_gmail_call :
  let r := gmail_mcp_server.list_messages mailbox "is:unread" 10 None gmail_new in
  (exists d, r.1 = Ok (JObj [("messages", JList [JObj d])]) /\
             dict_lookup "subject" d = Some (JStr "Re: Lunch")) /\
  api_log r.2
    = [EvService;
       EvApi (MessagesList [("userId", JStr "me"); ("q", JStr "is:unread");
                            ("maxResults", JInt 10)]);
       EvApi (MessagesGet (JStr "m1") "metadata" ["Subject"; "From"; "To"; "Date"])].
Proof. vm_compute. split; [by eexists|done]. Qed.

(** A reply is written to the sender, in the thread, with one [Re:]. *)
Example a_reply :
  api_log (gmail_mcp_server.reply_to_message env mailbox "m1" "ok" gmail_ready).2 !! 1
    = Some (EvApi (MessagesSend
                     [("raw", JStr ("base64:To: alice@example.com" +:+ LF
                                    +:+ "Subject: Re: Lunch" +:+ LF
                                    +:+ "In-Reply-To: <1@example.com>" +:+ LF
                                    +:+ "References: <1@example.com>" +:+ LF +:+ LF +:+ "ok"));
                      ("threadId", JStr "t1")])).
Proof. vm_compute. reflexivity. Qed.

(** The whole program on a short session: a greeting, a delegated request
    and the exit word.  Both servers are reached at the start and both
    clients are closed at the end, the To-Do client first. *)
Example a_whole_run :
  let r := main env closing (Some "key") [Line "hello"; Line request_text; Line "quit"]
             world_new in
  r.1 = Ok (Finished []) /\
  take 2 (trace r.2) = [EvConnect Todo; EvConnect Gmail] /\
  model_calls Master (trace r.2) = 2 /\
  drop (length (trace r.2) - 2) (trace r.2) = [EvDisconnect Todo; EvDisconnect Gmail] /\
  forall s, connected (obj s r.2) = false.
Proof. vm_compute. repeat split; by intros []. Qed.

(** The same program when the Gmail server is down: the failure is reported,
    the To-Do client stays open. *)
Example a_failed_start :
  let gmail_down :=
    {| mcp_enter := fun s _ =>
         match s with
         | Todo => Success tt
         | Gmail => Failure "ConnectionError" "connection refused"
         end;
       mcp_call_tool := server; json_loads := decode; llm_ainvoke := model;
       py_repr := py_repr env; system_prompt := system_prompt env;
       recursion_limit := 25; invalid_tool_text := invalid_tool_text env;
       tool_error_text := tool_error_text env; unicode_lower := unicode_lower env |} in
  let r := main gmail_down closing (Some "key") [Line "quit"] world_new in
  r.1 = Ok (Failed "Failed to initialize Gmail MCP server: connection refused") /\
  trace r.2 = [EvConnect Todo; EvConnect Gmail] /\
  connected (obj Todo r.2) = true.
Proof. vm_compute. auto. Qed.
